(** * RedditArchiver: orchestration core (config.py, controllers.py, app.py)

    A shallow embedding of the request handlers, the estimation model, the
    OAuth redirect construction, the maintenance tasks and the configuration
    loader, followed by the properties of the specification that they
    satisfy (or fail).

    Conventions of the embedding.
    - A Python [str] is a [string]; one character is one code point below
      256, so the model is exact on Latin-1 text.
    - A Python [float] is a double. A finite double is the rational [Q] it
      denotes; an operation returns the double nearest to its exact
      result, the one with an even last bit when two are as near
      ([Float.round]), and an infinity when that leaves the range
      ([Float.of_Q]). The time stamps the handlers receive (the clock,
      [started_at], the modification times) are finite doubles;
      [int(x)] of a float truncates toward zero.
    - A raised exception is the [Raise] result; a handler that reaches the
      end of its body returns [Ok].
    - Clock reads ([datetime.now]) and random draws ([secrets.token_urlsafe])
      are arguments of the function that performs them.
    - Calls to [log.*] only write to the logger and are left out, except
      where evaluating the logged expression can itself raise.
    - Modules that the handlers import but that are not part of the three
      files (models, utils, downloader, praw, json, yaml) appear as the
      operations of a type class, with no assumption on what they compute.
    - In controllers.py, lines 132-133 repeat the last argument and the
      closing parenthesis of the [praw.Reddit(...)] call of
      [get_refresh_token]; the function is read without the repetition. *)

From Stdlib Require Import ZArith QArith Qround Qabs Qpower String Ascii List
  Lia Lqa DecimalString.
From stdpp Require Import gmap strings.

Open Scope Z_scope.

(** ** Python values, exceptions and results *)

Inductive exn :=
| ValueError (msg : string)
| KeyError (key : string)
| TypeError
| AttributeError
| ZeroDivisionError
| OverflowError (msg : string)
| UnboundLocalError (var : string)
| OSError (path : string)
| SystemExit (code : Z)
| ExternalError (what : string).

Inductive result (A : Type) :=
| Ok (a : A)
| Raise (e : exn).
Arguments Ok {A} a.
Arguments Raise {A} e.

Definition bind {A B} (r : result A) (k : A -> result B) : result B :=
  match r with
  | Ok a => k a
  | Raise e => Raise e
  end.

Declare Scope py_scope.
Delimit Scope py_scope with py.
Notation "x <-- r ;; k" := (bind r (fun x => k))
  (at level 100, r at next level, right associativity) : py_scope.
Notation "r ;;; k" := (bind r (fun _ => k))
  (at level 100, right associativity) : py_scope.
Open Scope py_scope.

(** ** Strings *)

Module Str.

(** [str(n)] for an integer. *)
Definition of_Z (z : Z) : string := NilZero.string_of_int (Z.to_int z).

(** [s[n:]] *)
Fixpoint drop (n : nat) (s : string) : string :=
  match n, s with
  | O, _ => s
  | S n', String _ r => drop n' r
  | S _, EmptyString => EmptyString
  end.

(** [s.startswith(p)] *)
Definition startswith (p s : string) : bool := String.prefix p s.

(** [s.endswith(c)] for a one-character suffix. *)
Fixpoint ends_with_char (c : ascii) (s : string) : bool :=
  match s with
  | EmptyString => false
  | String a EmptyString => Ascii.eqb a c
  | String _ r => ends_with_char c r
  end.

(** [s[:-1]] *)
Fixpoint init (s : string) : string :=
  match s with
  | EmptyString => EmptyString
  | String _ EmptyString => EmptyString
  | String a r => String a (init r)
  end.

(** [c.isspace()] on the code points below 256: TAB..CR, FS..US, space,
    NEL and the no-break space. *)
Definition is_space (c : ascii) : bool :=
  let n := N_of_ascii c in
  ((9 <=? n) && (n <=? 13) || (28 <=? n) && (n <=? 32)
   || (n =? 133) || (n =? 160))%N.

Fixpoint lstrip (s : string) : string :=
  match s with
  | EmptyString => EmptyString
  | String a r => if is_space a then lstrip r else s
  end.

(** [s] without its longest suffix of characters that satisfy [p]. *)
Fixpoint rstrip_by (p : ascii -> bool) (s : string) : string :=
  match s with
  | EmptyString => EmptyString
  | String a r =>
      match rstrip_by p r with
      | EmptyString => if p a then EmptyString else String a EmptyString
      | r' => String a r'
      end
  end.

Definition rstrip (s : string) : string := rstrip_by is_space s.

(** [s.strip()] *)
Definition strip (s : string) : string := rstrip (lstrip s).

(** [s.lower()]: A-Z and the Latin-1 capitals other than the
    multiplication sign move up by 32. *)
Definition lower_char (c : ascii) : ascii :=
  let n := N_of_ascii c in
  if ((65 <=? n) && (n <=? 90)
      || (192 <=? n) && (n <=? 222) && negb (n =? 215))%N
  then ascii_of_N (n + 32) else c.

Fixpoint lower (s : string) : string :=
  match s with
  | EmptyString => EmptyString
  | String a r => String (lower_char a) (lower r)
  end.

(** [s.split(sep)] for a one-character separator. *)
Fixpoint split (sep : ascii) (s : string) : list string :=
  match s with
  | EmptyString => [EmptyString]
  | String a r =>
      if Ascii.eqb a sep then EmptyString :: split sep r
      else match split sep r with
           | h :: t => String a h :: t
           | [] => [String a EmptyString]
           end
  end.

Definition digit_of (c : ascii) : option Z :=
  let n := N_of_ascii c in
  if ((48 <=? n) && (n <=? 57))%N then Some (Z.of_N n - 48) else None.

(** Decimal digits, a single underscore allowed between two digits. *)
Fixpoint digits (acc : Z) (after_digit : bool) (s : string) : option Z :=
  match s with
  | EmptyString => if after_digit then Some acc else None
  | String c r =>
      match digit_of c with
      | Some d => digits (10 * acc + d) true r
      | None =>
          if Ascii.eqb c "_" && after_digit then digits acc false r else None
      end
  end.

(** The white space that [int()] skips on the code points below 256:
    TAB..CR and the space, and NEL and the no-break space, which it reads
    as spaces; FS..US are white space for [strip] but not for [int]. *)
Definition is_int_space (c : ascii) : bool :=
  let n := N_of_ascii c in
  ((9 <=? n) && (n <=? 13) || (n =? 32) || (n =? 133) || (n =? 160))%N.

(** [s] without its longest prefix of characters that satisfy [p]. *)
Fixpoint lstrip_by (p : ascii -> bool) (s : string) : string :=
  match s with
  | EmptyString => EmptyString
  | String a r => if p a then lstrip_by p r else s
  end.

(** The number of digit characters, underscores not counted. *)
Fixpoint digit_count (s : string) : Z :=
  match s with
  | EmptyString => 0
  | String c r =>
      match digit_of c with
      | Some _ => 1 + digit_count r
      | None => digit_count r
      end
  end.

Fixpoint contains_char (c : ascii) (s : string) : bool :=
  match s with
  | EmptyString => false
  | String a r => Ascii.eqb a c || contains_char c r
  end.

Definition backslash : ascii := ascii_of_nat 92.
Definition double_quote : ascii := ascii_of_nat 34.

Definition hex_digit (n : N) : ascii :=
  if (n <? 10)%N then ascii_of_N (48 + n) else ascii_of_N (87 + n).

(** [c.isprintable()] on the code points below 256. *)
Definition printable (c : ascii) : bool :=
  let n := N_of_ascii c in
  ((32 <=? n) && (n <=? 126) || (161 <=? n) && negb (n =? 173))%N.

Definition repr_char (quote c : ascii) : string :=
  let n := N_of_ascii c in
  if Ascii.eqb c quote || Ascii.eqb c backslash then
    String backslash (String c EmptyString)
  else if (n =? 9)%N then String backslash "t"
  else if (n =? 10)%N then String backslash "n"
  else if (n =? 13)%N then String backslash "r"
  else if printable c then String c EmptyString
  else String backslash
         (String "x" (String (hex_digit (n / 16)) (String (hex_digit (n mod 16))
            EmptyString))).

Fixpoint repr_body (quote : ascii) (s : string) : string :=
  match s with
  | EmptyString => EmptyString
  | String c r => repr_char quote c +:+ repr_body quote r
  end.

(** [repr(s)]: in single quotes, or in double quotes when [s] holds a
    single quote and no double quote. *)
Definition repr (s : string) : string :=
  let quote :=
    if contains_char "'" s && negb (contains_char double_quote s)
    then double_quote else "'"%char in
  String quote (repr_body quote s +:+ String quote EmptyString).

(** [int(s)] in base 10: white space around, an optional sign, then
    digits; more than 4300 digits are refused (the interpreter's default
    limit). *)
Definition to_int (s : string) : result Z :=
  let t := rstrip_by is_int_space (lstrip_by is_int_space s) in
  let '(negative, body) :=
    match t with
    | String "+" r => (false, r)
    | String "-" r => (true, r)
    | _ => (false, t)
    end in
  match digits 0 false body with
  | None => Raise (ValueError ("invalid literal for int() with base 10: " +:+ repr s))
  | Some z =>
      if 4300 <? digit_count body then
        Raise (ValueError
                 ("Exceeds the limit (4300 digits) for integer string conversion: value has "
                  +:+ of_Z (digit_count body)
                  +:+ " digits; use sys.set_int_max_str_digits() to increase the limit"))
      else Ok (if negative then - z else z)
  end.

(** [k] copies of the character [c]. *)
Fixpoint repeat (c : ascii) (k : nat) : string :=
  match k with
  | O => EmptyString
  | S k' => String c (repeat c k')
  end.

End Str.

(** ** The configuration dictionary *)

(** What a configuration key can hold: a string, an integer, a boolean, or
    a list of strings. *)
Inductive value :=
| VStr (s : string)
| VInt (z : Z)
| VBool (b : bool)
| VList (l : list string).

(** A top-level entry of [config]: a section (a nested dictionary), or the
    boolean that [config["docker"]] holds. The YAML document is taken to
    have this layout. *)
Inductive entry :=
| EBool (b : bool)
| ESection (m : gmap string value).

Abbreviation dict := (gmap string entry).

(** [str(v)]; what [str] prints for a list is left to the interpreter. *)
Class Builtins := { str_of_list : list string -> string }.

Definition py_str `{Builtins} (v : value) : string :=
  match v with
  | VStr s => s
  | VInt z => Str.of_Z z
  | VBool true => "True"
  | VBool false => "False"
  | VList l => str_of_list l
  end.

(** [k in config] *)
Definition contains (cfg : dict) (k : string) : bool :=
  bool_decide (is_Some (cfg !! k)).

(** [config[sec]], used as a dictionary *)
Definition section (cfg : dict) (sec : string) : result (gmap string value) :=
  match cfg !! sec with
  | None => Raise (KeyError sec)
  | Some (EBool _) => Raise TypeError
  | Some (ESection m) => Ok m
  end.

(** [k in config[sec]] *)
Definition sec_contains (cfg : dict) (sec k : string) : result bool :=
  m <-- section cfg sec ;; Ok (bool_decide (is_Some (m !! k))).

(** [config[sec][k]] *)
Definition getitem (cfg : dict) (sec k : string) : result value :=
  m <-- section cfg sec ;;
  match m !! k with
  | None => Raise (KeyError k)
  | Some v => Ok v
  end.

(** [config[sec][k] = v] *)
Definition setitem (cfg : dict) (sec k : string) (v : value) : result dict :=
  m <-- section cfg sec ;; Ok (<[sec := ESection (<[k := v]> m)]> cfg).

(** [if sec not in config: config[sec] = {}] *)
Definition ensure_section (cfg : dict) (sec : string) : dict :=
  if contains cfg sec then cfg else <[sec := ESection ∅]> cfg.

(** [sec not in config or k not in config[sec]] *)
Definition lacks (cfg : dict) (sec k : string) : result bool :=
  if negb (contains cfg sec) then Ok true
  else b <-- sec_contains cfg sec k ;; Ok (negb b).

(** ** config.py: loading the configuration *)

Module config.

Abbreviation environ := (gmap string string).

(** Truth value of [os.environ.get(var)]: set and not empty. *)
Definition env_set (env : environ) (var : string) : option string :=
  match env !! var with
  | Some (String _ _ as v) => Some v
  | _ => None
  end.

Definition create_default_config : dict :=
  {[ "app" := ESection ∅; "reddit" := ESection ∅; "paths" := ESection ∅;
     "defaults" := ESection ∅; "runtime" := ESection ∅ ]}.

(** Lines 21-36. [config_yml] and [config_docker_yml] are what
    [yaml.safe_load] returns for each file, [None] when the file does not
    exist. The result carries [config_found]. *)
Definition read_files (config_yml config_docker_yml : option dict)
    : result (dict * bool) :=
  match config_yml, config_docker_yml with
  | Some c, _ => Ok (<["docker" := EBool false]> c, true)
  | None, Some c =>
      let c := <["docker" := EBool true]> c in
      let c := <["paths" := ESection ∅]> c in
      c <-- setitem c "paths" "output" (VStr "output") ;;
      Ok (c, true)
  | None, None => Ok (create_default_config, false)
  end.

(** [if os.environ.get(var): if sec not in config: config[sec] = {};
    config[sec][k] = os.environ.get(var)] (lines 42-61) *)
Definition env_override (env : environ) (var sec k : string) (cfg : dict)
    : result dict :=
  match env_set env var with
  | Some v => setitem (ensure_section cfg sec) sec k (VStr v)
  | None => Ok cfg
  end.

(** Lines 63-70. *)
Definition reddit_root (env : environ) (cfg : dict) : result dict :=
  match env_set env "REDDIT_ROOT" with
  | Some v => setitem (ensure_section cfg "reddit") "reddit" "root" (VStr v)
  | None =>
      if contains cfg "reddit" then
        b <-- sec_contains cfg "reddit" "root" ;;
        if negb b then setitem cfg "reddit" "root" (VStr "https://www.reddit.com")
        else Ok cfg
      else Ok cfg
  end.

(** Lines 73-79 and 82-88: a section that always exists, one key taken
    from the environment or defaulted. *)
Definition env_or_default (env : environ) (var sec k dflt : string) (cfg : dict)
    : result dict :=
  let cfg := ensure_section cfg sec in
  match env_set env var with
  | Some v => setitem cfg sec k (VStr v)
  | None =>
      b <-- sec_contains cfg sec k ;;
      if negb b then setitem cfg sec k (VStr dflt) else Ok cfg
  end.

(** Lines 91-99. *)
Definition missing_config (cfg : dict) : result (list string) :=
  m1 <-- lacks cfg "app" "name" ;;
  m2 <-- lacks cfg "app" "url" ;;
  m3 <-- lacks cfg "reddit" "client-id" ;;
  m4 <-- lacks cfg "reddit" "client-secret" ;;
  Ok ((if m1 then ["app.name"] else [])
      ++ (if m2 then ["app.url"] else [])
      ++ (if m3 then ["reddit.client-id"] else [])
      ++ (if m4 then ["reddit.client-secret"] else []))%list.

(** Lines 101-106. *)
Definition check_essential (cfg : dict) (config_found : bool) : result unit :=
  missing <-- missing_config cfg ;;
  match missing with
  | _ :: _ => if negb config_found then Raise (SystemExit 1) else Ok tt
  | [] => Ok tt
  end.

(** Lines 109-116. *)
Definition standard_values `{Builtins} (cfg : dict) : result dict :=
  cfg <-- setitem cfg "app" "version" (VStr "1.2.0") ;;
  cfg <-- setitem cfg "app" "project"
            (VStr "https://github.com/Ailothaen/RedditArchiver") ;;
  has_name <-- sec_contains cfg "app" "name" ;;
  version <-- getitem cfg "app" "version" ;;
  if has_name then
    name <-- getitem cfg "app" "name" ;;
    setitem cfg "reddit" "agent"
      (VStr (py_str name +:+ " v" +:+ py_str version +:+ " (by u/ailothaen)"))
  else
    setitem cfg "reddit" "agent"
      (VStr ("RedditArchiver v" +:+ py_str version +:+ " (by u/ailothaen)")).

(** Lines 119-121:
    [config['runtime']['average'] = int(os.environ.get('AVERAGE_DOWNLOAD_TIME', '30'))] *)
Definition runtime_settings (env : environ) (cfg : dict) : result dict :=
  let cfg := ensure_section cfg "runtime" in
  z <-- Str.to_int (default "30"%string (env !! "AVERAGE_DOWNLOAD_TIME")) ;;
  setitem cfg "runtime" "average" (VInt z).

(** Lines 124-127. *)
Definition recursion_limit (env : environ) (cfg : dict) : result dict :=
  match env_set env "DISABLE_RECURSION_LIMIT" with
  | Some v =>
      setitem (ensure_section cfg "app") "app" "disable-recursion-limit"
        (VBool (String.eqb (Str.lower v) "true"))
  | None => Ok cfg
  end.

(** Lines 130-133. *)
Definition ip_restriction (env : environ) (cfg : dict) : result dict :=
  match env_set env "ONLY_ALLOW_FROM" with
  | Some v =>
      setitem (ensure_section cfg "app") "app" "only-allow-from"
        (VList (Str.split "," v))
  | None => Ok cfg
  end.

(** The configuration as it stands after line 133, before the last
    assignment to [config['runtime']['average']]. *)
Definition load_until_133 `{Builtins} (env : environ)
    (config_yml config_docker_yml : option dict) : result dict :=
  read <-- read_files config_yml config_docker_yml ;;
  let '(cfg, config_found) := read in
  cfg <-- env_override env "APP_NAME" "app" "name" cfg ;;
  cfg <-- env_override env "APP_URL" "app" "url" cfg ;;
  cfg <-- env_override env "REDDIT_CLIENT_ID" "reddit" "client-id" cfg ;;
  cfg <-- env_override env "REDDIT_CLIENT_SECRET" "reddit" "client-secret" cfg ;;
  cfg <-- reddit_root env cfg ;;
  cfg <-- env_or_default env "OUTPUT_PATH" "paths" "output" "output" cfg ;;
  cfg <-- env_or_default env "DATE_FORMAT" "defaults" "dateformat"
            "%a %Y-%m-%d at %H:%M" cfg ;;
  check_essential cfg config_found ;;;
  cfg <-- standard_values cfg ;;
  cfg <-- runtime_settings env cfg ;;
  cfg <-- recursion_limit env cfg ;;
  ip_restriction env cfg.

(** The module-level code of config.py up to line 134: the value of
    [config] that the other modules import. *)
Definition load `{Builtins} (env : environ)
    (config_yml config_docker_yml : option dict) : result dict :=
  cfg <-- load_until_133 env config_yml config_docker_yml ;;
  setitem cfg "runtime" "average" (VInt 30).

End config.

(** ** Floats *)

(** [int(x)] of a finite float: the integer part, rounded toward zero. *)
Definition int_of_float (x : Q) : Z := Z.quot (Qnum x) (Z.pos (Qden x)).

Module Float.

(** For [x > 0], the position of its leading bit: the [k] with
    [2^k <= x < 2^(k+1)]. *)
Definition ilog2 (x : Q) : Z :=
  let k := Z.log2 (Qnum x) - Z.log2 (Z.pos (Qden x)) in
  if Qle_bool (2 ^ k) x then k else k - 1.

(** The integer nearest to [x], the even one when two are as near. *)
Definition nearest_even (x : Q) : Z :=
  let f := Qfloor x in
  match (x - inject_Z f ?= 1 # 2)%Q with
  | Lt => f
  | Gt => f + 1
  | Eq => if Z.even f then f else f + 1
  end.

(** [x > 0] rounded to 53 significant bits; the last bit weighs at least
    [2^-1074] (the subnormal doubles). *)
Definition round_pos (x : Q) : Q :=
  let e := Z.max (ilog2 x - 52) (-1074) in
  (inject_Z (nearest_even (x / 2 ^ e)) * 2 ^ e)%Q.

(** The rounding of binary64 arithmetic, before the range is checked. *)
Definition round (x : Q) : Q :=
  Qred match Qnum x with
       | Z0 => 0
       | Z.pos _ => round_pos x
       | Z.neg _ => - round_pos (- x)
       end.

Inductive float :=
| Finite (x : Q)
| Infinity (negative : bool)
| NaN.

(** The double that an operation with the exact result [x] returns. *)
Definition of_Q (x : Q) : float :=
  let r := round x in
  if Qle_bool (2 ^ 1024) (Qabs r) then Infinity (Qnum r <? 0) else Finite r.

(** [x - y] *)
Definition sub (x y : float) : float :=
  match x, y with
  | Finite a, Finite b => of_Q (a - b)
  | Finite _, Infinity s => Infinity (negb s)
  | Infinity s, Finite _ => Infinity s
  | Infinity s, Infinity t => if Bool.eqb s t then NaN else Infinity s
  | _, _ => NaN
  end.

(** [a / b] for two integers: the double nearest to the quotient. *)
Definition truediv (a b : Z) : result float :=
  if b =? 0 then Raise ZeroDivisionError else
  match of_Q (inject_Z a / inject_Z b) with
  | Finite x => Ok (Finite x)
  | _ => Raise (OverflowError "integer division result too large for a float")
  end.

(** [int(x)] *)
Definition to_int (x : float) : result Z :=
  match x with
  | Finite x => Ok (int_of_float x)
  | Infinity _ => Raise (OverflowError "cannot convert float infinity to integer")
  | NaN => Raise (ValueError "cannot convert float NaN to integer")
  end.

(** [x > z] for an integer [z]; Python compares the two values exactly. *)
Definition gt_int (x : float) (z : Z) : bool :=
  match x with
  | Finite x => negb (Qle_bool x (inject_Z z))
  | Infinity negative => negb negative
  | NaN => false
  end.

(** The order of the doubles; NaN is not comparable. *)
Definition le (x y : float) : Prop :=
  match x, y with
  | NaN, _ | _, NaN => False
  | Infinity true, _ => True
  | _, Infinity false => True
  | Finite a, Finite b => (a <= b)%Q
  | _, _ => False
  end.

End Float.

(** The double-quote character, for the HTML attributes in the messages. *)
Definition dquote : string := String (ascii_of_nat 34) EmptyString.

(** ** Collaborators *)

(** Modelled from the spec: the Job record that models.read_job returns
    (models.py is not among the three files); the fields and their
    nullability follow the data model of the specification. *)
Record Job := {
  job_status : string;
  job_failure_reason : option string;
  job_started_at : Q;
  job_nb_replies : option Z;
  job_filename : option string
}.

Module models.
(** The datastore operations the handlers call, over an abstract
    connection state [DB]. *)
Class Datastore (DB : Type) := {
  create_job : DB -> string -> string -> string -> DB;
  read_job : DB -> string -> Job;
  create_token : DB -> option string -> string -> DB;
  calculate_average_eta : DB -> option Q
}.
End models.

Module utils.
Class Extractor := { extract_id : option string -> option string }.
End utils.

Module praw.
(** The arguments of [praw.Reddit(...)]. *)
Record Reddit := {
  client_id : value;
  client_secret : value;
  redirect_uri : string;
  user_agent : string
}.
(** [reddit.auth.authorize(code)]: the refresh token, or the exception
    the identity provider's answer raises. *)
Class Auth := { authorize : Reddit -> string -> result string }.
End praw.

Module json.
Inductive jval := JNull | JString (s : string).
Definition of_option (o : option string) : jval :=
  match o with Some s => JString s | None => JNull end.
(** [json.dumps] of a dictionary, given as its items in insertion order. *)
Class Encoder := { dumps : list (string * jval) -> string }.
End json.

(** A started [threading.Thread]. *)
Record Thread := {
  target_args : string * option string * string;
  name : string;
  daemon : bool
}.

(** An entry of the output directory; [removable] tells whether
    [os.remove] succeeds on it (it does not on a sub-directory, or on a
    file the process may not unlink). *)
Record File := {
  fname : string;
  mtime : Q;
  removable : bool
}.

(** What the handlers act upon: the datastore, the threads started so far,
    and the token exchanges sent to the identity provider so far. *)
Record World (DB : Type) := {
  db : DB;
  threads : list Thread;
  exchanges : list (praw.Reddit * string)
}.
Arguments db {DB} w.
Arguments threads {DB} w.
Arguments exchanges {DB} w.

(** ** controllers.py *)

Module controllers.

(** The [while app_url.endswith('/'): app_url = app_url[:-1]] loop; each
    turn shortens the string, so its length bounds the number of turns. *)
Fixpoint strip_slashes_loop (fuel : nat) (app_url : string) : string :=
  match fuel with
  | O => app_url
  | S fuel' =>
      if Str.ends_with_char "/" app_url
      then strip_slashes_loop fuel' (Str.init app_url)
      else app_url
  end.

Definition get_oauth_redirect_uri (config : dict) : result string :=
  missing <-- lacks config "app" "url" ;;
  if missing then Raise (ValueError "Missing app.url configuration") else
  url <-- getitem config "app" "url" ;;
  match url with
  | VStr url =>
      let app_url := Str.strip url in
      app_url <--
        (if negb (Str.startswith "https://" app_url) then
           if Str.startswith "http://" app_url
           then Ok ("https://" +:+ Str.drop 7 app_url)
           else Raise (ValueError ("Invalid URL: " +:+ app_url
                                     +:+ " - must use HTTPS protocol"))
         else Ok app_url) ;;
      let app_url := strip_slashes_loop (String.length app_url) app_url in
      Ok (app_url +:+ "/token")
  | _ => Raise AttributeError
  end.

Section handlers.
Context {DB : Type} `{models.Datastore DB} `{utils.Extractor}
        `{praw.Auth} `{json.Encoder} `{Builtins}.

(** [job_id] is the value of [secrets.token_urlsafe(16)], [submission]
    the form field "submission-id", [g_cookie] and [g_token] the
    request-scoped [flask.g.cookie] and [flask.g.token]. *)
Definition request (g_cookie : string) (g_token : option string)
    (submission : option string) (job_id : string) (w : World DB)
    : result string * World DB :=
  match utils.extract_id submission with
  | None => (Raise (ValueError "BAD_URL"), w)
  | Some submission_id =>
      let db' := models.create_job (db w) job_id submission_id g_cookie in
      let worker := {| target_args := (submission_id, g_token, job_id);
                       name := job_id;
                       daemon := true |} in
      (Ok job_id,
       {| db := db'; threads := threads w ++ [worker];
          exchanges := exchanges w |})
  end.

(** The part of [get_refresh_token] that precedes the call to the
    identity provider: the client, and the code to authorize. *)
Definition prepare_exchange (config : dict) (code : option string)
    : result (praw.Reddit * string) :=
  redirect_uri <-- get_oauth_redirect_uri config ;;
  version <-- getitem config "app" "version" ;;
  let user_agent := "rarchiver v" +:+ py_str version +:+ " (by u/ailothaen)" in
  no_id <-- lacks config "reddit" "client-id" ;;
  no_secret <-- (if no_id then Ok true else lacks config "reddit" "client-secret") ;;
  if no_secret then Raise (ValueError "Missing Reddit API credentials") else
  client_id <-- getitem config "reddit" "client-id" ;;
  client_secret <-- getitem config "reddit" "client-secret" ;;
  let reddit := {| praw.client_id := client_id;
                   praw.client_secret := client_secret;
                   praw.redirect_uri := redirect_uri;
                   praw.user_agent := user_agent |} in
  match code with
  | Some (String _ _ as code) => Ok (reddit, code)
  | _ => Raise (ValueError "No code parameter received from Reddit")
  end.

(** [code] is the query parameter "code". An exception raised inside
    the [try] is logged and raised again. *)
Definition get_refresh_token (config : dict) (code : option string)
    (w : World DB) : result string * World DB :=
  match prepare_exchange config code with
  | Raise e => (Raise e, w)
  | Ok (reddit, code) =>
      (praw.authorize reddit code,
       {| db := db w; threads := threads w;
          exchanges := exchanges w ++ [(reddit, code)] |})
  end.

Definition project_link (config : dict) (before after : string)
    : result (option string) :=
  project <-- getitem config "app" "project" ;;
  match project with
  | VStr project => Ok (Some (before +:+ project +:+ after))
  | _ => Raise TypeError
  end.

Definition msg_server_issue_head : string :=
  "Your request cannot be completed because of an issue in the server. Please contact the administrator and tell them to look in the error logs. If you are the administrator and cannot resolve the problem, please <a href=" +:+ dquote.
Definition msg_bad_authentication_head : string :=
  "It looks like your Reddit account does no longer allow Reddit Archiver to read Reddit on its behalf. Please try to allow it again by clicking here. If it still does not work, please <a href=" +:+ dquote.
Definition msg_link_tail : string :=
  dquote +:+ " target=" +:+ dquote +:+ "_blank" +:+ dquote
    +:+ ">open an issue on the GitHub</a>.".
Definition msg_submission_not_found : string :=
  "The submission could not be found. Please check if the submission (still) exists.".
Definition msg_bad_url : string :=
  "The link you provided is not a valid Reddit submission. Please check it and submit it again.".

Definition error_message (config : dict) (reason : option string)
    : result (option string) :=
  if bool_decide (reason = Some "SUBMISSION_NOT_FOUND"%string) then
    Ok (Some msg_submission_not_found)
  else if bool_decide (reason = Some "BAD_AUTHENTICATION"%string) then
    project_link config msg_bad_authentication_head msg_link_tail
  else if bool_decide (reason = Some "BAD_URL"%string) then
    Ok (Some msg_bad_url)
  else if bool_decide (reason = Some "BAD_PERMISSIONS"%string) then
    project_link config msg_server_issue_head msg_link_tail
  else if bool_decide (reason = Some "UNKNOWN"%string) then
    project_link config msg_server_issue_head msg_link_tail
  else Ok None.

Definition msg_longer : string :=
  "It seems that the retrieval is taking a bit more time than expected. Please stand by...".
Definition msg_less_than_10 : string :=
  "Estimated remaining time: less than 10 seconds".
Definition msg_seconds (r : Z) : string :=
  "Estimated remaining time: " +:+ Str.of_Z r +:+ " seconds".
Definition msg_minutes (m s : Z) : string :=
  "Estimated remaining time: " +:+ Str.of_Z m +:+ " minutes, "
    +:+ Str.of_Z s +:+ " seconds".

(** [now] is the value of [datetime.datetime.now(utc).timestamp()]. *)
Definition calculate_estimated_time
    (now : Q) (start_time : Q) (nb_replies : option Z) (average : Z)
    : result (option string) :=
  match nb_replies with
  | None => Ok None
  | Some n =>
      let elapsed := Float.sub (Float.Finite now) (Float.Finite start_time) in
      estimated_total <-- Float.truediv n average ;;
      estimated_remaining <-- Float.to_int (Float.sub estimated_total elapsed) ;;
      if estimated_remaining <? 0 then Ok (Some msg_longer)
      else if estimated_remaining <? 10 then Ok (Some msg_less_than_10)
      else if estimated_remaining <? 60 then
        Ok (Some (msg_seconds estimated_remaining))
      else
        let '(m, s) := (estimated_remaining / 60, estimated_remaining mod 60) in
        Ok (Some (msg_minutes m s))
  end.

(** The quantity the thresholds are about: the double
    [estimated_total - elapsed] of line 179, before [int(...)]. *)
Definition remaining (now start_time : Q) (n average : Z) : result Float.float :=
  let elapsed := Float.sub (Float.Finite now) (Float.Finite start_time) in
  estimated_total <-- Float.truediv n average ;;
  Ok (Float.sub estimated_total elapsed).

(** The same quantity in exact arithmetic, as the specification writes it. *)
Definition exact_remaining (now start_time : Q) (n average : Z) : Q :=
  (inject_Z n / inject_Z average - (now - start_time))%Q.

(** [calculate_estimated_time] called with [config['runtime']['average']]:
    an integer (or a boolean, which Python divides by as 0 or 1); with
    anything else the division raises. *)
Definition estimated_time_with (now : Q) (job : Job) (average : value)
    : result (option string) :=
  match average with
  | VInt z => calculate_estimated_time now (job_started_at job) (job_nb_replies job) z
  | VBool b =>
      calculate_estimated_time now (job_started_at job) (job_nb_replies job)
        (if b then 1 else 0)
  | _ => match job_nb_replies job with
         | None => Ok None
         | Some _ => Raise TypeError
         end
  end.

(** The dictionary that [status] serializes. *)
Definition status_payload (st : string) (message eta : option string)
    : list (string * json.jval) :=
  [("status"%string, json.JString st);
   ("error_message"%string, json.of_option message);
   ("eta"%string, json.of_option eta)].

Definition status (config : dict) (now : Q) (job_id : string) (w : World DB)
    : result (Z * string) :=
  let job := models.read_job (db w) job_id in
  message <-- error_message config (job_failure_reason job) ;;
  average <-- getitem config "runtime" "average" ;;
  eta <-- estimated_time_with now job average ;;
  let data := json.dumps (status_payload (job_status job) message eta) in
  if String.eqb (job_status job) "ongoing" then Ok (409, data)
  else if String.eqb (job_status job) "failure" then Ok (404, data)
  else if String.eqb (job_status job) "success" then Ok (200, data)
  else if String.eqb (job_status job) "notfound" then Ok (404, data)
  else Raise (UnboundLocalError "status").

Definition get_filename (job_id : string) (w : World DB) : option string :=
  job_filename (models.read_job (db w) job_id).

(** [db] is the connection that [models.connect()] opens. *)
Definition calculate_average_eta (config : dict) (db : DB) : result dict :=
  match models.calculate_average_eta db with
  | None => setitem config "runtime" "average" (VInt 30)
  | Some average => setitem config "runtime" "average" (VInt (int_of_float average))
  end.

End handlers.

(** [os.path.getmtime] and [os.remove] on the output directory. *)
Definition getmtime (output : list File) (file : string) : result Q :=
  match List.find (fun f => String.eqb (fname f) file) output with
  | Some f => Ok (mtime f)
  | None => Raise (OSError file)
  end.

Definition os_remove (output : list File) (file : string) : result (list File) :=
  match List.find (fun f => String.eqb (fname f) file) output with
  | Some f =>
      if removable f
      then Ok (List.filter (fun g => negb (String.eqb (fname g) file)) output)
      else Raise (OSError file)
  | None => Raise (OSError file)
  end.

(** [(now - mtime) > 86400] *)
Definition too_old (now mtime : Q) : bool :=
  Float.gt_int (Float.sub (Float.Finite now) (Float.Finite mtime)) 86400.

(** The [for file in files] loop: the directory as the loop leaves it,
    and whether it ran to its end or an exception left it. *)
Fixpoint sweep (now : Q) (files : list string) (output : list File)
    : result unit * list File :=
  match files with
  | [] => (Ok tt, output)
  | file :: rest =>
      match getmtime output file with
      | Raise e => (Raise e, output)
      | Ok mtime =>
          if too_old now mtime then
            match os_remove output file with
            | Raise e => (Raise e, output)
            | Ok output' => sweep now rest output'
            end
          else sweep now rest output
      end
  end.

(** [output] is the content of the directory 'output', in the order in
    which [os.listdir] returns it. *)
Definition cleanup_downloads (now : Q) (output : list File)
    : result unit * list File :=
  let files := List.map fname output in
  sweep now files output.

End controllers.

(** ** The tables of the specification

    Written from sections 4.4 and 7 of the specification, to be compared
    with [controllers.status] and [controllers.error_message]. *)

Module tables.

(** Failure reason to user-facing message; [project] is the address of the
    issue tracker. *)
Definition error_table (project : string) : list (string * string) :=
  [("SUBMISSION_NOT_FOUND"%string, controllers.msg_submission_not_found);
   ("BAD_AUTHENTICATION"%string,
    controllers.msg_bad_authentication_head +:+ project +:+ controllers.msg_link_tail);
   ("BAD_URL"%string, controllers.msg_bad_url);
   ("BAD_PERMISSIONS"%string,
    controllers.msg_server_issue_head +:+ project +:+ controllers.msg_link_tail);
   ("UNKNOWN"%string,
    controllers.msg_server_issue_head +:+ project +:+ controllers.msg_link_tail)].

Definition assoc {A} (table : list (string * A)) (key : string) : option A :=
  snd <$> List.find (fun e => String.eqb (fst e) key) table.

(** Null when the reason is absent or not in the table. *)
Definition message_for (project : string) (reason : option string) : option string :=
  match reason with
  | Some r => assoc (error_table project) r
  | None => None
  end.

(** Section 4.2: the base URL without its trailing slashes, followed by
    [/token]; [http://] becomes [https://], any other scheme is an error. *)
Definition is_slash (a : ascii) : bool := Ascii.eqb a "/".

Definition redirect_uri (base_url : string) : result string :=
  if Str.startswith "https://" base_url then
    Ok (Str.rstrip_by is_slash base_url +:+ "/token")
  else if Str.startswith "http://" base_url then
    Ok (Str.rstrip_by is_slash ("https://" +:+ Str.drop 7 base_url) +:+ "/token")
  else
    Raise (ValueError ("Invalid URL: " +:+ base_url +:+ " - must use HTTPS protocol")).

(** Job status to result code. *)
Definition code_table : list (string * Z) :=
  [("ongoing"%string, 409); ("failure"%string, 404);
   ("success"%string, 200); ("notfound"%string, 404)].

End tables.

(** ** app.py *)

Module app.

(** What [token] reads from the request: the query parameters "state"
    and "code" and the cookie "redditarchive_id". *)
Record Callback := {
  arg_state : option string;
  arg_code : option string;
  cookie_redditarchive_id : option string
}.

Inductive Response :=
| Text (body : string) (code : Z)
| Redirect (location : string) (code : Z).

(** [except Exception] lets [SystemExit] through. *)
Definition is_Exception (e : exn) : bool :=
  match e with SystemExit _ => false | _ => true end.

Section routes.
Context {DB : Type} `{models.Datastore DB} `{utils.Extractor}
        `{praw.Auth} `{json.Encoder} `{Builtins}.

Definition token (config : dict) (req : Callback) (w : World DB)
    : result Response * World DB :=
  let cookie := arg_state req in
  (* line 96: the log line reads config['app']['url'] *)
  match getitem config "app" "url" with
  | Raise e => (Raise e, w)
  | Ok _ =>
      let current_cookie := cookie_redditarchive_id req in
      if negb (bool_decide (cookie = current_cookie)) then
        (Ok (Text "Authentication failed: state parameter does not match cookie." 400), w)
      else
        match controllers.get_refresh_token config (arg_code req) w with
        | (Raise e, w') =>
            if is_Exception e then
              (Ok (Text "Reddit did not recognize the code given. This should not happen." 400), w')
            else (Raise e, w')
        | (Ok refresh_token, w') =>
            (Ok (Redirect "/" 303),
             {| db := models.create_token (db w') cookie refresh_token;
                threads := threads w'; exchanges := exchanges w' |})
        end
  end.

(** The outcome of the route [/request]: the template rendered and
    the entry it finds in [flask.g.data]. *)
Inductive RequestPage :=
| request_html (job_id : string)
| request_error_html (error_message : option string).

Definition request (config : dict) (g_cookie : string) (g_token : option string)
    (submission : option string) (job_id : string) (w : World DB)
    : result RequestPage * World DB :=
  match controllers.request g_cookie g_token submission job_id w with
  | (Ok job_id, w') => (Ok (request_html job_id), w')
  | (Raise (ValueError e), w') =>
      (m <-- controllers.error_message config (Some e) ;;
       Ok (request_error_html m), w')
  | (Raise e, w') => (Raise e, w')
  end.

End routes.

End app.

(** ** A small instantiation of the collaborators

    Used only to run the handlers on concrete inputs; it stands for no
    part of models.py, utils.py, praw or json. *)

Module sample.

Record Store := {
  jobs : list (string * Job);
  tokens : list (option string * string)
}.

Definition new_job : Job :=
  {| job_status := "ongoing"; job_failure_reason := None; job_started_at := 0;
     job_nb_replies := None; job_filename := None |}.

Definition no_job : Job :=
  {| job_status := "notfound"; job_failure_reason := None; job_started_at := 0;
     job_nb_replies := None; job_filename := None |}.

#[export] Instance datastore : models.Datastore Store := {|
  models.create_job s job_id submission_id cookie :=
    {| jobs := (job_id, new_job) :: jobs s; tokens := tokens s |};
  models.read_job s job_id :=
    match List.find (fun j => String.eqb (fst j) job_id) (jobs s) with
    | Some j => snd j
    | None => no_job
    end;
  models.create_token s cookie refresh_token :=
    {| jobs := jobs s; tokens := (cookie, refresh_token) :: tokens s |};
  models.calculate_average_eta s := None
|}.

(** Accepts a bare identifier (letters and digits) and nothing else. *)
Fixpoint alphanumeric (s : string) : bool :=
  match s with
  | EmptyString => true
  | String a r =>
      let n := N_of_ascii a in
      ((48 <=? n) && (n <=? 57) || (65 <=? n) && (n <=? 90)
       || (97 <=? n) && (n <=? 122))%N && alphanumeric r
  end.

#[export] Instance extractor : utils.Extractor := {|
  utils.extract_id submission :=
    match submission with
    | Some (String _ _ as s) => if alphanumeric s then Some s else None
    | _ => None
    end
|}.

#[export] Instance auth : praw.Auth := {|
  praw.authorize reddit code :=
    if String.eqb code "granted" then Ok "refresh-token"%string
    else Raise (ExternalError "invalid_grant")
|}.

Definition show (item : string * json.jval) : string :=
  match snd item with
  | json.JNull => fst item +:+ "=null;"
  | json.JString s => fst item +:+ "=" +:+ s +:+ ";"
  end.

#[export] Instance encoder : json.Encoder := {|
  json.dumps items := String.concat EmptyString (List.map show items)
|}.

#[export] Instance builtins : Builtins := {|
  str_of_list l := String.concat "," l
|}.

(** A datastore whose only answer is the average [a]. *)
Definition constant_average (a : Q) : models.Datastore unit :=
  {| models.create_job _ _ _ _ := tt;
     models.read_job _ _ := no_job;
     models.create_token _ _ _ := tt;
     models.calculate_average_eta _ := Some a |}.

Definition empty_world : World Store :=
  {| db := {| jobs := []; tokens := [] |}; threads := []; exchanges := [] |}.

(** A configuration that holds nothing but [app.url]. *)
Definition with_url (url : string) : dict :=
  {[ "app"%string := ESection {[ "url"%string := VStr url ]} ]}.

(** The environment of a deployment configured through variables only. *)
Definition env : config.environ :=
  {[ "APP_NAME" := "Archiver"; "APP_URL" := "https://example.com///";
     "REDDIT_CLIENT_ID" := "id"; "REDDIT_CLIENT_SECRET" := "secret";
     "AVERAGE_DOWNLOAD_TIME" := "45" ]}%string.

(** The configuration that [config.load] builds from [env]. *)
Definition cfg : dict :=
  match config.load env None None with
  | Ok c => c
  | Raise _ => ∅
  end.

End sample.

(** ** controllers.py and app.py: the remaining handlers *)

Module praw_auth.
(** [reddit.auth.url(duration=..., scopes=..., state=...)]: the address of
    the identity provider's authorization page. *)
Class UrlBuilder := { url : praw.Reddit -> string -> list string -> string -> string }.
End praw_auth.

Module auth.
(** auth.py is not among the three files: [is_client_allowed(client_ip)]
    (which consults the configuration) and the value that [manage_cookie()]
    leaves in [flask.g.cookie], given the cookie of the request. *)
Class Sessions := {
  is_client_allowed : dict -> option string -> bool;
  manage_cookie : option string -> string
}.
End auth.

Module models_read.
(** [models.read_token(db, cookie)] *)
Class Tokens (DB : Type) := { read_token : DB -> string -> option string }.
End models_read.

Module controllers_auth.

Section crafting.
Context `{praw_auth.UrlBuilder} `{Builtins}.

(** [g_cookie] is [flask.g.cookie]. Line 96 logs [config['app']['url']]. *)
Definition craft_authentication_url (config : dict) (g_cookie : string)
    : result string :=
  redirect_uri <-- controllers.get_oauth_redirect_uri config ;;
  version <-- getitem config "app" "version" ;;
  let user_agent := "rarchiver v" +:+ py_str version +:+ " (by u/ailothaen)" in
  no_id <-- lacks config "reddit" "client-id" ;;
  no_secret <-- (if no_id then Ok true else lacks config "reddit" "client-secret") ;;
  if no_secret then Raise (ValueError "Missing Reddit API credentials") else
  client_id <-- getitem config "reddit" "client-id" ;;
  client_secret <-- getitem config "reddit" "client-secret" ;;
  let reddit := {| praw.client_id := client_id;
                   praw.client_secret := client_secret;
                   praw.redirect_uri := redirect_uri;
                   praw.user_agent := user_agent |} in
  getitem config "app" "url" ;;;
  Ok (praw_auth.url reddit "permanent" ["read"%string] g_cookie).

End crafting.

End controllers_auth.

Module app_pages.

(** The template that the route [/] renders. *)
Inductive MainPage :=
| main_unauthenticated_html (auth_url : string)
| main_authenticated_html.

(** What [before_request_callback] reads from the request. *)
Record Incoming := {
  endpoint : option string;
  x_forwarded_for : list string;
  remote_addr : option string;
  cookie : option string
}.

(** How [before_request_callback] ends: [flask.abort(403)], or the request
    goes on, with [flask.g.cookie] and [flask.g.token] when the cookie is
    managed for the endpoint. *)
Inductive Before :=
| Forbidden
| Ready (session : option (string * option string)).

(** Truth value of a configuration value. *)
Definition truthy (v : value) : bool :=
  match v with
  | VStr EmptyString => false
  | VStr _ => true
  | VInt z => negb (z =? 0)
  | VBool b => b
  | VList [] => false
  | VList _ => true
  end.

(** ["only-allow-from" in config.get("app", {}) and
    config.get("app", {}).get("only-allow-from")] *)
Definition allow_list_active (config : dict) : result bool :=
  match config !! "app" with
  | None => Ok false
  | Some (EBool _) => Raise TypeError
  | Some (ESection m) =>
      match m !! "only-allow-from" with
      | None => Ok false
      | Some v => Ok (truthy v)
      end
  end.

Definition unmanaged_endpoints : list string :=
  ["token"; "favicon"; "status"; "download"]%string.

Section pages.
Context {DB : Type} `{auth.Sessions} `{models_read.Tokens DB}
        `{praw_auth.UrlBuilder} `{Builtins}.

(** [db] is the connection that [models.connect()] opens. *)
Definition before_request_callback (config : dict) (req : Incoming) (db : DB)
    : result Before :=
  active <-- allow_list_active config ;;
  let forwarded_ips := x_forwarded_for req in
  let client_ip :=
    match forwarded_ips with
    | ip :: _ => Some ip
    | [] => remote_addr req
    end in
  if active && negb (auth.is_client_allowed config client_ip) then Ok Forbidden
  else
    match endpoint req with
    | Some e =>
        if bool_decide (e ∈ unmanaged_endpoints) then Ok (Ready None)
        else
          let g_cookie := auth.manage_cookie (cookie req) in
          Ok (Ready (Some (g_cookie, models_read.read_token db g_cookie)))
    | None =>
        let g_cookie := auth.manage_cookie (cookie req) in
        Ok (Ready (Some (g_cookie, models_read.read_token db g_cookie)))
    end.

(** The route [/]. *)
Definition main (config : dict) (g_cookie : string) (g_token : option string)
    : result MainPage :=
  match g_token with
  | None =>
      auth_url <-- controllers_auth.craft_authentication_url config g_cookie ;;
      Ok (main_unauthenticated_html auth_url)
  | Some _ => Ok main_authenticated_html
  end.

End pages.

(** The route [/debug-config]: the items of [safe_config['app']]. *)
Definition debug_config (config : dict) : result (list (string * option value)) :=
  match config !! "app" with
  | None => Raise (KeyError "app")
  | Some (EBool _) => Raise AttributeError
  | Some (ESection app) =>
      Ok [("url"%string, app !! "url"); ("name"%string, app !! "name");
          ("version"%string, app !! "version")]
  end.

End app_pages.

(** More of the small instantiation, for the handlers above. *)
Module sample_pages.

#[export] Instance url_builder : praw_auth.UrlBuilder := {|
  praw_auth.url reddit duration scopes state :=
    "https://idp.example/authorize?redirect_uri=" +:+ praw.redirect_uri reddit
      +:+ "&duration=" +:+ duration +:+ "&scope=" +:+ String.concat "," scopes
      +:+ "&state=" +:+ state
|}.

#[export] Instance sessions : auth.Sessions := {|
  auth.is_client_allowed config client_ip :=
    match client_ip with
    | Some ip => String.eqb ip "10.0.0.1"
    | None => false
    end;
  auth.manage_cookie cookie := default "fresh-cookie"%string cookie
|}.

#[export] Instance tokens : models_read.Tokens sample.Store := {|
  models_read.read_token s cookie :=
    snd <$> List.find (fun t => bool_decide (fst t = Some cookie)) (sample.tokens s)
|}.

(** A configuration file with its own [app.url] and an empty [reddit]
    section. *)
Definition file_config : dict :=
  <["reddit" := ESection ∅]> (sample.with_url "http://from-the-file.example").

(** What [config.load] builds from that file and [sample.env]. *)
Definition file_cfg : dict :=
  match config.load (H := sample.builtins) sample.env (Some file_config) None with
  | Ok c => c
  | Raise _ => ∅
  end.

(** A deployment that restricts access and lifts the recursion limit. *)
Definition gated_env : config.environ :=
  <["ONLY_ALLOW_FROM" := "10.0.0.1,10.0.0.2"%string]>
    (<["DISABLE_RECURSION_LIMIT" := "TRUE"%string]> sample.env).

Definition gated_cfg : dict :=
  match config.load (H := sample.builtins) gated_env None None with
  | Ok c => c
  | Raise _ => ∅
  end.

End sample_pages.

(** ** Frames for the configuration loader *)

(** [cfg'] is [cfg], or [cfg] after the single assignment
    [config[sec][k] = v], the section being created empty first when it
    does not exist. *)
Definition touches (sec k : string) (cfg cfg' : dict) : Prop :=
  cfg' = cfg
  \/ exists m v,
       (cfg !! sec = Some (ESection m) \/ (cfg !! sec = None /\ m = ∅))
       /\ cfg' = <[sec := ESection (<[k := v]> m)]> cfg.

(** The variables that override a key of the configuration, with the
    section and the key they override. *)
Definition overrides : list (string * (string * string)) :=
  [("APP_NAME", ("app", "name")); ("APP_URL", ("app", "url"));
   ("REDDIT_CLIENT_ID", ("reddit", "client-id"));
   ("REDDIT_CLIENT_SECRET", ("reddit", "client-secret"));
   ("REDDIT_ROOT", ("reddit", "root")); ("OUTPUT_PATH", ("paths", "output"));
   ("DATE_FORMAT", ("defaults", "dateformat"))]%string.

(** [cfg'] is [cfg] after assignments to the listed keys, in that order
    (each of them possibly skipped). *)
Inductive writes : list (string * string) -> dict -> dict -> Prop :=
| writes_nil cfg : writes [] cfg cfg
| writes_cons sec k l a b c :
    touches sec k a b -> writes l b c -> writes ((sec, k) :: l) a c.

(** The keys that get a default value, with the variable that overrides
    them and the default. *)
Definition defaults_table : list (string * (string * string) * string) :=
  [("REDDIT_ROOT", ("reddit", "root"), "https://www.reddit.com");
   ("OUTPUT_PATH", ("paths", "output"), "output");
   ("DATE_FORMAT", ("defaults", "dateformat"), "%a %Y-%m-%d at %H:%M")]%string.

(** A result that is not [SystemExit]. *)
Definition not_exit {A} (r : result A) : Prop :=
  forall code, r <> Raise (SystemExit code).

(** The five sections of the default configuration are sections of [cfg]. *)
Definition sections_ok (cfg : dict) : Prop :=
  forall sec, In sec ["app"; "reddit"; "paths"; "defaults"; "runtime"]%string ->
              exists m, cfg !! sec = Some (ESection m).
(* ====================================================================== *)
(** * Properties *)
(* ====================================================================== *)

(** ** Truncation toward zero against rational thresholds *)

Lemma int_of_float_neg (x : Q) : int_of_float x < 0 <-> (x <= -1)%Q.
Proof.
  destruct x as [a d]. unfold int_of_float, Qle. cbn [Qnum Qden].
  pose proof (Z.quot_rem' a (Z.pos d)) as E.
  destruct (Z_lt_le_dec a 0) as [Ha|Ha].
  - pose proof (Z.rem_bound_pos_neg a (Z.pos d) ltac:(lia) ltac:(lia)). nia.
  - pose proof (Z.rem_bound_pos a (Z.pos d) Ha ltac:(lia)). nia.
Qed.

Lemma int_of_float_lt (x : Q) (k : Z) :
  0 < k -> (int_of_float x < k <-> (x < inject_Z k)%Q).
Proof.
  intros Hk. destruct x as [a d]. unfold int_of_float, Qlt. cbn [Qnum Qden inject_Z].
  pose proof (Z.quot_rem' a (Z.pos d)) as E.
  destruct (Z_lt_le_dec a 0) as [Ha|Ha].
  - pose proof (Z.rem_bound_pos_neg a (Z.pos d) ltac:(lia) ltac:(lia)). nia.
  - pose proof (Z.rem_bound_pos a (Z.pos d) Ha ltac:(lia)). nia.
Qed.
Lemma int_of_float_le_neg (x : Q) (k : Z) :
  k < 0 -> (int_of_float x <= k <-> (x <= inject_Z k)%Q).
Proof.
  intros Hk. destruct x as [a d]. unfold int_of_float, Qle. cbn [Qnum Qden inject_Z].
  pose proof (Z.quot_rem' a (Z.pos d)) as E.
  destruct (Z_lt_le_dec a 0) as [Ha|Ha].
  - pose proof (Z.rem_bound_pos_neg a (Z.pos d) ltac:(lia) ltac:(lia)). nia.
  - pose proof (Z.rem_bound_pos a (Z.pos d) Ha ltac:(lia)). nia.
Qed.

(** [int] of a float is monotone. *)
Lemma int_of_float_monotone (x y : Q) :
  (x <= y)%Q -> int_of_float x <= int_of_float y.
Proof.
  intros Hxy. destruct (Z_le_gt_dec (int_of_float x) (int_of_float y)) as [|Hgt];
    [assumption | exfalso].
  destruct (Z_lt_le_dec 0 (int_of_float x)) as [Hpos|Hneg].
  - assert (y < inject_Z (int_of_float x))%Q as Hy
      by (apply int_of_float_lt; lia).
    assert (~ (x < inject_Z (int_of_float x))%Q) as Hx
      by (intros Hx; apply int_of_float_lt in Hx; lia).
    apply Hx. eapply Qle_lt_trans; eassumption.
  - assert (y <= inject_Z (int_of_float x - 1))%Q as Hy
      by (apply int_of_float_le_neg; lia).
    assert (~ (x <= inject_Z (int_of_float x - 1))%Q) as Hx
      by (intros Hx; apply int_of_float_le_neg in Hx; lia).
    apply Hx. eapply Qle_trans; eassumption.
Qed.

(** ** Double-precision rounding *)

Lemma pow2_pos (e : Z) : (0 < 2 ^ e)%Q.
Proof. now apply Qpower_0_lt. Qed.

Lemma pow2_plus (a b : Z) : (2 ^ (a + b) == 2 ^ a * 2 ^ b)%Q.
Proof. now apply Qpower_plus. Qed.

Lemma pow2_le (a b : Z) : a <= b -> (2 ^ a <= 2 ^ b)%Q.
Proof. intros H. now apply Qpower_le_compat_l. Qed.

Lemma pow2_lt_inv (a b : Z) : (2 ^ a < 2 ^ b)%Q -> a < b.
Proof. intros H. now apply (Qpower_lt_compat_l_inv 2). Qed.

Lemma pow2_log2 (n : Z) :
  0 < n -> (2 ^ Z.log2 n <= inject_Z n)%Q /\ (inject_Z n < 2 * 2 ^ Z.log2 n)%Q.
Proof.
  intros Hn. destruct (Z.log2_spec n Hn) as [Hlo Hhi].
  pose proof (Z.log2_nonneg n) as Hnn.
  rewrite <- (Zpower_Qpower 2 _ Hnn).
  rewrite Z.pow_succ_r in Hhi by assumption.
  split.
  - now rewrite <- Zle_Qle.
  - change 2%Q with (inject_Z 2). rewrite <- inject_Z_mult. now rewrite <- Zlt_Qlt.
Qed.

Lemma ilog2_spec (x : Q) :
  (0 < x)%Q -> (2 ^ Float.ilog2 x <= x)%Q /\ (x < 2 ^ (Float.ilog2 x + 1))%Q.
Proof.
  intros Hx. destruct x as [a d].
  assert (0 < a) as Ha by (unfold Qlt in Hx; cbn in Hx; lia).
  unfold Float.ilog2. cbn [Qnum Qden]. cbv zeta.
  set (la := Z.log2 a). set (ld := Z.log2 (Z.pos d)).
  destruct (pow2_log2 a Ha) as [Halo Hahi]. fold la in Halo, Hahi.
  destruct (pow2_log2 (Z.pos d) ltac:(lia)) as [Hdlo Hdhi]. fold ld in Hdlo, Hdhi.
  assert (a # d == inject_Z a / inject_Z (Z.pos d))%Q as Hq by apply Qmake_Qdiv.
  assert (0 < inject_Z (Z.pos d))%Q as Hdpos by (rewrite <- (Zlt_Qlt 0); lia).
  assert ((a # d) * inject_Z (Z.pos d) == inject_Z a)%Q as Hmul.
  { rewrite Hq. field. intros E. rewrite E in Hdpos. now apply Qlt_irrefl in Hdpos. }
  pose proof (pow2_pos la) as Hpa. pose proof (pow2_pos ld) as Hpd.
  pose proof (pow2_pos (la - ld)) as Hpk.
  assert (2 ^ la == 2 ^ (la - ld) * 2 ^ ld)%Q as Hk
    by (rewrite <- pow2_plus; now replace (la - ld + ld) with la by lia).
  assert (2 ^ (la - ld + 1) == 2 * 2 ^ (la - ld))%Q as Hk1
    by (rewrite pow2_plus; change (2 ^ 1)%Q with 2%Q; ring).
  assert (2 ^ (la - ld) == 2 * 2 ^ (la - ld - 1))%Q as Hk0.
  { replace (la - ld) with ((la - ld - 1) + 1) at 1 by lia.
    rewrite pow2_plus; change (2 ^ 1)%Q with 2%Q; ring. }
  pose proof (pow2_pos (la - ld - 1)) as Hpk0.
  set (X := (a # d)%Q) in *. set (A := inject_Z a) in *. set (D := inject_Z (Z.pos d)) in *.
  set (P := (2 ^ la)%Q) in *. set (R := (2 ^ ld)%Q) in *.
  set (K := (2 ^ (la - ld))%Q) in *. set (K0 := (2 ^ (la - ld - 1))%Q) in *.
  destruct (Qle_bool K X) eqn:Hb.
  - apply Qle_bool_iff in Hb. split; [exact Hb|]. rewrite Hk1.
    clearbody X A D P R K K0.
    apply Qnot_le_lt. intros Hge.
    assert (0 <= (X - 2 * K) * D)%Q by (apply Qmult_le_0_compat; lra).
    assert (0 <= K * (D - R))%Q by (apply Qmult_le_0_compat; lra).
    nra.
  - replace (la - ld - 1 + 1) with (la - ld) by lia. fold K K0.
    split.
    + clearbody X A D P R K K0.
      apply Qnot_lt_le. intros Hlt.
      assert (0 <= (K0 - X) * D)%Q by (apply Qmult_le_0_compat; lra).
      assert (0 <= K0 * (2 * R - D))%Q by (apply Qmult_le_0_compat; lra).
      nra.
    + apply Qnot_le_lt. intros Hle. apply Qle_bool_iff in Hle. congruence.
Qed.

Lemma ilog2_monotone (x y : Q) :
  (0 < x)%Q -> (x <= y)%Q -> Float.ilog2 x <= Float.ilog2 y.
Proof.
  intros Hx Hxy.
  destruct (ilog2_spec x Hx) as [Hlo _].
  destruct (ilog2_spec y ltac:(lra)) as [_ Hhi].
  assert (2 ^ Float.ilog2 x < 2 ^ (Float.ilog2 y + 1))%Q as Hlt by lra.
  apply pow2_lt_inv in Hlt. lia.
Qed.

Lemma nearest_even_Z (n : Z) : Float.nearest_even (inject_Z n) = n.
Proof.
  unfold Float.nearest_even. rewrite Qfloor_Z.
  destruct (Qcompare_spec (inject_Z n - inject_Z n) (1 # 2)) as [E|E|E];
    [exfalso; lra | reflexivity | exfalso; lra].
Qed.

Lemma nearest_even_bounds (x : Q) :
  Qfloor x <= Float.nearest_even x <= Qfloor x + 1.
Proof.
  unfold Float.nearest_even.
  destruct (x - inject_Z (Qfloor x) ?= 1 # 2)%Q; [destruct (Z.even _)| |]; lia.
Qed.

Lemma nearest_even_monotone (x y : Q) :
  (x <= y)%Q -> Float.nearest_even x <= Float.nearest_even y.
Proof.
  intros Hxy. pose proof (Qfloor_resp_le _ _ Hxy) as Hf.
  pose proof (nearest_even_bounds x) as Hx. pose proof (nearest_even_bounds y) as Hy.
  destruct (Z_lt_le_dec (Qfloor x) (Qfloor y)) as [Hlt|Hge]; [lia|].
  assert (Qfloor y = Qfloor x) as E by lia.
  unfold Float.nearest_even. rewrite E.
  destruct (Qcompare_spec (x - inject_Z (Qfloor x)) (1 # 2)) as [Hx1|Hx1|Hx1];
    destruct (Qcompare_spec (y - inject_Z (Qfloor x)) (1 # 2)) as [Hy1|Hy1|Hy1];
    try destruct (Z.even (Qfloor x)); try lia; exfalso; lra.
Qed.

Lemma nearest_even_comp (x y : Q) :
  (x == y)%Q -> Float.nearest_even x = Float.nearest_even y.
Proof.
  intros E. apply Z.le_antisymm; apply nearest_even_monotone; rewrite E; apply Qle_refl.
Qed.

Lemma round_pos_nonneg (x : Q) : (0 <= x)%Q -> (0 <= Float.round_pos x)%Q.
Proof.
  intros Hx. unfold Float.round_pos. cbv zeta.
  set (e := Z.max _ _). pose proof (pow2_pos e) as He.
  set (P := (2 ^ e)%Q) in *. clearbody P.
  apply Qmult_le_0_compat; [|lra].
  rewrite <- (Zle_Qle 0). rewrite <- (nearest_even_Z 0).
  apply nearest_even_monotone. apply Qle_shift_div_l; [assumption|].
  change (inject_Z 0) with 0%Q. lra.
Qed.

Lemma round_pos_monotone (x y : Q) :
  (0 < x)%Q -> (x <= y)%Q -> (Float.round_pos x <= Float.round_pos y)%Q.
Proof.
  intros Hx Hxy. assert (0 < y)%Q as Hy by lra.
  pose proof (ilog2_monotone x y Hx Hxy) as Hlog.
  unfold Float.round_pos. cbv zeta.
  set (ex := Z.max (Float.ilog2 x - 52) (-1074)).
  set (ey := Z.max (Float.ilog2 y - 52) (-1074)).
  pose proof (pow2_pos ex) as Hex. pose proof (pow2_pos ey) as Hey.
  destruct (Z_lt_le_dec ex ey) as [Hlt|Hge].
  - (* the exponent grows: a power of two lies between the two values *)
    assert (ey = Float.ilog2 y - 52) as Eey by lia.
    destruct (ilog2_spec x Hx) as [_ Hxhi]. destruct (ilog2_spec y Hy) as [Hylo _].
    assert (Float.nearest_even (x / 2 ^ ex) <= 2 ^ 53) as Hmx.
    { rewrite <- (nearest_even_Z (2 ^ 53)). apply nearest_even_monotone.
      apply Qle_shift_div_r; [assumption|].
      rewrite (Zpower_Qpower 2 53) by lia. change (inject_Z 2) with 2%Q.
      rewrite <- pow2_plus.
      apply Qle_trans with (2 ^ (Float.ilog2 x + 1))%Q; [lra|]. apply pow2_le. lia. }
    assert (2 ^ 52 <= Float.nearest_even (y / 2 ^ ey)) as Hmy.
    { rewrite <- (nearest_even_Z (2 ^ 52)) at 1. apply nearest_even_monotone.
      apply Qle_shift_div_l; [assumption|].
      rewrite (Zpower_Qpower 2 52) by lia. change (inject_Z 2) with 2%Q.
      rewrite <- pow2_plus. replace (52 + ey) with (Float.ilog2 y) by lia. exact Hylo. }
    apply Qle_trans with (inject_Z (2 ^ 53) * 2 ^ ex)%Q.
    { apply Qmult_le_compat_r; [now rewrite <- Zle_Qle | lra]. }
    apply Qle_trans with (inject_Z (2 ^ 52) * 2 ^ ey)%Q.
    { rewrite (Zpower_Qpower 2 53), (Zpower_Qpower 2 52) by lia.
      change (inject_Z 2) with 2%Q. rewrite <- !pow2_plus. apply pow2_le. lia. }
    apply Qmult_le_compat_r; [now rewrite <- Zle_Qle | lra].
  - assert (ey = ex) as -> by lia.
    apply Qmult_le_compat_r; [|lra]. rewrite <- Zle_Qle.
    apply nearest_even_monotone.
    apply Qle_shift_div_l; [assumption|].
    assert (x / 2 ^ ex * 2 ^ ex == x)%Q as -> by (field; lra). exact Hxy.
Qed.

Lemma round_pos_comp (x y : Q) :
  (0 < x)%Q -> (x == y)%Q -> (Float.round_pos x == Float.round_pos y)%Q.
Proof.
  intros Hx E. apply Qle_antisym; apply round_pos_monotone; lra.
Qed.

Lemma Qnum_sign (x : Q) :
  match Qnum x with
  | Z0 => x == 0
  | Z.pos _ => 0 < x
  | Z.neg _ => x < 0
  end%Q.
Proof. destruct x as [[|p|p] d]; unfold Qeq, Qlt; cbn; lia. Qed.

Lemma round_monotone (x y : Q) : (x <= y)%Q -> (Float.round x <= Float.round y)%Q.
Proof.
  intros Hxy. unfold Float.round. rewrite !Qred_correct.
  pose proof (Qnum_sign x) as Sx. pose proof (Qnum_sign y) as Sy.
  destruct (Qnum x), (Qnum y); try lra.
  - apply round_pos_nonneg. lra.
  - now apply round_pos_monotone.
  - pose proof (round_pos_nonneg (- x) ltac:(lra)). lra.
  - pose proof (round_pos_nonneg (- x) ltac:(lra)).
    pose proof (round_pos_nonneg y ltac:(lra)). lra.
  - pose proof (round_pos_monotone (- y) (- x) ltac:(lra) ltac:(lra)). lra.
Qed.

Lemma round_comp (x y : Q) : (x == y)%Q -> (Float.round x == Float.round y)%Q.
Proof. intros E. apply Qle_antisym; apply round_monotone; lra. Qed.

(** The double for an exact result, as a case analysis on the rounded
    value. *)
Lemma of_Q_cases (x : Q) :
  let r := Float.round x in
  (Float.of_Q x = Float.Finite r /\ (- 2 ^ 1024 < r)%Q /\ (r < 2 ^ 1024)%Q)
  \/ (Float.of_Q x = Float.Infinity false /\ (2 ^ 1024 <= r)%Q)
  \/ (Float.of_Q x = Float.Infinity true /\ (r <= - 2 ^ 1024)%Q).
Proof.
  intros r. unfold Float.of_Q. fold r.
  pose proof (pow2_pos 1024) as Hp. set (P := (2 ^ 1024)%Q) in *. clearbody P.
  pose proof (Qnum_sign r) as Hs.
  destruct (Qle_bool P (Qabs r)) eqn:Hb.
  - apply Qle_bool_iff in Hb. right.
    destruct (Qnum r) eqn:Hn; cbn [Z.ltb Z.compare].
    + exfalso. rewrite Hs in Hb. change (Qabs 0) with 0%Q in Hb. lra.
    + left. split; [reflexivity|]. rewrite Qabs_pos in Hb by lra. exact Hb.
    + right. split; [reflexivity|]. rewrite Qabs_neg in Hb by lra. lra.
  - left. split; [reflexivity|].
    assert (~ (P <= Qabs r)%Q) as Hn by (intros Hle; apply Qle_bool_iff in Hle; congruence).
    apply Qnot_le_lt in Hn. apply Qabs_Qlt_condition in Hn. exact Hn.
Qed.

Lemma of_Q_monotone (x y : Q) : (x <= y)%Q -> Float.le (Float.of_Q x) (Float.of_Q y).
Proof.
  intros Hxy. pose proof (round_monotone x y Hxy) as Hr.
  pose proof (pow2_pos 1024) as Hp.
  destruct (of_Q_cases x) as [(-> & Hx1 & Hx2)|[(-> & Hx)|(-> & Hx)]];
    destruct (of_Q_cases y) as [(-> & Hy1 & Hy2)|[(-> & Hy)|(-> & Hy)]];
    cbn; trivial; set (P := (2 ^ 1024)%Q) in *; clearbody P; lra.
Qed.

Lemma le_refl_of_Q (x : Q) : Float.le (Float.of_Q x) (Float.of_Q x).
Proof. apply of_Q_monotone, Qle_refl. Qed.

(** Subtracting more gives less. *)
Lemma sub_antitone (t : Q) (e e' : Float.float) :
  Float.le e e' ->
  Float.le (Float.sub (Float.Finite t) e') (Float.sub (Float.Finite t) e).
Proof.
  destruct e as [a|[|]|], e' as [b|[|]|]; cbn; try tauto.
  - intros Hab. apply of_Q_monotone. lra.
  - intros _. destruct (of_Q_cases (t - a)) as [(-> & _)|[(-> & _)|(-> & _)]]; exact I.
  - intros _. destruct (of_Q_cases (t - b)) as [(-> & _)|[(-> & _)|(-> & _)]]; exact I.
Qed.

Lemma to_int_monotone (x y : Float.float) (r r' : Z) :
  Float.le x y -> Float.to_int x = Ok r -> Float.to_int y = Ok r' -> r <= r'.
Proof.
  destruct x as [a| |], y as [b| |]; cbn; try discriminate.
  intros Hab [= <-] [= <-]. now apply int_of_float_monotone.
Qed.

Lemma gt_int_monotone (x y : Float.float) (z : Z) :
  Float.le x y -> Float.gt_int x z = true -> Float.gt_int y z = true.
Proof.
  destruct x as [a|[|]|], y as [b|[|]|]; cbn; try tauto; try discriminate.
  intros Hab Ha. apply negb_true_iff in Ha. apply negb_true_iff.
  destruct (Qle_bool b (inject_Z z)) eqn:Hb; [|reflexivity].
  apply Qle_bool_iff in Hb. assert (a <= inject_Z z)%Q as Hle by lra.
  apply Qle_bool_iff in Hle. congruence.
Qed.

(** A bound that is itself a double bounds the rounded value. *)
Lemma round_bounded (x b : Q) :
  (Float.round b == b)%Q -> (Float.round (- b) == - b)%Q ->
  (- b <= x)%Q -> (x <= b)%Q -> (- b <= Float.round x)%Q /\ (Float.round x <= b)%Q.
Proof.
  intros Hb Hnb Hlo Hhi.
  pose proof (round_monotone _ _ Hlo). pose proof (round_monotone _ _ Hhi). lra.
Qed.

Lemma round_pow2_1022 :
  (Float.round (2 ^ 1022) == 2 ^ 1022)%Q /\ (Float.round (- 2 ^ 1022) == - 2 ^ 1022)%Q.
Proof. split; vm_compute; reflexivity. Qed.

Lemma round_pow2_1023 :
  (Float.round (2 ^ 1023) == 2 ^ 1023)%Q /\ (Float.round (- 2 ^ 1023) == - 2 ^ 1023)%Q.
Proof. split; vm_compute; reflexivity. Qed.

Lemma of_Q_finite (x b : Q) :
  (Float.round b == b)%Q -> (Float.round (- b) == - b)%Q -> (b < 2 ^ 1024)%Q ->
  (- b <= x)%Q -> (x <= b)%Q ->
  Float.of_Q x = Float.Finite (Float.round x)
  /\ (- b <= Float.round x)%Q /\ (Float.round x <= b)%Q.
Proof.
  intros Hb Hnb Hlt Hlo Hhi.
  destruct (round_bounded x b Hb Hnb Hlo Hhi) as [H1 H2].
  destruct (of_Q_cases x) as [(E & _)|[(_ & Hx)|(_ & Hx)]];
    set (P := (2 ^ 1024)%Q) in *; clearbody P.
  - auto.
  - exfalso. lra.
  - exfalso. lra.
Qed.

Lemma ilog2_unique (x : Q) (k : Z) :
  (2 ^ k <= x)%Q -> (x < 2 ^ (k + 1))%Q -> Float.ilog2 x = k.
Proof.
  intros Hlo Hhi. pose proof (pow2_pos k) as Hk.
  destruct (ilog2_spec x ltac:(lra)) as [Hlo' Hhi'].
  assert (2 ^ k < 2 ^ (Float.ilog2 x + 1))%Q as H1 by lra.
  assert (2 ^ Float.ilog2 x < 2 ^ (k + 1))%Q as H2 by lra.
  apply pow2_lt_inv in H1, H2. lia.
Qed.

Lemma Qfloor_unique (x : Q) (f : Z) :
  (inject_Z f <= x)%Q -> (x < inject_Z (f + 1))%Q -> Qfloor x = f.
Proof.
  intros Hlo Hhi. pose proof (Qfloor_le x) as H1. pose proof (Qlt_floor x) as H2.
  assert (inject_Z (Qfloor x) < inject_Z (f + 1))%Q as H3 by lra.
  assert (inject_Z f < inject_Z (Qfloor x + 1))%Q as H4 by lra.
  rewrite <- Zlt_Qlt in H3, H4. lia.
Qed.

(** Around 86400 the doubles are [2^-36] apart, and 86400 has an even last
    bit: an exact result rounds to a double above 86400 exactly when it
    exceeds 86400 by more than [2^-37]. *)
Lemma round_above_86400 (x : Q) :
  (86400 < Float.round x)%Q <-> (86400 + (1 # 137438953472) < x)%Q.
Proof.
  assert (Float.round 86400 == 86400)%Q as H0 by (vm_compute; reflexivity).
  assert (Float.round (86400 + (1 # 68719476736)) == 86400 + (1 # 68719476736))%Q as H1
    by (vm_compute; reflexivity).
  destruct (Qlt_le_dec 86400 x) as [Hlo|Hlo]; cycle 1.
  { pose proof (round_monotone _ _ Hlo). split; intros Habs; exfalso; lra. }
  destruct (Qlt_le_dec x (86400 + (1 # 68719476736))) as [Hhi|Hhi]; cycle 1.
  { pose proof (round_monotone _ _ Hhi). split; intros _; lra. }
  (* between 86400 and the next double *)
  assert (Float.round x
          == inject_Z (Float.nearest_even (x * 68719476736)) * (1 # 68719476736))%Q as Hr.
  { unfold Float.round. rewrite Qred_correct.
    pose proof (Qnum_sign x) as Hs. destruct (Qnum x); try (exfalso; lra).
    unfold Float.round_pos. cbv zeta.
    assert (2 ^ 16 <= x)%Q as Hl by (change (2 ^ 16)%Q with 65536%Q; lra).
    assert (x < 2 ^ (16 + 1))%Q as Hh by (change (2 ^ (16 + 1))%Q with 131072%Q; lra).
    rewrite (ilog2_unique x 16 Hl Hh).
    change (Z.max (16 - 52) (-1074)) with (-36).
    change (2 ^ (-36))%Q with (1 # 68719476736)%Q.
    reflexivity. }
  assert (Qfloor (x * 68719476736) = 5937362789990400) as Hf.
  { apply Qfloor_unique.
    - change (inject_Z 5937362789990400) with 5937362789990400%Q. lra.
    - change (inject_Z (5937362789990400 + 1)) with 5937362789990401%Q. lra. }
  rewrite Hr. unfold Float.nearest_even. rewrite Hf. clear H0 H1 Hr Hf.
  change (Z.even 5937362789990400) with true.
  change (inject_Z 5937362789990400) with 5937362789990400%Q.
  destruct (Qcompare_spec (x * 68719476736 - 5937362789990400) (1 # 2)) as [E|E|E].
  - change (inject_Z 5937362789990400) with 5937362789990400%Q.
    split; intros Habs; exfalso; lra.
  - change (inject_Z 5937362789990400) with 5937362789990400%Q.
    split; intros Habs; exfalso; lra.
  - change (inject_Z (5937362789990400 + 1)) with 5937362789990401%Q.
    split; intros _; lra.
Qed.

Lemma bind_Ok {A B} (r : result A) (k : A -> result B) (b : B) :
  bind r k = Ok b -> exists a, r = Ok a /\ k a = Ok b.
Proof. destruct r as [a|e]; cbn; [eauto | discriminate]. Qed.

Lemma of_Q_Finite_inv (x r : Q) : Float.of_Q x = Float.Finite r -> r = Float.round x.
Proof. unfold Float.of_Q. destruct (Qle_bool _ _); congruence. Qed.

Lemma sub_Finite_inv (a r : Q) (e : Float.float) :
  Float.sub (Float.Finite a) e = Float.Finite r ->
  exists b, e = Float.Finite b /\ r = Float.round (a - b).
Proof.
  destruct e as [b|s|]; cbn; try discriminate.
  intros E. exists b. split; [reflexivity | now apply of_Q_Finite_inv].
Qed.

Lemma truediv_Ok (a b : Z) (t : Float.float) :
  Float.truediv a b = Ok t ->
  b <> 0 /\ t = Float.Finite (Float.round (inject_Z a / inject_Z b)).
Proof.
  unfold Float.truediv. destruct (Z.eqb_spec b 0); [discriminate|].
  destruct (Float.of_Q _) as [q| |] eqn:E; try discriminate.
  intros [= <-]. split; [assumption|]. f_equal. now apply of_Q_Finite_inv.
Qed.

(** The quotient of two integers is no larger than the dividend. *)
Lemma quotient_bounded (a b : Z) (B : Q) :
  b <> 0 -> (inject_Z (Z.abs a) <= B)%Q ->
  (- B <= inject_Z a / inject_Z b)%Q /\ (inject_Z a / inject_Z b <= B)%Q.
Proof.
  intros Hb Ha.
  assert (forall c d : Z, (0 < d)%Z -> inject_Z (Z.abs c) <= B ->
            - B <= inject_Z c / inject_Z d /\ inject_Z c / inject_Z d <= B)%Q as Hpos.
  { intros c d Hd Hc.
    assert (1 <= inject_Z d)%Q as H1 by (rewrite <- (Zle_Qle 1); lia).
    assert (inject_Z c <= inject_Z (Z.abs c))%Q as H2 by (rewrite <- Zle_Qle; lia).
    assert (- inject_Z (Z.abs c) <= inject_Z c)%Q as H3
      by (rewrite <- inject_Z_opp, <- Zle_Qle; lia).
    assert (0 <= inject_Z (Z.abs c))%Q as H4 by (rewrite <- (Zle_Qle 0); lia).
    set (C := inject_Z c) in *. set (D := inject_Z d) in *.
    set (A := inject_Z (Z.abs c)) in *. clearbody C D A.
    assert (0 <= B * (D - 1))%Q by (apply Qmult_le_0_compat; lra).
    split.
    - apply Qle_shift_div_l; [lra | nra].
    - apply Qle_shift_div_r; [lra | nra]. }
  destruct (Z_lt_le_dec 0 b) as [Hp|Hn]; [now apply Hpos|].
  destruct (Hpos (- a) (- b) ltac:(lia)) as [H1 H2]; [now rewrite Z.abs_opp|].
  assert (inject_Z (- a) / inject_Z (- b) == inject_Z a / inject_Z b)%Q as E.
  { rewrite !inject_Z_opp. field. intros E0.
    apply (Hb). apply inject_Z_injective. now rewrite E0. }
  rewrite E in H1, H2. now split.
Qed.

(** ** C1: the remaining-time message *)

Import controllers.

Example eta_5s : calculate_estimated_time 5 0 (Some 100) 10 = Ok (Some msg_less_than_10).
Proof. vm_compute. reflexivity. Qed.

Example eta_100s :
  calculate_estimated_time 0 0 (Some 1000) 10
  = Ok (Some "Estimated remaining time: 1 minutes, 40 seconds"%string).
Proof. vm_compute. reflexivity. Qed.

Example eta_overdue : calculate_estimated_time 20 0 (Some 10) 10 = Ok (Some msg_longer).
Proof. vm_compute. reflexivity. Qed.

Example eta_42s :
  calculate_estimated_time 0 0 (Some 425) 10
  = Ok (Some "Estimated remaining time: 42 seconds"%string).
Proof. vm_compute. reflexivity. Qed.

(** The doubles that Python writes 0.1 and 10.1, and their difference,
    which is the double 10.0. *)
Example double_arithmetic :
  Float.of_Q (1 # 10) = Float.Finite (3602879701896397 # 36028797018963968)
  /\ Float.truediv 101 10 = Ok (Float.Finite (5685794529555251 # 562949953421312))
  /\ Float.sub (Float.Finite (5685794529555251 # 562949953421312))
               (Float.Finite (3602879701896397 # 36028797018963968))
     = Float.Finite 10
  /\ Float.truediv 1 0 = Raise ZeroDivisionError
  /\ Float.truediv (10 ^ 400) 1
     = Raise (OverflowError "integer division result too large for a float")
  /\ Float.of_Q (2 ^ 1024) = Float.Infinity false
  /\ Float.of_Q (1 # 2 ^ 1075) = Float.Finite 0.
Proof. repeat split; vm_compute; reflexivity. Qed.

Lemma eta_unfold now start n avg :
  calculate_estimated_time now start (Some n) avg =
  (x <-- remaining now start n avg ;;
   r <-- Float.to_int x ;;
   if r <? 0 then Ok (Some msg_longer)
   else if r <? 10 then Ok (Some msg_less_than_10)
   else if r <? 60 then Ok (Some (msg_seconds r))
   else Ok (Some (msg_minutes (r / 60) (r mod 60)))).
Proof.
  unfold calculate_estimated_time, remaining.
  destruct (Float.truediv n avg); reflexivity.
Qed.

(** The double that reaches [int(...)], in terms of the rounding. *)
Lemma remaining_Finite_inv now start n avg x :
  remaining now start n avg = Ok (Float.Finite x) ->
  avg <> 0
  /\ x = Float.round (Float.round (inject_Z n / inject_Z avg) - Float.round (now - start)).
Proof.
  unfold remaining. intros E. apply bind_Ok in E as (t & Ht & E).
  apply truediv_Ok in Ht as [Havg ->]. injection E as E.
  apply sub_Finite_inv in E as (b & Hb & ->). split; [assumption|].
  cbn in Hb. apply of_Q_Finite_inv in Hb. now subst b.
Qed.

(** With a reply count and an elapsed time far inside the range of the
    doubles, the subtraction of line 179 gives a finite double. *)
Lemma remaining_finite now start n avg :
  avg <> 0 ->
  Z.abs n <= 2 ^ 1022 -> (Qabs (now - start) <= 2 ^ 1022)%Q ->
  exists x, remaining now start n avg = Ok (Float.Finite x).
Proof.
  intros Havg Hn Ht. unfold remaining, Float.truediv.
  destruct (Z.eqb_spec avg 0); [contradiction|].
  destruct round_pow2_1022 as [Hb Hnb]. destruct round_pow2_1023 as [Hc Hnc].
  assert (inject_Z (Z.abs n) <= 2 ^ 1022)%Q as HnQ.
  { rewrite <- (Zpower_Qpower 2 1022) by lia. now rewrite <- Zle_Qle. }
  destruct (quotient_bounded n avg _ Havg HnQ) as [Hq1 Hq2].
  apply Qabs_Qle_condition in Ht as [Ht1 Ht2].
  assert ((2 ^ 1022 < 2 ^ 1024)%Q /\ (2 ^ 1023 < 2 ^ 1024)%Q
          /\ (2 ^ 1022 + 2 ^ 1022 == 2 ^ 1023)%Q) as (L1 & L2 & L3)
    by (repeat split; reflexivity).
  destruct (of_Q_finite _ _ Hb Hnb L1 Hq1 Hq2) as (-> & Hr1 & Hr2).
  cbn [bind Float.sub].
  destruct (of_Q_finite _ _ Hb Hnb L1 Ht1 Ht2) as (-> & He1 & He2).
  set (t := Float.round (inject_Z n / inject_Z avg)) in *.
  set (e := Float.round (now - start)) in *.
  set (P := (2 ^ 1022)%Q) in *. set (P' := (2 ^ 1023)%Q) in *.
  assert (- P' <= t - e)%Q as Hd1 by (clearbody t e P P'; lra).
  assert (t - e <= P')%Q as Hd2 by (clearbody t e P P'; lra).
  destruct (of_Q_finite _ _ Hc Hnc L2 Hd1 Hd2) as (-> & _). eauto.
Qed.

(** C1 (as amended). With a known reply count and a non-zero throughput,
    the code computes in double precision: [x] is the double nearest to
    the difference of the double nearest to [nb_replies/average] and the
    double nearest to [now - start_time]. The message is selected by the
    thresholds applied to [int(x)], the value truncated toward zero:
    "longer than expected" when [x] is at most -1, "less than 10 seconds"
    when it lies strictly between -1 and 10, "[r] seconds" from 10 up to
    60 and "[m] minutes, [s] seconds" with [(m, s) = divmod(r, 60)] from 60
    on. A reply count and an elapsed time of magnitude up to [2^1022] give
    a finite [x]; with an unknown reply count the result is [None]. *)
Theorem calculate_estimated_time_thresholds (now start : Q) (n avg : Z) :
  avg <> 0 ->
  let eta := calculate_estimated_time now start (Some n) avg in
  calculate_estimated_time now start None avg = Ok None
  /\ (forall x, remaining now start n avg = Ok (Float.Finite x) ->
        let r := int_of_float x in
        x = Float.round (Float.round (inject_Z n / inject_Z avg)
                         - Float.round (now - start))
        /\ ((x <= -1)%Q -> eta = Ok (Some msg_longer))
        /\ ((-1 < x)%Q /\ (x < 10)%Q -> eta = Ok (Some msg_less_than_10))
        /\ ((10 <= x)%Q /\ (x < 60)%Q -> eta = Ok (Some (msg_seconds r)))
        /\ ((60 <= x)%Q -> eta = Ok (Some (msg_minutes (r / 60) (r mod 60)))))
  /\ (Z.abs n <= 2 ^ 1022 -> (Qabs (now - start) <= 2 ^ 1022)%Q ->
      exists x, remaining now start n avg = Ok (Float.Finite x)).
Proof.
  intros Havg eta. split; [reflexivity|]. split; [|now apply remaining_finite].
  intros x Hrem r. subst eta. rewrite eta_unfold, Hrem. cbn [bind Float.to_int].
  fold r.
  pose proof (int_of_float_neg x) as Hneg.
  pose proof (int_of_float_lt x 10 ltac:(lia)) as H10.
  pose proof (int_of_float_lt x 60 ltac:(lia)) as H60.
  change (inject_Z 10) with 10%Q in H10. change (inject_Z 60) with 60%Q in H60.
  fold r in Hneg, H10, H60.
  split; [exact (proj2 (remaining_Finite_inv _ _ _ _ _ Hrem))|].
  repeat split.
  - intros Hx. apply Hneg in Hx. destruct (Z.ltb_spec r 0); [reflexivity | lia].
  - intros [Hlo Hhi]. apply H10 in Hhi.
    destruct (Z.ltb_spec r 0) as [Hr|Hr].
    + apply Hneg in Hr. exfalso. apply (Qlt_not_le _ _ Hlo Hr).
    + destruct (Z.ltb_spec r 10); [reflexivity | lia].
  - intros [Hlo Hhi]. apply H60 in Hhi.
    assert (~ r < 10) by (intros Hr; apply H10 in Hr; apply (Qlt_not_le _ _ Hr Hlo)).
    destruct (Z.ltb_spec r 0); [lia|].
    destruct (Z.ltb_spec r 10); [lia|].
    destruct (Z.ltb_spec r 60); [reflexivity | lia].
  - intros Hlo.
    assert (~ r < 60) by (intros Hr; apply H60 in Hr; apply (Qlt_not_le _ _ Hr Hlo)).
    destruct (Z.ltb_spec r 0); [lia|].
    destruct (Z.ltb_spec r 10); [lia|].
    destruct (Z.ltb_spec r 60); [lia | reflexivity].
Qed.

Lemma calculate_estimated_time_thresholds_witness :
  calculate_estimated_time 0 0 (Some 1000) 10
  = Ok (Some (msg_minutes 1 40)).
Proof.
  pose proof (calculate_estimated_time_thresholds 0 0 1000 10 ltac:(lia)) as H.
  cbv zeta in H. destruct H as (_ & H & _).
  destruct (H 100%Q ltac:(vm_compute; reflexivity)) as (_ & _ & _ & _ & H60).
  apply H60. vm_compute. discriminate.
Defined.

(** C1 (as stated) fails in two ways. Between -1 and 0 the truncation
    gives 0: half a second overdue is reported as "less than 10 seconds".
    And the thresholds meet the rounded value: at the double 0.1 after
    the start, with 101 replies at 10 per second, the exact remaining time
    is below 10 and the code answers "10 seconds". *)
Lemma eta_negative_fraction_counterexample :
  ((exact_remaining 1 0 1 2 < 0)%Q
   /\ calculate_estimated_time 1 0 (Some 1) 2 = Ok (Some msg_less_than_10)
   /\ msg_less_than_10 <> msg_longer)
  /\ (let now := (3602879701896397 # 36028797018963968)%Q in
      Float.of_Q now = Float.Finite now
      /\ (0 <= exact_remaining now 0 101 10)%Q /\ (exact_remaining now 0 101 10 < 10)%Q
      /\ calculate_estimated_time now 0 (Some 101) 10 = Ok (Some (msg_seconds 10))
      /\ msg_seconds 10 <> msg_less_than_10).
Proof.
  split; [split; [reflexivity|]; split; [vm_compute; reflexivity | discriminate]|].
  cbv zeta. split; [vm_compute; reflexivity|]. split; [vm_compute; discriminate|].
  split; [reflexivity|]. split; [vm_compute; reflexivity | vm_compute; discriminate].
Qed.

Example to_int_examples :
  Str.to_int "30" = Ok 30 /\ Str.to_int " -1_000 " = Ok (-1000)
  /\ Str.to_int "0045" = Ok 45
  /\ Str.to_int EmptyString = Raise (ValueError "invalid literal for int() with base 10: ''")
  /\ Str.to_int "4_" = Raise (ValueError "invalid literal for int() with base 10: '4_'")
  /\ Str.to_int "thirty"
     = Raise (ValueError "invalid literal for int() with base 10: 'thirty'")
  /\ (exists e, Str.to_int (String (ascii_of_nat 31) "45") = Raise e)
  /\ Str.to_int (String (ascii_of_nat 160) "45") = Ok 45
  /\ Str.strip (String (ascii_of_nat 31) "45") = "45"%string
  /\ (exists e, Str.to_int (Str.repeat "1" 4301) = Raise e)
  /\ (exists z, Str.to_int (Str.repeat "1" 4300) = Ok z).
Proof. repeat split; try (vm_compute; reflexivity); eexists; vm_compute; reflexivity. Qed.

Example split_examples :
  Str.split "," "10.0.0.1,10.0.0.2" = ["10.0.0.1"; "10.0.0.2"]%string
  /\ Str.split "," EmptyString = [EmptyString]
  /\ Str.split "," "a," = ["a"%string; EmptyString].
Proof. repeat split. Qed.

Example strip_examples :
  Str.strip "  https://a/ " = "https://a/"%string /\ Str.strip "a b" = "a b"%string
  /\ Str.strip "   " = EmptyString /\ Str.lower "TrUe" = "true"%string.
Proof. repeat split. Qed.

(** ** The configuration dictionary *)

Lemma section_Ok (cfg : dict) sec m :
  section cfg sec = Ok m <-> cfg !! sec = Some (ESection m).
Proof.
  unfold section. destruct (cfg !! sec) as [[b|m']|]; split; intros E;
    try discriminate; congruence.
Qed.

Lemma getitem_Ok (cfg : dict) sec k v :
  getitem cfg sec k = Ok v <->
  exists m, cfg !! sec = Some (ESection m) /\ m !! k = Some v.
Proof.
  unfold getitem. split.
  - intros E. apply bind_Ok in E as (m & Hm & E). apply section_Ok in Hm.
    exists m. split; [assumption|]. destruct (m !! k); congruence.
  - intros (m & Hm & Hk). apply section_Ok in Hm. rewrite Hm. cbn. now rewrite Hk.
Qed.

Lemma setitem_Ok (cfg cfg' : dict) sec k v :
  setitem cfg sec k v = Ok cfg' ->
  exists m, cfg !! sec = Some (ESection m)
            /\ cfg' = <[sec := ESection (<[k := v]> m)]> cfg.
Proof.
  unfold setitem. intros E. apply bind_Ok in E as (m & Hm & E).
  apply section_Ok in Hm. exists m. split; congruence.
Qed.

Lemma setitem_section (cfg : dict) sec k v m :
  section cfg sec = Ok m ->
  setitem cfg sec k v = Ok (<[sec := ESection (<[k := v]> m)]> cfg).
Proof. unfold setitem. now intros ->. Qed.

Lemma getitem_setitem (cfg cfg' : dict) sec k v :
  setitem cfg sec k v = Ok cfg' -> getitem cfg' sec k = Ok v.
Proof.
  intros E. apply setitem_Ok in E as (m & _ & ->). apply getitem_Ok.
  exists (<[k := v]> m). now rewrite !lookup_insert_eq.
Qed.

Lemma getitem_setitem_other (cfg cfg' : dict) sec k v sec' k' :
  sec <> sec' ->
  setitem cfg sec k v = Ok cfg' -> getitem cfg' sec' k' = getitem cfg sec' k'.
Proof.
  intros Hne E. apply setitem_Ok in E as (m & _ & ->).
  unfold getitem, section. now rewrite lookup_insert_ne.
Qed.

Lemma getitem_ensure_section (cfg : dict) sec sec' k :
  sec <> sec' -> getitem (ensure_section cfg sec) sec' k = getitem cfg sec' k.
Proof.
  intros Hne. unfold ensure_section. destruct (contains cfg sec); [reflexivity|].
  unfold getitem, section. now rewrite lookup_insert_ne.
Qed.

Lemma setitem_preserves (cfg cfg' : dict) sec k v sec' k' w :
  setitem cfg sec k v = Ok cfg' ->
  sec <> sec' \/ k <> k' ->
  getitem cfg sec' k' = Ok w -> getitem cfg' sec' k' = Ok w.
Proof.
  intros E Hne Hget. apply setitem_Ok in E as (m & Hm & ->).
  apply getitem_Ok in Hget as (m' & Hm' & Hk). apply getitem_Ok.
  destruct (decide (sec = sec')) as [<-|Hsec].
  - exists (<[k := v]> m). rewrite lookup_insert_eq. split; [reflexivity|].
    assert (m' = m) as -> by congruence.
    destruct Hne as [Hne|Hne]; [congruence|]. now rewrite lookup_insert_ne.
  - exists m'. now rewrite lookup_insert_ne.
Qed.

Lemma ensure_section_preserves (cfg : dict) sec sec' k' w :
  getitem cfg sec' k' = Ok w -> getitem (ensure_section cfg sec) sec' k' = Ok w.
Proof.
  intros Hget. unfold ensure_section, contains.
  apply getitem_Ok in Hget as (m' & Hm' & Hk).
  case_bool_decide as Hc; apply getitem_Ok; exists m'; [auto|].
  split; [|assumption]. rewrite lookup_insert_ne; [assumption|].
  intros <-. apply Hc. eauto.
Qed.

(** ** C10: the throughput scalar after configuration loading *)

Lemma recursion_limit_average env (cfg cfg' : dict) :
  config.recursion_limit env cfg = Ok cfg' ->
  getitem cfg' "runtime" "average" = getitem cfg "runtime" "average".
Proof.
  unfold config.recursion_limit. destruct (config.env_set env _).
  - intros E. rewrite (getitem_setitem_other _ _ "app" _ _ "runtime" _ ltac:(discriminate) E).
    now apply getitem_ensure_section.
  - now intros [= ->].
Qed.

Lemma ip_restriction_average env (cfg cfg' : dict) :
  config.ip_restriction env cfg = Ok cfg' ->
  getitem cfg' "runtime" "average" = getitem cfg "runtime" "average".
Proof.
  unfold config.ip_restriction. destruct (config.env_set env _).
  - intros E. rewrite (getitem_setitem_other _ _ "app" _ _ "runtime" _ ltac:(discriminate) E).
    now apply getitem_ensure_section.
  - now intros [= ->].
Qed.

(** Before the last assignment the scalar is the value parsed from
    AVERAGE_DOWNLOAD_TIME (from "30" when the variable is not set). *)
Lemma load_until_133_average `{Builtins} env yml docker (cfg : dict) :
  config.load_until_133 env yml docker = Ok cfg ->
  exists z, Str.to_int (default "30"%string (env !! "AVERAGE_DOWNLOAD_TIME")) = Ok z
            /\ getitem cfg "runtime" "average" = Ok (VInt z).
Proof.
  unfold config.load_until_133. intros E.
  apply bind_Ok in E as ([c0 found] & _ & E).
  do 9 (apply bind_Ok in E as (? & _ & E)).
  apply bind_Ok in E as (c1 & Hrt & E).
  apply bind_Ok in E as (c2 & Hrl & E).
  apply ip_restriction_average in E. apply recursion_limit_average in Hrl.
  rewrite E, Hrl. clear E Hrl.
  unfold config.runtime_settings in Hrt.
  apply bind_Ok in Hrt as (z & Hz & Hset).
  exists z. split; [assumption|]. now apply getitem_setitem in Hset.
Qed.

Lemma load_Ok_inv `{Builtins} env yml docker (cfg : dict) :
  config.load env yml docker = Ok cfg ->
  exists c, config.load_until_133 env yml docker = Ok c
            /\ setitem c "runtime" "average" (VInt 30) = Ok cfg.
Proof. unfold config.load. intros E. now apply bind_Ok in E. Qed.

(** C10. Whenever configuration loading reaches its end,
    [config['runtime']['average']] is the integer 30, whatever
    AVERAGE_DOWNLOAD_TIME and the configuration files hold: the value
    parsed from the environment was stored first and the assignment of
    line 134 replaces it. *)
Theorem load_average_is_30 `{Builtins} (env : config.environ)
    (config_yml config_docker_yml : option dict) (cfg : dict) :
  config.load env config_yml config_docker_yml = Ok cfg ->
  getitem cfg "runtime" "average" = Ok (VInt 30)
  /\ exists before z,
       config.load_until_133 env config_yml config_docker_yml = Ok before
       /\ Str.to_int (default "30"%string (env !! "AVERAGE_DOWNLOAD_TIME")) = Ok z
       /\ getitem before "runtime" "average" = Ok (VInt z).
Proof.
  intros E. apply load_Ok_inv in E as (c & Hc & Hset). split.
  - now apply getitem_setitem in Hset.
  - destruct (load_until_133_average _ _ _ _ Hc) as (z & Hz & Hget). eauto.
Qed.

Lemma load_average_is_30_witness :
  getitem sample.cfg "runtime" "average" = Ok (VInt 30)
  /\ sample.env !! "AVERAGE_DOWNLOAD_TIME" = Some "45"%string.
Proof.
  split; [|reflexivity].
  apply (@load_average_is_30 sample.builtins sample.env None None sample.cfg).
  vm_compute. reflexivity.
Defined.

Section load_runs.
#[local] Existing Instance sample.builtins.

(** With AVERAGE_DOWNLOAD_TIME=45 the scalar is 45 after line 133 and 30
    after line 134. *)
Example load_overwrites_45 :
  (c <-- config.load_until_133 sample.env None None ;; getitem c "runtime" "average")
    = Ok (VInt 45)
  /\ (c <-- config.load sample.env None None ;; getitem c "runtime" "average")
    = Ok (VInt 30).
Proof. split; vm_compute; reflexivity. Qed.

(** A value that [int] rejects stops the loading at line 121. *)
Example load_rejects_non_integer :
  config.load (<["AVERAGE_DOWNLOAD_TIME" := "fast"%string]> sample.env) None None
  = Raise (ValueError "invalid literal for int() with base 10: 'fast'").
Proof. vm_compute. reflexivity. Qed.

(** Without a configuration file, the four essential keys must come from
    the environment. *)
Example load_exits_without_url :
  config.load (delete "APP_URL" sample.env) None None = Raise (SystemExit 1).
Proof. vm_compute. reflexivity. Qed.
End load_runs.


(** A loaded configuration always carries the address of the project. *)
Lemma load_sets_project `{Builtins} env yml docker (cfg : dict) :
  config.load env yml docker = Ok cfg ->
  getitem cfg "app" "project" = Ok (VStr "https://github.com/Ailothaen/RedditArchiver").
Proof.
  intros E. apply load_Ok_inv in E as (c & Hc & Hset).
  eapply setitem_preserves; [exact Hset | left; discriminate |].
  unfold config.load_until_133 in Hc.
  apply bind_Ok in Hc as ([c0 found] & _ & Hc).
  do 8 (apply bind_Ok in Hc as (? & _ & Hc)).
  apply bind_Ok in Hc as (c1 & Hstd & Hc).
  apply bind_Ok in Hc as (c2 & Hrt & Hc).
  apply bind_Ok in Hc as (c3 & Hrl & Hc).
  assert (getitem c1 "app" "project"
          = Ok (VStr "https://github.com/Ailothaen/RedditArchiver")) as H1.
  { unfold config.standard_values in Hstd.
    apply bind_Ok in Hstd as (a1 & _ & Hstd).
    apply bind_Ok in Hstd as (a2 & Hproj & Hstd).
    apply bind_Ok in Hstd as (has_name & _ & Hstd).
    apply bind_Ok in Hstd as (version & _ & Hstd).
    apply getitem_setitem in Hproj.
    destruct has_name.
    - apply bind_Ok in Hstd as (nm & _ & Hstd).
      eapply setitem_preserves; [exact Hstd | left; discriminate | exact Hproj].
    - eapply setitem_preserves; [exact Hstd | left; discriminate | exact Hproj]. }
  assert (getitem c2 "app" "project"
          = Ok (VStr "https://github.com/Ailothaen/RedditArchiver")) as H2.
  { unfold config.runtime_settings in Hrt. apply bind_Ok in Hrt as (z & _ & Hrt).
    eapply setitem_preserves; [exact Hrt | left; discriminate |].
    now apply ensure_section_preserves. }
  assert (getitem c3 "app" "project"
          = Ok (VStr "https://github.com/Ailothaen/RedditArchiver")) as H3.
  { unfold config.recursion_limit in Hrl. destruct (config.env_set env _).
    - eapply setitem_preserves; [exact Hrl | right; discriminate |].
      now apply ensure_section_preserves.
    - now injection Hrl as <-. }
  unfold config.ip_restriction in Hc. destruct (config.env_set env _).
  - eapply setitem_preserves; [exact Hc | right; discriminate |].
    now apply ensure_section_preserves.
  - now injection Hc as <-.
Qed.

(** ** C6: throughput recalibration *)

Lemma load_has_runtime `{Builtins} env yml docker (cfg : dict) :
  config.load env yml docker = Ok cfg -> exists m, section cfg "runtime" = Ok m.
Proof.
  intros E. apply load_Ok_inv in E as (c & _ & Hset).
  apply setitem_Ok in Hset as (m & _ & ->).
  eexists. apply section_Ok. apply lookup_insert_eq.
Qed.

Section recalibration.
Context {DB : Type} `{models.Datastore DB}.

(** Whatever the datastore reports, a recalibration on a configuration
    with a [runtime] section stores an integer: 30 without history, the
    truncated average otherwise. *)
Lemma calculate_average_eta_stores_int (config : dict) (db : DB) m :
  section config "runtime" = Ok m ->
  exists config' z,
    controllers.calculate_average_eta config db = Ok config'
    /\ getitem config' "runtime" "average" = Ok (VInt z)
    /\ z = match models.calculate_average_eta db with
           | None => 30
           | Some average => int_of_float average
           end
    /\ exists m', section config' "runtime" = Ok m'.
Proof.
  intros Hm. unfold controllers.calculate_average_eta.
  destruct (models.calculate_average_eta db) as [a|];
    rewrite (setitem_section _ _ _ _ _ Hm);
    (eexists; eexists; split; [reflexivity|]; split;
     [eapply getitem_setitem, setitem_section; eassumption|];
     split; [reflexivity|]; eexists; apply section_Ok, lookup_insert_eq).
Qed.

(** [int] of a float is zero exactly strictly between -1 and 1. *)
Lemma int_of_float_zero (x : Q) : int_of_float x = 0 <-> (-1 < x)%Q /\ (x < 1)%Q.
Proof.
  pose proof (int_of_float_neg x) as Hneg.
  pose proof (int_of_float_lt x 1 ltac:(lia)) as Hlt.
  change (inject_Z 1) with 1%Q in Hlt. split.
  - intros E. split.
    + apply Qnot_le_lt. intros Hle. apply Hneg in Hle. lia.
    + apply Hlt. lia.
  - intros [Hlo Hhi]. apply Hlt in Hhi.
    assert (~ int_of_float x < 0) by (intros Hn; apply Hneg in Hn; lra). lia.
Qed.

(** C6 (as amended). Whenever the recalibration runs on a configuration
    with a [runtime] section it stores an integer, so the scalar is never
    left null: 30 when the datastore reports no history (a null average),
    and otherwise [int(average)], the average truncated toward zero. The
    value stored is zero exactly when there is a history whose average
    lies strictly between -1 and 1. *)
Theorem calculate_average_eta_scalar (config : dict) (db : DB) m :
  section config "runtime" = Ok m ->
  exists config' z,
    controllers.calculate_average_eta config db = Ok config'
    /\ getitem config' "runtime" "average" = Ok (VInt z)
    /\ (models.calculate_average_eta db = None -> z = 30)
    /\ (forall a, models.calculate_average_eta db = Some a -> z = int_of_float a)
    /\ (z = 0 <-> exists a, models.calculate_average_eta db = Some a
                            /\ (-1 < a)%Q /\ (a < 1)%Q).
Proof.
  intros Hm.
  destruct (calculate_average_eta_stores_int config db m Hm)
    as (config' & z & Hrun & Hget & Hz & _).
  exists config', z. split; [exact Hrun|]. split; [exact Hget|].
  destruct (models.calculate_average_eta db) as [a|].
  - split; [discriminate|]. split; [now intros ? [= <-]|].
    subst z. rewrite int_of_float_zero. split.
    + intros Ha. now exists a.
    + now intros (a' & [= <-] & Ha).
  - split; [trivial|]. split; [discriminate|]. subst z. split; [discriminate|].
    now intros (a & [=] & _).
Qed.

End recalibration.

Lemma calculate_average_eta_scalar_witness :
  exists config',
    controllers.calculate_average_eta (H := sample.datastore)
      sample.cfg (db sample.empty_world) = Ok config'
    /\ getitem config' "runtime" "average" = Ok (VInt 30).
Proof.
  destruct (load_has_runtime (H := sample.builtins) sample.env None None sample.cfg
              ltac:(vm_compute; reflexivity)) as [m Hm].
  destruct (calculate_average_eta_scalar (H := sample.datastore)
              sample.cfg (db sample.empty_world) m Hm)
    as (config' & z & Hrun & Hget & Hnone & _).
  exists config'. split; [assumption|]. now rewrite <- (Hnone eq_refl).
Defined.

(** C6 (as stated) fails with a history: an average below one reply per
    second is truncated, and the scalar is set to zero. *)
Lemma recalibration_zero_counterexample :
  models.calculate_average_eta (Datastore := sample.constant_average (1 # 2)) tt
    = Some (1 # 2)
  /\ (c <-- controllers.calculate_average_eta (H := sample.constant_average (1 # 2))
              sample.cfg tt ;;
      getitem c "runtime" "average") = Ok (VInt 0).
Proof. split; vm_compute; reflexivity. Qed.


Section handler_properties.
Context {DB : Type} `{models.Datastore DB} `{utils.Extractor}
        `{praw.Auth} `{json.Encoder} `{Builtins}.

(** ** C3: a submission without a valid identifier *)

(** C3. When no identifier can be extracted from the submission,
    [request] raises [ValueError("BAD_URL")] and leaves the datastore and
    the started threads as they were; the route renders the error page
    with the BAD_URL message. *)
Theorem request_invalid_input (config : dict) (g_cookie : string)
    (g_token submission : option string) (job_id : string) (w : World DB) :
  utils.extract_id submission = None ->
  controllers.request g_cookie g_token submission job_id w
    = (Raise (ValueError "BAD_URL"), w)
  /\ app.request config g_cookie g_token submission job_id w
    = (Ok (app.request_error_html (Some controllers.msg_bad_url)), w).
Proof.
  intros Hnone. unfold app.request, controllers.request. rewrite Hnone.
  split; reflexivity.
Qed.

(** With an identifier, the job is created and one daemon thread is
    started on [(submission_id, token, job_id)]; the value returned is the
    job identifier, whatever the thread goes on to do. *)
Lemma request_valid_input (g_cookie : string) (g_token submission : option string)
    (job_id submission_id : string) (w : World DB) :
  utils.extract_id submission = Some submission_id ->
  controllers.request g_cookie g_token submission job_id w
  = (Ok job_id,
     {| db := models.create_job (db w) job_id submission_id g_cookie;
        threads := threads w ++ [{| target_args := (submission_id, g_token, job_id);
                                    name := job_id; daemon := true |}];
        exchanges := exchanges w |}).
Proof. intros Hid. unfold controllers.request. now rewrite Hid. Qed.

(** ** C2: the OAuth callback with a foreign state *)


(** The exchange is sent at most once, and only after the state check. *)
Lemma token_exchanges (config : dict) (req : app.Callback) (w : World DB) :
  exchanges (snd (app.token config req w)) <> exchanges w ->
  app.arg_state req = app.cookie_redditarchive_id req.
Proof.
  unfold app.token. destruct (getitem config "app" "url"); [|now intros []].
  destruct (bool_decide_reflect (app.arg_state req = app.cookie_redditarchive_id req));
    [trivial | now intros []].
Qed.

End handler_properties.

Lemma request_invalid_input_witness :
  controllers.request (H := sample.datastore) (H0 := sample.extractor)
    "cookie" (Some "token"%string) (Some "https://example.com/"%string) "job-1"
    sample.empty_world
  = (Raise (ValueError "BAD_URL"), sample.empty_world).
Proof.
  exact (proj1 (request_invalid_input (H := sample.datastore) (H0 := sample.extractor)
                  sample.cfg "cookie" (Some "token"%string)
                  (Some "https://example.com/"%string) "job-1" sample.empty_world
                  eq_refl)).
Defined.


Section callback_runs.
#[local] Existing Instances sample.datastore sample.extractor sample.auth
  sample.encoder sample.builtins.

(** The matching callback exchanges the code and stores the token. *)
Example token_accepts_matching_state :
  let req := {| app.arg_state := Some "victim"%string;
                app.arg_code := Some "granted"%string;
                app.cookie_redditarchive_id := Some "victim"%string |} in
  fst (app.token sample.cfg req sample.empty_world) = Ok (app.Redirect "/" 303)
  /\ sample.tokens (db (snd (app.token sample.cfg req sample.empty_world)))
     = [(Some "victim"%string, "refresh-token"%string)]
  /\ List.map snd (exchanges (snd (app.token sample.cfg req sample.empty_world)))
     = ["granted"%string].
Proof. repeat split; vm_compute; reflexivity. Qed.

Example request_starts_one_thread :
  controllers.request "cookie" (Some "token"%string) (Some "abc123"%string) "job-1"
    sample.empty_world
  = (Ok "job-1"%string,
     {| db := {| sample.jobs := [("job-1"%string, sample.new_job)]; sample.tokens := [] |};
        threads := [{| target_args := ("abc123"%string, Some "token"%string, "job-1"%string);
                       name := "job-1"; daemon := true |}];
        exchanges := [] |}).
Proof. reflexivity. Qed.

End callback_runs.


(** ** C5: the status report *)

Section status_properties.
Context {DB : Type} `{models.Datastore DB} `{json.Encoder}.

(** The [if]/[elif] chain of [error_message] is the lookup in the table. *)
Lemma error_message_table (config : dict) (project : string) (reason : option string) :
  getitem config "app" "project" = Ok (VStr project) ->
  controllers.error_message config reason = Ok (tables.message_for project reason).
Proof.
  intros Hp. unfold controllers.error_message, controllers.project_link.
  rewrite Hp. cbn [bind].
  repeat case_bool_decide; subst; try reflexivity.
  destruct reason as [r|]; [|reflexivity].
  unfold tables.message_for, tables.assoc, tables.error_table.
  cbn [List.find fst snd].
  repeat match goal with
         | |- context [String.eqb ?k r] =>
             destruct (String.eqb_spec k r); [subst; congruence|]
         end.
  reflexivity.
Qed.

(** Reasons outside the table, and the absent reason, give no message
    whatever the configuration holds. *)
Lemma error_message_unrecognized (config : dict) (reason : option string) :
  (forall r, reason = Some r ->
     ~ In r ["SUBMISSION_NOT_FOUND"; "BAD_AUTHENTICATION"; "BAD_URL";
             "BAD_PERMISSIONS"; "UNKNOWN"]%string) ->
  controllers.error_message config reason = Ok None.
Proof.
  intros Hout. unfold controllers.error_message.
  repeat case_bool_decide; try reflexivity;
    exfalso; eapply Hout; try eassumption; cbn; tauto.
Qed.

(** With a known reply count, a non-zero throughput, and magnitudes far
    inside the range of the doubles, the estimate is a message. *)
Lemma eta_defined (now start : Q) (n average : Z) :
  average <> 0 ->
  Z.abs n <= 2 ^ 1022 -> (Qabs (now - start) <= 2 ^ 1022)%Q ->
  exists msg, calculate_estimated_time now start (Some n) average = Ok (Some msg).
Proof.
  intros Havg Hn Ht. destruct (remaining_finite now start n average Havg Hn Ht) as [x Hx].
  rewrite eta_unfold, Hx. cbn [bind Float.to_int].
  repeat match goal with |- context [if ?b then _ else _] => destruct b end;
    eexists; reflexivity.
Qed.

(** The run of [status] once the message and the estimate are known. *)
Lemma status_run (config : dict) (now : Q) (job_id : string) (w : World DB)
    (average : value) (message eta : option string) :
  let job := models.read_job (db w) job_id in
  controllers.error_message config (job_failure_reason job) = Ok message ->
  getitem config "runtime" "average" = Ok average ->
  controllers.estimated_time_with now job average = Ok eta ->
  In (job_status job) ["ongoing"; "failure"; "success"; "notfound"]%string ->
  exists code,
    tables.assoc tables.code_table (job_status job) = Some code
    /\ controllers.status config now job_id w
       = Ok (code, json.dumps (controllers.status_payload (job_status job) message eta)).
Proof.
  intros job Hmsg Havg Heta Hst. unfold controllers.status. fold job.
  rewrite Hmsg. cbn [bind]. rewrite Havg. cbn [bind]. rewrite Heta. cbn [bind].
  cbn in Hst.
  destruct Hst as [E|[E|[E|[E|[]]]]]; rewrite <- E; eexists; split; reflexivity.
Qed.

(** C5 (as amended). For a job whose status is one of the four defined
    values, with the project address configured: when the estimate can be
    computed, [status] returns the code of the table (409 ongoing, 200
    success, 404 failure, 404 notfound) and the serialization of a
    dictionary with exactly the keys status, error_message and eta, where
    error_message is the table's message for the failure reason (null when
    absent or unrecognized) and eta is the estimate (null when the reply
    count is unknown); when the estimate raises, [status] raises the same
    exception and returns nothing. The estimate is computed when the
    reply count is unknown, and when the throughput is not zero and the
    magnitudes are far inside the range of the doubles; with a known
    reply count and throughput zero it raises [ZeroDivisionError]. *)
Theorem status_code_and_payload (config : dict) (now : Q) (job_id : string)
    (w : World DB) (project : string) (average : Z) :
  let job := models.read_job (db w) job_id in
  let estimate :=
    calculate_estimated_time now (job_started_at job) (job_nb_replies job) average in
  In (job_status job) ["ongoing"; "failure"; "success"; "notfound"]%string ->
  getitem config "app" "project" = Ok (VStr project) ->
  getitem config "runtime" "average" = Ok (VInt average) ->
  (forall eta, estimate = Ok eta ->
     exists code payload,
       controllers.status config now job_id w = Ok (code, json.dumps payload)
       /\ tables.assoc tables.code_table (job_status job) = Some code
       /\ (job_status job = "ongoing"%string -> code = 409)
       /\ (job_status job = "success"%string -> code = 200)
       /\ (job_status job = "failure"%string -> code = 404)
       /\ (job_status job = "notfound"%string -> code = 404)
       /\ List.map fst payload = ["status"; "error_message"; "eta"]%string
       /\ payload = [("status"%string, json.JString (job_status job));
                     ("error_message"%string,
                      json.of_option (tables.message_for project (job_failure_reason job)));
                     ("eta"%string, json.of_option eta)]
       /\ (job_nb_replies job = None -> eta = None))
  /\ (forall e, estimate = Raise e -> controllers.status config now job_id w = Raise e)
  /\ (job_nb_replies job = None -> estimate = Ok None)
  /\ (forall n, job_nb_replies job = Some n -> average <> 0 ->
        Z.abs n <= 2 ^ 1022 -> (Qabs (now - job_started_at job) <= 2 ^ 1022)%Q ->
        exists msg, estimate = Ok (Some msg))
  /\ (forall n, job_nb_replies job = Some n -> average = 0 ->
        estimate = Raise ZeroDivisionError).
Proof.
  intros job estimate Hst Hp Havg. split; [|split; [|split; [|split]]].
  - intros eta Heta.
    destruct (status_run config now job_id w (VInt average) _ eta
                (error_message_table _ _ _ Hp) Havg Heta Hst) as (code & Hcode & Hrun).
    exists code, (controllers.status_payload (job_status job)
                    (tables.message_for project (job_failure_reason job)) eta).
    repeat split; try assumption;
      try (intros E; unfold job in E; rewrite E in Hcode; now injection Hcode as <-).
    intros Hnone. unfold estimate in Heta. rewrite Hnone in Heta. now injection Heta.
  - intros e He. unfold controllers.status. fold job.
    rewrite (error_message_table _ _ _ Hp). cbn [bind]. rewrite Havg. cbn [bind].
    change (controllers.estimated_time_with now job (VInt average)) with estimate.
    now rewrite He.
  - intros Hnone. unfold estimate. now rewrite Hnone.
  - intros n Hn Hne Hsize Hage. unfold estimate. rewrite Hn. now apply eta_defined.
  - intros n Hn ->. unfold estimate. rewrite Hn. reflexivity.
Qed.

Section after_load.
Context `{Builtins}.

(** Right after loading, the project address is set and the throughput is
    30, so every job with one of the four statuses and a computable
    estimate gets its report. *)
Lemma status_after_load env yml docker (config : dict) (now : Q) (job_id : string)
    (w : World DB) (eta : option string) :
  config.load env yml docker = Ok config ->
  let job := models.read_job (db w) job_id in
  In (job_status job) ["ongoing"; "failure"; "success"; "notfound"]%string ->
  calculate_estimated_time now (job_started_at job) (job_nb_replies job) 30 = Ok eta ->
  exists code payload,
    controllers.status config now job_id w = Ok (code, json.dumps payload)
    /\ tables.assoc tables.code_table (job_status job) = Some code
    /\ List.map fst payload = ["status"; "error_message"; "eta"]%string.
Proof.
  intros Hload job Hst Heta.
  pose proof (load_sets_project _ _ _ _ Hload) as Hproject.
  assert (getitem config "runtime" "average" = Ok (VInt 30)) as Haverage.
  { apply load_Ok_inv in Hload as (c & _ & Hset). now apply getitem_setitem in Hset. }
  destruct (status_run config now job_id w (VInt 30) _ eta
              (error_message_table _ _ _ Hproject) Haverage Heta Hst)
    as (code & Hcode & Hrun).
  eexists code, _. split; [exact Hrun|]. split; [exact Hcode | reflexivity].
Qed.

End after_load.


(** A status outside the four values leaves the local [status] unbound. *)
Lemma status_unknown_value (config : dict) (now : Q) (job_id : string) (w : World DB) :
  let job := models.read_job (db w) job_id in
  ~ In (job_status job) ["ongoing"; "failure"; "success"; "notfound"]%string ->
  forall r, controllers.status config now job_id w <> Ok r.
Proof.
  intros job Hst r. unfold controllers.status. fold job.
  destruct (controllers.error_message config _); [|discriminate]. cbn [bind].
  destruct (getitem config "runtime" "average"); [|discriminate]. cbn [bind].
  destruct (controllers.estimated_time_with now job _); [|discriminate]. cbn [bind].
  repeat match goal with
         | |- context [String.eqb ?a ?b] =>
             destruct (String.eqb_spec a b) as [E|_];
             [exfalso; apply Hst; rewrite E; cbn; tauto|]
         end.
  discriminate.
Qed.

End status_properties.

Lemma status_code_and_payload_witness :
  let w := {| db := {| sample.jobs :=
                         [("job-1"%string,
                           {| job_status := "failure";
                              job_failure_reason := Some "SUBMISSION_NOT_FOUND"%string;
                              job_started_at := 0; job_nb_replies := Some 100;
                              job_filename := None |})];
                       sample.tokens := [] |};
              threads := []; exchanges := [] |} in
  exists payload,
    controllers.status (H := sample.datastore) (H2 := sample.encoder)
      sample.cfg 1 "job-1" w = Ok (404, json.dumps (Encoder := sample.encoder) payload)
    /\ payload = [("status"%string, json.JString "failure");
                  ("error_message"%string,
                   json.JString controllers.msg_submission_not_found);
                  ("eta"%string, json.JString controllers.msg_less_than_10)].
Proof.
  intros w.
  destruct (status_code_and_payload (H := sample.datastore) (H0 := sample.encoder)
              sample.cfg 1 "job-1" w "https://github.com/Ailothaen/RedditArchiver" 30)
    as (Hok & _).
  - cbn. tauto.
  - vm_compute. reflexivity.
  - vm_compute. reflexivity.
  - destruct (Hok (Some controllers.msg_less_than_10) ltac:(vm_compute; reflexivity))
      as (code & payload & Hrun & Hcode & _ & _ & _ & _ & _ & Hpayload & _).
    exists payload. split; [|exact Hpayload].
    injection Hcode as <-. exact Hrun.
Defined.

(** C5 (as stated) fails once the recalibration has stored a throughput
    of zero, which it does for a history whose average is below one: a
    finished job with a known reply count then gets no report at all;
    [status] raises [ZeroDivisionError]. *)
Lemma status_zero_throughput_counterexample :
  let w := {| db := {| sample.jobs :=
                         [("job-1"%string,
                           {| job_status := "success"; job_failure_reason := None;
                              job_started_at := 0; job_nb_replies := Some 100;
                              job_filename := Some "job-1.html"%string |})];
                       sample.tokens := [] |};
              threads := []; exchanges := [] |} in
  let recalibrated :=
    controllers.calculate_average_eta (H := sample.constant_average (9 # 10))
      sample.cfg tt in
  (c <-- recalibrated ;; getitem c "runtime" "average") = Ok (VInt 0)
  /\ (c <-- recalibrated ;;
      controllers.status (H := sample.datastore) (H2 := sample.encoder) c 1 "job-1" w)
     = Raise ZeroDivisionError.
Proof. split; vm_compute; reflexivity. Qed.


(** ** C7 and C8: the retention sweep *)

(** The test of line 227 in exact terms: the difference is rounded to a
    double before it is compared, so an age counts as older than 86400
    seconds when it exceeds them by more than [2^-37]. *)
Lemma too_old_spec (now m : Q) :
  controllers.too_old now m = true <-> (86400 + (1 # 137438953472) < now - m)%Q.
Proof.
  unfold controllers.too_old. cbn [Float.sub]. rewrite <- round_above_86400.
  destruct (of_Q_cases (now - m)) as [(-> & _ & _)|[(-> & Hr)|(-> & Hr)]];
    cbn [Float.gt_int negb].
  - rewrite negb_true_iff. change (inject_Z 86400) with 86400%Q. split.
    + intros Hb. apply Qnot_le_lt. intros Hle.
      apply Qle_bool_iff in Hle. congruence.
    + intros Hlt. destruct (Qle_bool _ 86400) eqn:Hb; [|reflexivity].
      apply Qle_bool_iff in Hb. exfalso. exact (Qlt_not_le _ _ Hlt Hb).
  - split; [|reflexivity]. intros _.
    eapply Qlt_le_trans; [|exact Hr]. reflexivity.
  - split; [discriminate|]. intros Hlt. exfalso.
    assert (- 2 ^ 1024 < 86400)%Q by reflexivity.
    set (P := (2 ^ 1024)%Q) in *. clearbody P. lra.
Qed.

Lemma too_old_later (now now' m : Q) :
  (now <= now')%Q ->
  controllers.too_old now m = true -> controllers.too_old now' m = true.
Proof. rewrite !too_old_spec. intros Hle Hold. lra. Qed.

Lemma not_too_old (now m : Q) :
  (now - m <= 86400)%Q -> controllers.too_old now m = false.
Proof.
  intros Hage. destruct (controllers.too_old now m) eqn:Hold; [|reflexivity].
  apply too_old_spec in Hold. exfalso. lra.
Qed.

Lemma filter_filter {A} (p q : A -> bool) (l : list A) :
  List.filter p (List.filter q l) = List.filter (fun x => q x && p x) l.
Proof.
  induction l as [|a l IH]; [reflexivity|]. cbn.
  destruct (q a); cbn; [destruct (p a)|]; now rewrite IH.
Qed.

Lemma filter_all {A} (p : A -> bool) (l : list A) :
  (forall a, In a l -> p a = true) -> List.filter p l = l.
Proof.
  induction l as [|a l IH]; [reflexivity|]. intros Hp. cbn.
  rewrite (Hp a (or_introl eq_refl)). f_equal. apply IH. intros b Hb. apply Hp. now right.
Qed.

Lemma same_name_same_file (output : list File) (f g : File) :
  List.NoDup (List.map fname output) ->
  In f output -> In g output -> fname f = fname g -> f = g.
Proof.
  induction output as [|a t IH]; [intros _ []|].
  cbn. intros Hnd [->|Hf] [->|Hg] E; inversion Hnd as [|? ? Hnot Hnd']; subst.
  - reflexivity.
  - exfalso. apply Hnot. rewrite E. now apply in_map.
  - exfalso. apply Hnot. rewrite <- E. now apply in_map.
  - now apply IH.
Qed.

Lemma find_by_name (output : list File) (f : File) :
  List.NoDup (List.map fname output) -> In f output ->
  List.find (fun g => String.eqb (fname g) (fname f)) output = Some f.
Proof.
  induction output as [|a t IH]; [intros _ []|].
  intros Hnd Hin. cbn. destruct (String.eqb_spec (fname a) (fname f)) as [E|Hne].
  - f_equal. apply (same_name_same_file (a :: t)); cbn; auto.
  - destruct Hin as [->|Hin]; [congruence|]. apply IH; [|assumption].
    now inversion Hnd.
Qed.

Lemma unique_names_filter (p : File -> bool) (output : list File) :
  List.NoDup (List.map fname output) ->
  List.NoDup (List.map fname (List.filter p output)).
Proof.
  induction output as [|a t IH]; [trivial|].
  cbn. intros Hnd. inversion Hnd as [|? ? Hnot Hnd']; subst.
  destruct (p a); [|auto]. cbn. constructor; [|auto].
  intros Hin. apply Hnot. apply in_map_iff in Hin as (g & Hg & Hin).
  apply filter_In in Hin as [Hin _]. rewrite <- Hg. now apply in_map.
Qed.

(** The state the loop reaches when none of its removals fails: of the
    files it was asked to visit, the old ones are gone. *)
Lemma sweep_completes (now : Q) (files : list string) :
  forall output : list File,
    List.NoDup (List.map fname output) ->
    List.NoDup files ->
    (forall n, In n files -> exists f, In f output /\ fname f = n) ->
    (forall f, In f output -> In (fname f) files ->
               controllers.too_old now (mtime f) = true -> removable f = true) ->
    controllers.sweep now files output
    = (Ok tt,
       List.filter (fun f => negb (controllers.too_old now (mtime f)
                                   && existsb (String.eqb (fname f)) files)) output).
Proof.
  induction files as [|file rest IH]; intros output Hnd Hfiles Hex Hrem.
  - cbn. f_equal. symmetry. apply filter_all. intros a _. now rewrite andb_false_r.
  - destruct (Hex file (or_introl eq_refl)) as (f & Hf & Hname).
    inversion Hfiles as [|? ? Hnotin Hrest]; subst.
    cbn [controllers.sweep]. unfold controllers.getmtime.
    rewrite (find_by_name _ _ Hnd Hf).
    destruct (controllers.too_old now (mtime f)) eqn:Hold.
    + unfold controllers.os_remove. rewrite (find_by_name _ _ Hnd Hf).
      rewrite (Hrem f Hf (or_introl eq_refl) Hold).
      rewrite IH.
      * f_equal. rewrite filter_filter. apply filter_ext_in. intros g Hg. cbn [existsb].
        destruct (String.eqb_spec (fname g) (fname f)) as [E|Hne]; cbn.
        -- rewrite (same_name_same_file _ _ _ Hnd Hg Hf E), Hold. reflexivity.
        -- reflexivity.
      * now apply unique_names_filter.
      * assumption.
      * intros n Hn. destruct (Hex n (or_intror Hn)) as (g & Hg & Hgn).
        exists g. split; [|assumption]. apply filter_In. split; [assumption|].
        apply negb_true_iff, String.eqb_neq. congruence.
      * intros g Hg Hgr. apply filter_In in Hg as [Hg _]. apply Hrem; cbn; auto.
    + rewrite IH; try assumption.
      * f_equal. apply filter_ext_in. intros g Hg. cbn [existsb].
        destruct (String.eqb_spec (fname g) (fname f)) as [E|Hne]; cbn.
        -- rewrite (same_name_same_file _ _ _ Hnd Hg Hf E), Hold. reflexivity.
        -- reflexivity.
      * intros n Hn. apply Hex. now right.
      * intros g Hg Hgr. apply Hrem; cbn; auto.
Qed.

Lemma sweep_app (now : Q) (files1 files2 : list string) :
  forall output output' : list File,
    controllers.sweep now files1 output = (Ok tt, output') ->
    controllers.sweep now (files1 ++ files2) output
    = controllers.sweep now files2 output'.
Proof.
  induction files1 as [|file rest IH]; intros output output'.
  - cbn. now intros [= ->].
  - cbn. destruct (controllers.getmtime output file); [|discriminate].
    destruct (controllers.too_old now a).
    + destruct (controllers.os_remove output file); [apply IH | discriminate].
    + apply IH.
Qed.

(** Whatever happens, a file that is not old enough stays in the directory. *)
Lemma sweep_keeps_young (now : Q) (files : list string) :
  forall (output : list File) (f : File),
    List.NoDup (List.map fname output) ->
    In f output -> controllers.too_old now (mtime f) = false ->
    In f (snd (controllers.sweep now files output)).
Proof.
  induction files as [|file rest IH]; intros output f Hnd Hf Hyoung; [assumption|].
  cbn. unfold controllers.getmtime.
  destruct (List.find _ output) as [g|] eqn:Hfind; [|assumption].
  destruct (controllers.too_old now (mtime g)) eqn:Hold; [|now apply IH].
  unfold controllers.os_remove. rewrite Hfind.
  destruct (removable g); [|assumption].
  apply find_some in Hfind as [Hg Hname]. apply String.eqb_eq in Hname.
  apply IH; [now apply unique_names_filter | | assumption].
  apply filter_In. split; [assumption|].
  apply negb_true_iff, String.eqb_neq. intros E.
  assert (f = g) by (apply (same_name_same_file output); congruence).
  congruence.
Qed.




(** C7 (as amended). A removal that fails ends the sweep there: the
    exception leaves [cleanup_downloads], the entries listed before the
    failing one have been handled (the old ones are gone), and the failing
    entry and every entry listed after it are still in the directory. *)
Theorem cleanup_downloads_stops_at_failure (now : Q) (pre post : list File) (f : File) :
  List.NoDup (List.map fname (pre ++ f :: post)) ->
  (forall g, In g pre ->
             controllers.too_old now (mtime g) = true -> removable g = true) ->
  controllers.too_old now (mtime f) = true ->
  removable f = false ->
  controllers.cleanup_downloads now (pre ++ f :: post)
  = (Raise (OSError (fname f)),
     List.filter (fun g => negb (controllers.too_old now (mtime g))) pre ++ f :: post).
Proof.
  intros Hnd Hrem Hold Hfail.
  assert (forall g, In g (f :: post) -> ~ In (fname g) (List.map fname pre)) as Hsep.
  { intros g Hg Hin. rewrite List.map_app in Hnd.
    revert Hnd Hin. clear -Hg. induction pre as [|a t IH]; [intros _ []|].
    cbn. intros Hnd [E|Hin]; inversion Hnd as [|? ? Hnot Hnd']; subst.
    - apply Hnot. rewrite E. apply in_or_app. right. now apply (in_map fname) in Hg.
    - now apply IH. }
  unfold controllers.cleanup_downloads.
  rewrite List.map_app. cbn [List.map].
  erewrite sweep_app; cycle 1.
  { apply sweep_completes.
    - assumption.
    - rewrite List.map_app in Hnd. now apply NoDup_app_remove_r in Hnd.
    - intros n Hn. apply in_map_iff in Hn as (g & Hg & Hin).
      exists g. split; [apply in_or_app; now left | assumption].
    - intros g Hg Hgn. apply in_app_or in Hg as [Hg|Hg]; [now apply Hrem|].
      now apply Hsep in Hg. }
  assert (List.filter
            (fun g => negb (controllers.too_old now (mtime g)
                            && existsb (String.eqb (fname g)) (List.map fname pre)))
            (pre ++ f :: post)
          = List.filter (fun g => negb (controllers.too_old now (mtime g))) pre
            ++ f :: post) as ->.
  { rewrite List.filter_app. f_equal.
    - apply filter_ext_in. intros g Hg.
      replace (existsb _ _) with true; [now rewrite andb_true_r|].
      symmetry. apply existsb_exists. exists (fname g).
      split; [now apply in_map | apply String.eqb_refl].
    - apply filter_all. intros g Hg.
      replace (existsb _ _) with false; [now rewrite andb_false_r|].
      symmetry. apply not_true_is_false. intros Hex.
      apply existsb_exists in Hex as (n & Hn & E). apply String.eqb_eq in E.
      apply (Hsep g Hg). now rewrite E. }
  assert (List.find (fun g => String.eqb (fname g) (fname f))
            (List.filter (fun g => negb (controllers.too_old now (mtime g))) pre
             ++ f :: post) = Some f) as Hfind.
  { apply find_by_name.
    - rewrite List.map_app in *. cbn [List.map] in *.
      apply List.NoDup_app.
      + apply unique_names_filter. now apply NoDup_app_remove_r in Hnd.
      + now apply NoDup_app_remove_l in Hnd.
      + intros n Hn Hn'. apply in_map_iff in Hn as (g & <- & Hg).
        apply filter_In in Hg as [Hg _].
        change (In (fname g) (List.map fname (f :: post))) in Hn'.
        apply in_map_iff in Hn' as (g' & E & Hg').
        apply (Hsep g' Hg'). rewrite E. now apply in_map.
    - apply in_or_app. right. now left. }
  cbn [controllers.sweep]. unfold controllers.getmtime, controllers.os_remove.
  rewrite Hfind, Hold, Hfail. reflexivity.
Qed.

Lemma cleanup_downloads_stops_at_failure_witness :
  controllers.cleanup_downloads 100000
    [ {| fname := "a.html"; mtime := 10; removable := true |};
      {| fname := "subdir"; mtime := 20; removable := false |};
      {| fname := "b.html"; mtime := 30; removable := true |} ]
  = (Raise (OSError "subdir"),
     [ {| fname := "subdir"; mtime := 20; removable := false |};
       {| fname := "b.html"; mtime := 30; removable := true |} ]).
Proof.
  refine (cleanup_downloads_stops_at_failure 100000
            [ {| fname := "a.html"; mtime := 10; removable := true |} ]
            [ {| fname := "b.html"; mtime := 30; removable := true |} ]
            {| fname := "subdir"; mtime := 20; removable := false |} _ _ _ _).
  - repeat constructor; cbn; intuition discriminate.
  - intros g [<-|[]]; reflexivity.
  - reflexivity.
  - reflexivity.
Defined.

(** C7 (as stated) fails: the entry that cannot be removed raises out of
    the sweep, and the old file listed after it is neither visited nor
    deleted. *)
Lemma cleanup_downloads_failure_counterexample :
  let stuck := {| fname := "subdir"; mtime := 20; removable := false |} in
  let old := {| fname := "b.html"; mtime := 30; removable := true |} in
  controllers.too_old 100000 (mtime old) = true
  /\ controllers.cleanup_downloads 100000 [stuck; old]
     = (Raise (OSError "subdir"), [stuck; old])
  /\ controllers.cleanup_downloads 100000 [old] = (Ok tt, []).
Proof. repeat split; vm_compute; reflexivity. Qed.

Example sweep_86401_deleted :
  controllers.too_old 86401 0 = true /\ controllers.too_old 86399 0 = false
  /\ controllers.too_old 86400 0 = false.
Proof. repeat split; vm_compute; reflexivity. Qed.


(** ** C4: the redirect URI *)

Lemma rstrip_by_no_suffix (c : ascii) (s : string) :
  Str.ends_with_char c s = false ->
  Str.rstrip_by (fun a => Ascii.eqb a c) s = s.
Proof.
  induction s as [|a r IH]; [reflexivity|].
  cbn. destruct r as [|b r'].
  - cbn. now intros ->.
  - intros Hends. now rewrite (IH Hends).
Qed.

Lemma rstrip_by_init (c : ascii) (s : string) :
  Str.ends_with_char c s = true ->
  Str.rstrip_by (fun a => Ascii.eqb a c) s
  = Str.rstrip_by (fun a => Ascii.eqb a c) (Str.init s)
  /\ (String.length (Str.init s) < String.length s)%nat.
Proof.
  induction s as [|a r IH]; [discriminate|].
  destruct r as [|b r'].
  - cbn. intros ->. split; [reflexivity | lia].
  - intros Hends. change (Str.ends_with_char c (String b r') = true) in Hends.
    destruct (IH Hends) as [E Hlen].
    change (Str.init (String a (String b r'))) with (String a (Str.init (String b r'))).
    remember (String b r') as r eqn:Hr. remember (Str.init r) as r0 eqn:Hr0.
    cbn [Str.rstrip_by String.length]. rewrite E. split; [reflexivity | lia].
Qed.

(** The loop computes "without trailing slashes", and is given enough
    turns to do so. *)
Lemma strip_slashes_loop_spec (fuel : nat) :
  forall s, (String.length s <= fuel)%nat ->
            controllers.strip_slashes_loop fuel s = Str.rstrip_by tables.is_slash s.
Proof.
  induction fuel as [|fuel IH]; intros s Hlen.
  - destruct s; [reflexivity | cbn in Hlen; lia].
  - cbn [controllers.strip_slashes_loop].
    destruct (Str.ends_with_char "/" s) eqn:Hends.
    + destruct (rstrip_by_init _ _ Hends) as [E Hlt].
      rewrite IH by lia. symmetry. exact E.
    + symmetry. now apply rstrip_by_no_suffix.
Qed.

Lemma append_cons (a : ascii) (r t : string) :
  String a r +:+ t = String a (r +:+ t).
Proof. reflexivity. Qed.

Lemma rstrip_by_repeat (k : nat) :
  Str.rstrip_by tables.is_slash (Str.repeat "/" k) = EmptyString.
Proof. induction k as [|k IH]; [reflexivity|]. cbn. now rewrite IH. Qed.

Lemma rstrip_by_trailing_slashes (s : string) (k : nat) :
  Str.rstrip_by tables.is_slash (s +:+ Str.repeat "/" k)
  = Str.rstrip_by tables.is_slash s.
Proof.
  induction s as [|a r IH].
  - apply rstrip_by_repeat.
  - rewrite append_cons. cbn [Str.rstrip_by]. now rewrite IH.
Qed.

(** What [rstrip_by] returns does not end with a slash, and the argument
    is the result followed by slashes only. *)
Lemma rstrip_by_decompose (s : string) :
  Str.ends_with_char "/" (Str.rstrip_by tables.is_slash s) = false
  /\ exists k, s = Str.rstrip_by tables.is_slash s +:+ Str.repeat "/" k.
Proof.
  induction s as [|a r [IHe [k IHk]]]; [split; [reflexivity | now exists O]|].
  cbn [Str.rstrip_by]. destruct (Str.rstrip_by tables.is_slash r) as [|b r'] eqn:E.
  - change (r = Str.repeat "/" k) in IHk.
    destruct (tables.is_slash a) eqn:Hs.
    + apply Ascii.eqb_eq in Hs as ->.
      split; [reflexivity|]. exists (S k). cbn [Str.repeat]. now rewrite <- IHk.
    + split; [exact Hs|]. exists k. rewrite append_cons. now rewrite <- IHk.
  - split; [exact IHe|]. exists k. rewrite append_cons. now rewrite <- IHk.
Qed.

Lemma getitem_not_lacking (config : dict) sec k v :
  getitem config sec k = Ok v -> lacks config sec k = Ok false.
Proof.
  intros Hget. apply getitem_Ok in Hget as (m & Hm & Hk).
  unfold lacks, contains. rewrite Hm.
  rewrite bool_decide_eq_true_2 by eauto. cbn [negb].
  unfold sec_contains, section. rewrite Hm. cbn [bind]. rewrite Hk.
  now rewrite bool_decide_eq_true_2 by eauto.
Qed.

Lemma prefix_app (p s t : string) :
  String.prefix p s = true -> String.prefix p (s +:+ t) = true.
Proof.
  revert s. induction p as [|a p IH]; [intros s _; now destruct (s +:+ t)|].
  intros [|b s]; [discriminate|]. rewrite append_cons. cbn.
  destruct (ascii_dec a b); [apply IH | discriminate].
Qed.

Lemma prefix_split (p s : string) :
  String.prefix p s = true -> exists r, s = p +:+ r.
Proof.
  revert s. induction p as [|a p IH]; intros s; [now exists s|].
  destruct s as [|b s]; [discriminate|]. cbn.
  destruct (ascii_dec a b) as [->|]; [|discriminate].
  intros Hp. destruct (IH _ Hp) as [r ->]. now exists r.
Qed.

(** The rule of the specification does not see trailing slashes. *)
Lemma redirect_uri_trailing_slashes (base_url : string) (k : nat) :
  Str.startswith "https://" base_url || Str.startswith "http://" base_url = true ->
  tables.redirect_uri (base_url +:+ Str.repeat "/" k) = tables.redirect_uri base_url.
Proof.
  unfold tables.redirect_uri, Str.startswith. intros Hp.
  destruct (String.prefix "https://" base_url) eqn:Hs.
  - rewrite (prefix_app _ _ _ Hs). now rewrite rstrip_by_trailing_slashes.
  - cbn in Hp. rewrite Hp. destruct (prefix_split _ _ Hp) as [r ->].
    rewrite (prefix_app _ _ (Str.repeat "/" k) Hp).
    replace (String.prefix "https://" (("http://" +:+ r) +:+ Str.repeat "/" k))
      with false by reflexivity.
    change (Str.drop 7 (("http://" +:+ r) +:+ Str.repeat "/" k))
      with (r +:+ Str.repeat "/" k).
    change (Str.drop 7 ("http://" +:+ r)) with r.
    change ("https://" +:+ (r +:+ Str.repeat "/" k))
      with (("https://" +:+ r) +:+ Str.repeat "/" k).
    now rewrite rstrip_by_trailing_slashes.
Qed.

Lemma rstrip_repeat_slash (k : nat) :
  Str.rstrip_by Str.is_space (Str.repeat "/" k) = Str.repeat "/" k.
Proof.
  induction k as [|k IH]; [reflexivity|]. cbn [Str.repeat Str.rstrip_by].
  rewrite IH. now destruct k.
Qed.

Lemma rstrip_app_slashes (s : string) (k : nat) :
  Str.rstrip_by Str.is_space s = s ->
  Str.rstrip_by Str.is_space (s +:+ Str.repeat "/" k) = s +:+ Str.repeat "/" k.
Proof.
  induction s as [|a r IH]; [intros _; apply rstrip_repeat_slash|].
  rewrite append_cons. cbn [Str.rstrip_by].
  destruct (Str.rstrip_by Str.is_space r) as [|b r'] eqn:E.
  - destruct (Str.is_space a) eqn:Ha; [discriminate|]. intros [= <-].
    change (EmptyString +:+ Str.repeat "/" k) with (Str.repeat "/" k).
    rewrite rstrip_repeat_slash. destruct k; reflexivity.
  - intros [= <-]. rewrite (IH eq_refl). reflexivity.
Qed.

(** A base URL with a scheme and no surrounding white space is its own
    [strip], and stays so when slashes are appended. *)
Lemma strip_with_slashes (url : string) (k : nat) :
  Str.startswith "https://" url || Str.startswith "http://" url = true ->
  Str.strip url = url ->
  Str.strip (url +:+ Str.repeat "/" k) = url +:+ Str.repeat "/" k.
Proof.
  intros Hp Hstrip.
  assert (exists r, url = String "h" r) as [r ->].
  { apply orb_true_iff in Hp as [Hp|Hp]; apply prefix_split in Hp as [r ->]; eauto. }
  unfold Str.strip in *. rewrite append_cons.
  change (Str.lstrip (String "h" (r +:+ Str.repeat "/" k)))
    with (String "h" (r +:+ Str.repeat "/" k)).
  change (Str.lstrip (String "h" r)) with (String "h" r) in Hstrip.
  rewrite <- append_cons. now apply rstrip_app_slashes.
Qed.

(** C4 (as amended). The configured base URL is first stripped of
    surrounding white space; the redirect URI is then built by the rule of
    the specification: trailing slashes removed and [/token] appended, an
    [http://] scheme rewritten to [https://], any other scheme rejected
    with a [ValueError]. For a base URL without surrounding white space
    the result is the same however many slashes trail it, and
    "https://example.com///" gives "https://example.com/token". *)
Theorem get_oauth_redirect_uri_rule (config : dict) (url : string) :
  getitem config "app" "url" = Ok (VStr url) ->
  controllers.get_oauth_redirect_uri config = tables.redirect_uri (Str.strip url)
  /\ (forall config' k,
        Str.startswith "https://" url || Str.startswith "http://" url = true ->
        Str.strip url = url ->
        getitem config' "app" "url" = Ok (VStr (url +:+ Str.repeat "/" k)) ->
        controllers.get_oauth_redirect_uri config'
        = controllers.get_oauth_redirect_uri config)
  /\ (Str.startswith "https://" (Str.strip url) = true ->
      exists stem k,
        Str.strip url = stem +:+ Str.repeat "/" k
        /\ Str.ends_with_char "/" stem = false
        /\ controllers.get_oauth_redirect_uri config = Ok (stem +:+ "/token"))
  /\ (url = "https://example.com///"%string ->
      controllers.get_oauth_redirect_uri config = Ok "https://example.com/token"%string).
Proof.
  assert (forall c u, getitem c "app" "url" = Ok (VStr u) ->
            controllers.get_oauth_redirect_uri c = tables.redirect_uri (Str.strip u))
    as Hrule.
  { intros c u Hget. unfold controllers.get_oauth_redirect_uri, tables.redirect_uri.
    rewrite (getitem_not_lacking _ _ _ _ Hget). cbn [bind]. rewrite Hget. cbn [bind].
    destruct (Str.startswith "https://" (Str.strip u)); cbn [negb bind].
    - now rewrite strip_slashes_loop_spec by lia.
    - destruct (Str.startswith "http://" (Str.strip u)); cbn [bind]; [|reflexivity].
      now rewrite strip_slashes_loop_spec by lia. }
  intros Hget. split; [|split; [|split]].
  - now apply Hrule.
  - intros config' k Hp Hstrip Hget'.
    rewrite (Hrule _ _ Hget), (Hrule _ _ Hget').
    rewrite (strip_with_slashes _ _ Hp Hstrip), Hstrip.
    now apply redirect_uri_trailing_slashes.
  - intros Hp. rewrite (Hrule _ _ Hget). unfold tables.redirect_uri. rewrite Hp.
    destruct (rstrip_by_decompose (Str.strip url)) as [Hends [k Hk]].
    exists (Str.rstrip_by tables.is_slash (Str.strip url)), k. auto.
  - intros ->. now rewrite (Hrule _ _ Hget).
Qed.

Lemma get_oauth_redirect_uri_rule_witness :
  controllers.get_oauth_redirect_uri (sample.with_url "https://example.com///")
  = Ok "https://example.com/token"%string.
Proof.
  destruct (get_oauth_redirect_uri_rule (sample.with_url "https://example.com///")
              "https://example.com///" ltac:(vm_compute; reflexivity)) as (_ & _ & _ & Hex).
  exact (Hex eq_refl).
Defined.

(** C4 (as stated) fails on a base URL with surrounding white space: the
    rule applied to the URL as configured keeps the space before [/token],
    or rejects the URL, where the code strips the space first. *)
Lemma redirect_uri_whitespace_counterexample :
  controllers.get_oauth_redirect_uri (sample.with_url "https://example.com/ ")
    = Ok "https://example.com/token"%string
  /\ tables.redirect_uri "https://example.com/ " = Ok "https://example.com/ /token"%string
  /\ controllers.get_oauth_redirect_uri (sample.with_url " https://example.com")
    = Ok "https://example.com/token"%string
  /\ tables.redirect_uri " https://example.com"
    = Raise (ValueError "Invalid URL:  https://example.com - must use HTTPS protocol").
Proof. repeat split; vm_compute; reflexivity. Qed.

Example redirect_uri_examples :
  controllers.get_oauth_redirect_uri (sample.with_url "http://example.com/")
    = Ok "https://example.com/token"%string
  /\ controllers.get_oauth_redirect_uri (sample.with_url "ftp://example.com")
    = Raise (ValueError "Invalid URL: ftp://example.com - must use HTTPS protocol")
  /\ controllers.get_oauth_redirect_uri ∅ = Raise (ValueError "Missing app.url configuration")
  /\ controllers.get_oauth_redirect_uri (sample.with_url "HTTPS://example.com")
    = Raise (ValueError "Invalid URL: HTTPS://example.com - must use HTTPS protocol").
Proof. repeat split; vm_compute; reflexivity. Qed.


(* ====================================================================== *)
(** * Further properties of the code *)
(* ====================================================================== *)

(** ** config.py: what a successful load guarantees *)

Lemma sample_cfg_loaded :
  config.load (H := sample.builtins) sample.env None None = Ok sample.cfg.
Proof. vm_compute. reflexivity. Qed.

Lemma sample_file_cfg_loaded :
  config.load (H := sample.builtins) sample.env (Some sample_pages.file_config) None
  = Ok sample_pages.file_cfg.
Proof. vm_compute. reflexivity. Qed.

Lemma touches_refl sec k (cfg : dict) : touches sec k cfg cfg.
Proof. now left. Qed.

Lemma setitem_touches (cfg cfg' : dict) sec k v :
  setitem cfg sec k v = Ok cfg' -> touches sec k cfg cfg'.
Proof.
  intros E. apply setitem_Ok in E as (m & Hm & ->). right. exists m, v. auto.
Qed.

Lemma ensure_setitem_touches (cfg cfg' : dict) sec k v :
  setitem (ensure_section cfg sec) sec k v = Ok cfg' -> touches sec k cfg cfg'.
Proof.
  unfold ensure_section, contains. case_bool_decide as Hc.
  - intros E. eapply setitem_touches. exact E.
  - intros E. apply setitem_Ok in E as (m & Hm & ->).
    rewrite lookup_insert_eq in Hm. injection Hm as <-.
    rewrite insert_insert_eq. right. exists ∅, v. split; [|reflexivity].
    right. split; [|reflexivity].
    destruct (cfg !! sec) eqn:E; [|reflexivity]. exfalso. apply Hc. eauto.
Qed.

(** An assignment to one key leaves every other key as it was. *)
Lemma touches_getitem (cfg cfg' : dict) sec k sec' k' v :
  touches sec k cfg cfg' -> sec <> sec' \/ k <> k' ->
  getitem cfg' sec' k' = Ok v <-> getitem cfg sec' k' = Ok v.
Proof.
  intros [->|(m & w & Hm & ->)] Hne; [reflexivity|].
  rewrite !getitem_Ok. destruct (decide (sec = sec')) as [<-|Hsec].
  - destruct Hne as [Hne|Hne]; [congruence|].
    rewrite lookup_insert_eq. split.
    + intros (m' & [= <-] & Hk). rewrite lookup_insert_ne in Hk by assumption.
      destruct Hm as [Hm|[_ ->]]; [eauto | now rewrite lookup_empty in Hk].
    + intros (m' & Hm' & Hk). exists (<[k := w]> m). split; [reflexivity|].
      rewrite lookup_insert_ne by assumption.
      destruct Hm as [Hm|[Hm _]]; congruence.
  - now rewrite lookup_insert_ne.
Qed.

Lemma touches_lookup (cfg cfg' : dict) sec k t :
  touches sec k cfg cfg' -> sec <> t -> cfg' !! t = cfg !! t.
Proof.
  intros [->|(m & w & _ & ->)] Hne; [reflexivity|]. now rewrite lookup_insert_ne.
Qed.

(** Assignments never remove a section. *)
Lemma touches_section (cfg cfg' : dict) sec k t m :
  touches sec k cfg cfg' -> cfg !! t = Some (ESection m) ->
  exists m', cfg' !! t = Some (ESection m').
Proof.
  intros [->|(m0 & w & _ & ->)] Ht; [eauto|].
  destruct (decide (sec = t)) as [<-|Hne].
  - rewrite lookup_insert_eq. eauto.
  - rewrite lookup_insert_ne by assumption. eauto.
Qed.

Lemma env_override_touches env var sec k (cfg cfg' : dict) :
  config.env_override env var sec k cfg = Ok cfg' -> touches sec k cfg cfg'.
Proof.
  unfold config.env_override. destruct (config.env_set env var).
  - intros E. eapply ensure_setitem_touches. exact E.
  - intros [= ->]. apply touches_refl.
Qed.

Lemma env_override_sets env var sec k (cfg cfg' : dict) v :
  config.env_set env var = Some v ->
  config.env_override env var sec k cfg = Ok cfg' ->
  getitem cfg' sec k = Ok (VStr v).
Proof.
  unfold config.env_override. intros ->. apply getitem_setitem.
Qed.

Lemma reddit_root_touches env (cfg cfg' : dict) :
  config.reddit_root env cfg = Ok cfg' -> touches "reddit" "root" cfg cfg'.
Proof.
  unfold config.reddit_root. destruct (config.env_set env _).
  - intros E. eapply ensure_setitem_touches. exact E.
  - destruct (contains cfg "reddit"); [|intros [= ->]; apply touches_refl].
    intros E. apply bind_Ok in E as (b & _ & E).
    destruct b; cbn in E; [injection E as ->; apply touches_refl|].
    eapply setitem_touches. exact E.
Qed.

Lemma env_or_default_touches env var sec k dflt (cfg cfg' : dict) :
  config.env_or_default env var sec k dflt cfg = Ok cfg' -> touches sec k cfg cfg'.
Proof.
  unfold config.env_or_default. destruct (config.env_set env var).
  - intros E. eapply ensure_setitem_touches. exact E.
  - intros E. apply bind_Ok in E as (b & Hb & E).
    destruct b; cbn in E.
    + injection E as <-. unfold ensure_section in *.
      destruct (contains cfg sec) eqn:Hc; [apply touches_refl|].
      unfold sec_contains, section in Hb. rewrite lookup_insert_eq in Hb. cbn in Hb.
      rewrite lookup_empty in Hb. discriminate Hb.
    + eapply ensure_setitem_touches. exact E.
Qed.

Lemma writes_one sec k (a b : dict) : touches sec k a b -> writes [(sec, k)] a b.
Proof. intros T. eapply writes_cons; [exact T | apply writes_nil]. Qed.

Lemma writes_app l1 l2 (a b c : dict) :
  writes l1 a b -> writes l2 b c -> writes (l1 ++ l2) a c.
Proof.
  induction 1 as [|sec k l a b b' T W IH]; intros W2; [exact W2|].
  cbn. eapply writes_cons; [exact T | now apply IH].
Qed.

(** Keys that are not written keep their value, and keys that are absent
    stay absent. *)
Lemma writes_getitem l (cfg cfg' : dict) sec k v :
  writes l cfg cfg' -> ~ In (sec, k) l ->
  getitem cfg' sec k = Ok v <-> getitem cfg sec k = Ok v.
Proof.
  induction 1 as [|s0 k0 l a b c T W IH]; intros Hnot; [reflexivity|].
  rewrite IH by (intros Hin; apply Hnot; now right).
  apply (touches_getitem _ _ _ _ _ _ _ T).
  destruct (decide (s0 = sec)) as [->|]; [|now left].
  destruct (decide (k0 = k)) as [->|]; [|now right].
  exfalso. apply Hnot. now left.
Qed.

Lemma writes_lookup l (cfg cfg' : dict) t :
  writes l cfg cfg' -> ~ In t (List.map fst l) -> cfg' !! t = cfg !! t.
Proof.
  induction 1 as [|s0 k0 l a b c T W IH]; intros Hnot; [reflexivity|].
  rewrite IH by (intros Hin; apply Hnot; now right).
  apply (touches_lookup _ _ _ _ _ T). intros ->. apply Hnot. now left.
Qed.

Lemma writes_section l (cfg cfg' : dict) t m :
  writes l cfg cfg' -> cfg !! t = Some (ESection m) ->
  exists m', cfg' !! t = Some (ESection m').
Proof.
  intros W. revert m. induction W as [|s0 k0 l a b c T W IH]; intros m Ht; [eauto|].
  destruct (touches_section _ _ _ _ _ _ T Ht) as [m' Hm']. eauto.
Qed.

Lemma standard_values_writes `{Builtins} (cfg cfg' : dict) :
  config.standard_values cfg = Ok cfg' ->
  writes [("app", "version"); ("app", "project"); ("reddit", "agent")]%string cfg cfg'.
Proof.
  unfold config.standard_values. intros E.
  apply bind_Ok in E as (a & Ha & E). apply bind_Ok in E as (b & Hb & E).
  apply bind_Ok in E as (has_name & _ & E). apply bind_Ok in E as (version & _ & E).
  apply setitem_touches in Ha, Hb.
  eapply writes_cons; [exact Ha|]. eapply writes_cons; [exact Hb|]. apply writes_one.
  destruct has_name.
  - apply bind_Ok in E as (nm & _ & E). now apply setitem_touches in E.
  - now apply setitem_touches in E.
Qed.

Lemma runtime_settings_touches env (cfg cfg' : dict) :
  config.runtime_settings env cfg = Ok cfg' -> touches "runtime" "average" cfg cfg'.
Proof.
  unfold config.runtime_settings. intros E. apply bind_Ok in E as (z & _ & E).
  eapply ensure_setitem_touches. exact E.
Qed.

Lemma recursion_limit_touches env (cfg cfg' : dict) :
  config.recursion_limit env cfg = Ok cfg' ->
  touches "app" "disable-recursion-limit" cfg cfg'.
Proof.
  unfold config.recursion_limit. destruct (config.env_set env _).
  - intros E. eapply ensure_setitem_touches. exact E.
  - intros [= ->]. apply touches_refl.
Qed.

Lemma ip_restriction_touches env (cfg cfg' : dict) :
  config.ip_restriction env cfg = Ok cfg' -> touches "app" "only-allow-from" cfg cfg'.
Proof.
  unfold config.ip_restriction. destruct (config.env_set env _).
  - intros E. eapply ensure_setitem_touches. exact E.
  - intros [= ->]. apply touches_refl.
Qed.

(** The configurations that a successful load goes through. *)
Lemma load_trace `{Builtins} env yml docker (cfg : dict) :
  config.load env yml docker = Ok cfg ->
  exists c0 found c1 c2 c3 c4 c5 c6 c7 c8 c9 c10 c11,
    config.read_files yml docker = Ok (c0, found)
    /\ config.env_override env "APP_NAME" "app" "name" c0 = Ok c1
    /\ config.env_override env "APP_URL" "app" "url" c1 = Ok c2
    /\ config.env_override env "REDDIT_CLIENT_ID" "reddit" "client-id" c2 = Ok c3
    /\ config.env_override env "REDDIT_CLIENT_SECRET" "reddit" "client-secret" c3 = Ok c4
    /\ config.reddit_root env c4 = Ok c5
    /\ config.env_or_default env "OUTPUT_PATH" "paths" "output" "output" c5 = Ok c6
    /\ config.env_or_default env "DATE_FORMAT" "defaults" "dateformat"
         "%a %Y-%m-%d at %H:%M" c6 = Ok c7
    /\ config.check_essential c7 found = Ok tt
    /\ config.standard_values c7 = Ok c8
    /\ config.runtime_settings env c8 = Ok c9
    /\ config.recursion_limit env c9 = Ok c10
    /\ config.ip_restriction env c10 = Ok c11
    /\ setitem c11 "runtime" "average" (VInt 30) = Ok cfg.
Proof.
  intros E. apply load_Ok_inv in E as (c11 & E & Hlast).
  unfold config.load_until_133 in E.
  apply bind_Ok in E as ([c0 found] & H0 & E).
  apply bind_Ok in E as (c1 & H1 & E). apply bind_Ok in E as (c2 & H2 & E).
  apply bind_Ok in E as (c3 & H3 & E). apply bind_Ok in E as (c4 & H4 & E).
  apply bind_Ok in E as (c5 & H5 & E). apply bind_Ok in E as (c6 & H6 & E).
  apply bind_Ok in E as (c7 & H7 & E). apply bind_Ok in E as ([] & Hc & E).
  apply bind_Ok in E as (c8 & H8 & E). apply bind_Ok in E as (c9 & H9 & E).
  apply bind_Ok in E as (c10 & H10 & E).
  exists c0, found, c1, c2, c3, c4, c5, c6, c7, c8, c9, c10, c11.
  repeat split; assumption.
Qed.

(** Builds [writes _ a b] from the steps in the context. *)
Ltac step_writes :=
  first
    [ apply writes_one; eapply env_override_touches; eassumption
    | apply writes_one; eapply reddit_root_touches; eassumption
    | apply writes_one; eapply env_or_default_touches; eassumption
    | eapply standard_values_writes; eassumption
    | apply writes_one; eapply runtime_settings_touches; eassumption
    | apply writes_one; eapply recursion_limit_touches; eassumption
    | apply writes_one; eapply ip_restriction_touches; eassumption
    | apply writes_one; eapply setitem_touches; eassumption ].

Ltac chain_writes :=
  first [ eapply writes_app; [step_writes | chain_writes] | apply writes_nil ].

Ltac not_written :=
  cbn; intros Hin;
  repeat (destruct Hin as [Hin|Hin]; [discriminate Hin|]); exact Hin.

(** X1. A variable of the table that is set and not empty decides the value of
    its key, whatever the configuration files hold. *)
Theorem load_environment_overrides `{Builtins} (env : config.environ)
    (config_yml config_docker_yml : option dict) (cfg : dict)
    (var sec k v : string) :
  In (var, (sec, k)) overrides ->
  config.env_set env var = Some v ->
  config.load env config_yml config_docker_yml = Ok cfg ->
  getitem cfg sec k = Ok (VStr v).
Proof.
  intros Hin Hset Hload.
  destruct (load_trace _ _ _ _ Hload)
    as (c0 & found & c1 & c2 & c3 & c4 & c5 & c6 & c7 & c8 & c9 & c10 & c11
        & H0 & H1 & H2 & H3 & H4 & H5 & H6 & H7 & Hc & H8 & H9 & H10 & H11 & H12).
  cbn in Hin.
  destruct Hin as [E|[E|[E|[E|[E|[E|[E|[]]]]]]]]; injection E as <- <- <-.
  - assert (writes _ c1 cfg) as W by chain_writes.
    apply (writes_getitem _ _ _ _ _ _ W); [not_written|].
    eapply env_override_sets; eassumption.
  - assert (writes _ c2 cfg) as W by chain_writes.
    apply (writes_getitem _ _ _ _ _ _ W); [not_written|].
    eapply env_override_sets; eassumption.
  - assert (writes _ c3 cfg) as W by chain_writes.
    apply (writes_getitem _ _ _ _ _ _ W); [not_written|].
    eapply env_override_sets; eassumption.
  - assert (writes _ c4 cfg) as W by chain_writes.
    apply (writes_getitem _ _ _ _ _ _ W); [not_written|].
    eapply env_override_sets; eassumption.
  - assert (writes _ c5 cfg) as W by chain_writes.
    apply (writes_getitem _ _ _ _ _ _ W); [not_written|].
    unfold config.reddit_root in H5. rewrite Hset in H5.
    eapply getitem_setitem; eassumption.
  - assert (writes _ c6 cfg) as W by chain_writes.
    apply (writes_getitem _ _ _ _ _ _ W); [not_written|].
    unfold config.env_or_default in H6. rewrite Hset in H6.
    eapply getitem_setitem; eassumption.
  - assert (writes _ c7 cfg) as W by chain_writes.
    apply (writes_getitem _ _ _ _ _ _ W); [not_written|].
    unfold config.env_or_default in H7. rewrite Hset in H7.
    eapply getitem_setitem; eassumption.
Qed.

Lemma load_environment_overrides_witness :
  getitem sample_pages.file_config "app" "url" = Ok (VStr "http://from-the-file.example")
  /\ getitem sample_pages.file_cfg "app" "url" = Ok (VStr "https://example.com///").
Proof.
  split; [reflexivity|].
  apply (load_environment_overrides (H := sample.builtins) sample.env
           (Some sample_pages.file_config) None sample_pages.file_cfg
           "APP_URL" "app" "url" "https://example.com///").
  - cbn. tauto.
  - reflexivity.
  - exact sample_file_cfg_loaded.
Defined.

Lemma sec_contains_true (cfg : dict) sec k :
  sec_contains cfg sec k = Ok true -> exists v, getitem cfg sec k = Ok v.
Proof.
  unfold sec_contains. intros E. apply bind_Ok in E as (m & Hm & E).
  injection E as E. apply bool_decide_eq_true in E as [v Hv].
  exists v. apply getitem_Ok. apply section_Ok in Hm. eauto.
Qed.

Lemma sec_contains_false (cfg : dict) sec k v :
  sec_contains cfg sec k = Ok false -> getitem cfg sec k <> Ok v.
Proof.
  unfold sec_contains. intros E Hget. apply bind_Ok in E as (m & Hm & E).
  injection E as E. apply bool_decide_eq_false in E. apply E.
  apply getitem_Ok in Hget as (m' & Hm' & Hk). apply section_Ok in Hm.
  assert (m' = m) as -> by congruence. eauto.
Qed.

(** After [env_or_default] the key is there. *)
Lemma env_or_default_present env var sec k dflt (cfg cfg' : dict) :
  config.env_or_default env var sec k dflt cfg = Ok cfg' ->
  exists v, getitem cfg' sec k = Ok v.
Proof.
  unfold config.env_or_default. destruct (config.env_set env var).
  - intros E. eexists. eapply getitem_setitem. exact E.
  - intros E. apply bind_Ok in E as (b & Hb & E). destruct b; cbn in E.
    + injection E as <-. now apply sec_contains_true.
    + eexists. eapply getitem_setitem. exact E.
Qed.

(** What [standard_values] assigns. *)
Lemma standard_values_inv `{Builtins} (cfg cfg' : dict) :
  config.standard_values cfg = Ok cfg' ->
  exists a b agent,
    setitem cfg "app" "version" (VStr "1.2.0") = Ok a
    /\ setitem a "app" "project" (VStr "https://github.com/Ailothaen/RedditArchiver") = Ok b
    /\ setitem b "reddit" "agent" (VStr (agent +:+ " v1.2.0 (by u/ailothaen)")) = Ok cfg'
    /\ (forall n, getitem b "app" "name" = Ok n -> agent = py_str n)
    /\ ((forall n, getitem b "app" "name" <> Ok n) -> agent = "RedditArchiver"%string).
Proof.
  unfold config.standard_values. intros E.
  apply bind_Ok in E as (a & Ha & E). apply bind_Ok in E as (b & Hb & E).
  apply bind_Ok in E as (has_name & Hn & E). apply bind_Ok in E as (version & Hv & E).
  assert (version = VStr "1.2.0") as ->.
  { pose proof (getitem_setitem _ _ _ _ _ Ha) as Hva.
    apply (setitem_preserves _ _ _ _ _ "app" "version" _ Hb) in Hva;
      [congruence | right; discriminate]. }
  exists a, b. destruct has_name.
  - apply bind_Ok in E as (nm & Hnm & E). exists (py_str nm).
    repeat split; try assumption.
    + intros n Hn'. congruence.
    + intros Habs. now destruct (Habs nm).
  - exists "RedditArchiver"%string. repeat split; try assumption.
    intros n Hn'. now destruct (sec_contains_false _ _ _ n Hn).
Qed.

(** The keys that every step of a successful load leaves behind. *)
Lemma load_keys `{Builtins} (env : config.environ)
    (config_yml config_docker_yml : option dict) (cfg : dict) :
  config.load env config_yml config_docker_yml = Ok cfg ->
  getitem cfg "app" "version" = Ok (VStr "1.2.0")
  /\ getitem cfg "app" "project" = Ok (VStr "https://github.com/Ailothaen/RedditArchiver")
  /\ (exists agent, getitem cfg "reddit" "agent" = Ok (VStr agent))
  /\ (exists v, getitem cfg "reddit" "root" = Ok v)
  /\ (exists v, getitem cfg "paths" "output" = Ok v)
  /\ (exists v, getitem cfg "defaults" "dateformat" = Ok v)
  /\ getitem cfg "runtime" "average" = Ok (VInt 30).
Proof.
  intros Hload.
  destruct (load_trace _ _ _ _ Hload)
    as (c0 & found & c1 & c2 & c3 & c4 & c5 & c6 & c7 & c8 & c9 & c10 & c11
        & H0 & H1 & H2 & H3 & H4 & H5 & H6 & H7 & Hc & H8 & H9 & H10 & H11 & H12).
  destruct (standard_values_inv _ _ H8) as (a & b & agent & Ha & Hb & Hag & _ & _).
  assert (writes _ c8 cfg) as W8 by chain_writes.
  assert (writes _ b c8) as Wb by (apply writes_one; eapply setitem_touches; exact Hag).
  assert (writes _ a b) as Wa by (apply writes_one; eapply setitem_touches; exact Hb).
  repeat split.
  - apply (writes_getitem _ _ _ _ _ _ (writes_app _ _ _ _ _ Wa (writes_app _ _ _ _ _ Wb W8)));
      [not_written|]. eapply getitem_setitem; exact Ha.
  - apply (writes_getitem _ _ _ _ _ _ (writes_app _ _ _ _ _ Wb W8)); [not_written|].
    eapply getitem_setitem; exact Hb.
  - exists (agent +:+ " v1.2.0 (by u/ailothaen)").
    apply (writes_getitem _ _ _ _ _ _ W8); [not_written|].
    eapply getitem_setitem; exact Hag.
  - assert (writes _ c5 cfg) as W5 by chain_writes.
    assert (exists v, getitem c5 "reddit" "root" = Ok v) as [v Hv].
    { unfold config.reddit_root in H5. destruct (config.env_set env _).
      - eexists. eapply getitem_setitem. exact H5.
      - destruct (contains c4 "reddit") eqn:Hc4.
        + apply bind_Ok in H5 as (has & Hhas & H5). destruct has; cbn in H5.
          * injection H5 as <-. now apply sec_contains_true.
          * eexists. eapply getitem_setitem. exact H5.
        + injection H5 as <-. exfalso.
          assert (writes [("paths", "output"); ("defaults", "dateformat");
                          ("app", "version"); ("app", "project")]%string c4 b) as W4.
          { eapply (writes_app [_]); [step_writes|].
            eapply (writes_app [_]); [step_writes|].
            eapply (writes_app [_]);
              [apply writes_one; eapply setitem_touches; exact Ha | exact Wa]. }
          assert (b !! "reddit" = c4 !! "reddit") as Hb4
            by (apply (writes_lookup _ _ _ _ W4); not_written).
          apply setitem_Ok in Hag as (m & Hm & _). rewrite Hb4 in Hm.
          unfold contains in Hc4. apply bool_decide_eq_false in Hc4.
          apply Hc4. eauto. }
    exists v. apply (writes_getitem _ _ _ _ _ _ W5); [not_written | exact Hv].
  - assert (writes _ c6 cfg) as W6 by chain_writes.
    destruct (env_or_default_present _ _ _ _ _ _ _ H6) as [v Hv].
    exists v. apply (writes_getitem _ _ _ _ _ _ W6); [not_written | exact Hv].
  - assert (writes _ c7 cfg) as W7 by chain_writes.
    destruct (env_or_default_present _ _ _ _ _ _ _ H7) as [v Hv].
    exists v. apply (writes_getitem _ _ _ _ _ _ W7); [not_written | exact Hv].
  - eapply getitem_setitem. exact H12.
Qed.



(** X3. The user agent is built from the configured name, or from
    "RedditArchiver" when there is none. *)
Theorem load_agent `{Builtins} (env : config.environ)
    (config_yml config_docker_yml : option dict) (cfg : dict) :
  config.load env config_yml config_docker_yml = Ok cfg ->
  exists agent,
    getitem cfg "reddit" "agent" = Ok (VStr (agent +:+ " v1.2.0 (by u/ailothaen)"))
    /\ (forall n, getitem cfg "app" "name" = Ok n -> agent = py_str n)
    /\ ((forall n, getitem cfg "app" "name" <> Ok n) -> agent = "RedditArchiver"%string).
Proof.
  intros Hload.
  destruct (load_trace _ _ _ _ Hload)
    as (c0 & found & c1 & c2 & c3 & c4 & c5 & c6 & c7 & c8 & c9 & c10 & c11
        & H0 & H1 & H2 & H3 & H4 & H5 & H6 & H7 & Hc & H8 & H9 & H10 & H11 & H12).
  destruct (standard_values_inv _ _ H8) as (a & b & agent & Ha & Hb & Hag & Hname & Hnone).
  assert (writes _ c8 cfg) as W8 by chain_writes.
  assert (writes _ b c8) as Wb by (apply writes_one; eapply setitem_touches; exact Hag).
  pose proof (writes_app _ _ _ _ _ Wb W8) as W.
  assert (forall n, getitem cfg "app" "name" = Ok n <-> getitem b "app" "name" = Ok n)
    as Hsame by (intros n; apply (writes_getitem _ _ _ _ _ _ W); not_written).
  exists agent. split; [|split].
  - apply (writes_getitem _ _ _ _ _ _ W8); [not_written|].
    eapply getitem_setitem; exact Hag.
  - intros n Hn. apply Hname. now apply Hsame.
  - intros Habs. apply Hnone. intros n Hn. apply (Habs n). now apply Hsame.
Qed.

Lemma load_agent_witness :
  getitem sample.cfg "reddit" "agent" = Ok (VStr "Archiver v1.2.0 (by u/ailothaen)").
Proof.
  destruct (load_agent (H := sample.builtins) sample.env None None sample.cfg
              sample_cfg_loaded) as (agent & Hagent & Hname & _).
  rewrite Hagent. now rewrite (Hname (VStr "Archiver") ltac:(vm_compute; reflexivity)).
Defined.

(** Without its variable, a key with a default keeps the value it has
    after lines 21-36, and gets the default when it has none. *)
Lemma load_defaults_read `{Builtins} (env : config.environ)
    (config_yml config_docker_yml : option dict) (c0 cfg : dict) (found : bool)
    (var sec k dflt : string) :
  In (var, (sec, k), dflt) defaults_table ->
  config.env_set env var = None ->
  config.read_files config_yml config_docker_yml = Ok (c0, found) ->
  config.load env config_yml config_docker_yml = Ok cfg ->
  (forall v, getitem c0 sec k = Ok v -> getitem cfg sec k = Ok v)
  /\ ((forall v, getitem c0 sec k <> Ok v) -> getitem cfg sec k = Ok (VStr dflt)).
Proof.
  intros Hin Hunset Hread Hload.
  destruct (load_trace _ _ _ _ Hload)
    as (c0' & found' & c1 & c2 & c3 & c4 & c5 & c6 & c7 & c8 & c9 & c10 & c11
        & H0 & H1 & H2 & H3 & H4 & H5 & H6 & H7 & Hc & H8 & H9 & H10 & H11 & H12).
  rewrite Hread in H0. injection H0 as <- <-.
  assert (forall (c c' : dict) s k' d,
            config.env_or_default env var s k' d c = Ok c' ->
            (forall v, getitem c s k' = Ok v -> getitem c' s k' = Ok v)
            /\ ((forall v, getitem c s k' <> Ok v) -> getitem c' s k' = Ok (VStr d)))
    as Hstep.
  { intros c c' s k' d E. unfold config.env_or_default in E. rewrite Hunset in E.
    apply bind_Ok in E as (b & Hb & E). destruct b; cbn in E.
    - injection E as <-. destruct (sec_contains_true _ _ _ Hb) as [w Hw]. split.
      + intros v Hv. now apply ensure_section_preserves.
      + intros Habs. exfalso. unfold ensure_section in Hw.
        destruct (contains c s); [now apply (Habs w)|].
        unfold getitem, section in Hw. rewrite lookup_insert_eq in Hw. cbn in Hw.
        now rewrite lookup_empty in Hw.
    - split.
      + intros v Hv. exfalso. apply (sec_contains_false _ _ _ v Hb).
        now apply ensure_section_preserves.
      + intros _. eapply getitem_setitem. exact E. }
  cbn in Hin. destruct Hin as [E|[E|[E|[]]]]; injection E as <- <- <- <-.
  - assert (writes _ c0 c4) as W0 by chain_writes.
    assert (writes _ c5 cfg) as W5 by chain_writes.
    assert (forall v, getitem c4 "reddit" "root" = Ok v <-> getitem c0 "reddit" "root" = Ok v)
      as H04 by (intros v; apply (writes_getitem _ _ _ _ _ _ W0); not_written).
    assert (forall v, getitem cfg "reddit" "root" = Ok v <-> getitem c5 "reddit" "root" = Ok v)
      as H5c by (intros v; apply (writes_getitem _ _ _ _ _ _ W5); not_written).
    unfold config.reddit_root in H5. rewrite Hunset in H5.
    destruct (contains c4 "reddit") eqn:Hc4.
    + apply bind_Ok in H5 as (b & Hb & H5). destruct b; cbn in H5.
      * injection H5 as <-. destruct (sec_contains_true _ _ _ Hb) as [w Hw]. split.
        -- intros v Hv. apply H5c. now apply H04.
        -- intros Habs. exfalso. apply (Habs w). now apply H04.
      * split.
        -- intros v Hv. exfalso. apply (sec_contains_false _ _ _ v Hb). now apply H04.
        -- intros _. apply H5c. eapply getitem_setitem. exact H5.
    + injection H5 as <-. exfalso.
      destruct (load_keys _ _ _ _ Hload) as (_ & _ & _ & [w Hw] & _).
      apply H5c in Hw. apply getitem_Ok in Hw as (m & Hm & _).
      unfold contains in Hc4. apply bool_decide_eq_false in Hc4. apply Hc4. eauto.
  - assert (writes _ c0 c5) as W0 by chain_writes.
    assert (writes _ c6 cfg) as W6 by chain_writes.
    assert (forall v, getitem c5 "paths" "output" = Ok v <-> getitem c0 "paths" "output" = Ok v)
      as H05 by (intros v; apply (writes_getitem _ _ _ _ _ _ W0); not_written).
    assert (forall v, getitem cfg "paths" "output" = Ok v <-> getitem c6 "paths" "output" = Ok v)
      as H6c by (intros v; apply (writes_getitem _ _ _ _ _ _ W6); not_written).
    destruct (Hstep _ _ _ _ _ H6) as [Hkeep Hdflt]. split.
    + intros v Hv. apply H6c, Hkeep. now apply H05.
    + intros Habs. apply H6c, Hdflt. intros v Hv. apply (Habs v). now apply H05.
  - assert (writes _ c0 c6) as W0 by chain_writes.
    assert (writes _ c7 cfg) as W7 by chain_writes.
    assert (forall v, getitem c6 "defaults" "dateformat" = Ok v
                      <-> getitem c0 "defaults" "dateformat" = Ok v)
      as H06 by (intros v; apply (writes_getitem _ _ _ _ _ _ W0); not_written).
    assert (forall v, getitem cfg "defaults" "dateformat" = Ok v
                      <-> getitem c7 "defaults" "dateformat" = Ok v)
      as H7c by (intros v; apply (writes_getitem _ _ _ _ _ _ W7); not_written).
    destruct (Hstep _ _ _ _ _ H7) as [Hkeep Hdflt]. split.
    + intros v Hv. apply H7c, Hkeep. now apply H06.
    + intros Habs. apply H7c, Hdflt. intros v Hv. apply (Habs v). now apply H06.
Qed.


Lemma getitem_insert_other (c : dict) (t : string) (e : entry) sec k :
  t <> sec -> getitem (<[t := e]> c) sec k = getitem c sec k.
Proof. intros Hne. unfold getitem, section. now rewrite lookup_insert_ne. Qed.



Section load_defaults_runs.
#[local] Existing Instance sample.builtins.

(** The same file read as config.yml and as config-docker.yml: the output
    path of the file is kept in the first case only. *)
Example load_docker_paths :
  let file : dict :=
    {[ "paths" := ESection {[ "output" := VStr "/data" ]};
       "defaults" := ESection {[ "dateformat" := VStr "%Y" ]} ]}%string in
  (c <-- config.load sample.env (Some file) None ;; getitem c "paths" "output")
    = Ok (VStr "/data")
  /\ (c <-- config.load sample.env None (Some file) ;; getitem c "paths" "output")
    = Ok (VStr "output")
  /\ (c <-- config.load sample.env None (Some file) ;; getitem c "defaults" "dateformat")
    = Ok (VStr "%Y").
Proof. repeat split; vm_compute; reflexivity. Qed.

End load_defaults_runs.

(** ** config.py: the configuration files *)

Lemma env_or_default_unset_present env var sec k dflt (cfg cfg' : dict) v :
  config.env_set env var = None ->
  getitem cfg sec k = Ok v ->
  config.env_or_default env var sec k dflt cfg = Ok cfg' -> cfg' = cfg.
Proof.
  intros Hunset Hget. unfold config.env_or_default. rewrite Hunset.
  assert (ensure_section cfg sec = cfg) as ->.
  { unfold ensure_section, contains. apply getitem_Ok in Hget as (m & Hm & _).
    now rewrite bool_decide_eq_true_2 by eauto. }
  intros E. apply bind_Ok in E as (b & Hb & E). destruct b; cbn in E; [congruence|].
  now destruct (sec_contains_false _ _ _ v Hb).
Qed.

(** X5. config.yml wins over config-docker.yml; the [docker] entry tells which
    file was read; and with config-docker.yml the [paths] section of the
    file is discarded: without OUTPUT_PATH it holds the single key
    [output], set to "output". *)
Theorem load_files `{Builtins} (env : config.environ)
    (config_yml config_docker_yml : option dict) (cfg : dict) :
  config.load env config_yml config_docker_yml = Ok cfg ->
  cfg !! "docker"
  = match config_yml, config_docker_yml with
    | Some _, _ => Some (EBool false)
    | None, Some _ => Some (EBool true)
    | None, None => None
    end
  /\ (forall yml, config_yml = Some yml ->
        config.load env (Some yml) None = Ok cfg)
  /\ (config_yml = None -> config_docker_yml <> None ->
      config.env_set env "OUTPUT_PATH" = None ->
      section cfg "paths" = Ok {[ "output"%string := VStr "output" ]}).
Proof.
  intros Hload.
  destruct (load_trace _ _ _ _ Hload)
    as (c0 & found & c1 & c2 & c3 & c4 & c5 & c6 & c7 & c8 & c9 & c10 & c11
        & H0 & H1 & H2 & H3 & H4 & H5 & H6 & H7 & Hc & H8 & H9 & H10 & H11 & H12).
  assert (writes _ c0 cfg) as W by chain_writes.
  split; [|split].
  - rewrite (writes_lookup _ _ _ "docker" W) by not_written.
    unfold config.read_files in H0.
    destruct config_yml as [c|]; [|destruct config_docker_yml as [c|]].
    + injection H0 as <- _. apply lookup_insert_eq.
    + apply bind_Ok in H0 as (c' & Hset & E). injection E as <- _.
      apply setitem_Ok in Hset as (m & _ & ->).
      now rewrite !lookup_insert_ne, lookup_insert_eq by discriminate.
    + injection H0 as <- _. reflexivity.
  - intros yml ->. exact Hload.
  - intros -> Hdocker Hunset. destruct config_docker_yml as [d|]; [|congruence].
    unfold config.read_files in H0.
    apply bind_Ok in H0 as (c' & Hset & E). injection E as <- _.
    apply setitem_Ok in Hset as (m & Hm & ->).
    rewrite lookup_insert_eq in Hm. injection Hm as <-.
    set (c0 := <["paths":=ESection (<["output":=VStr "output"]> ∅)]> _) in *.
    assert (writes _ c0 c5) as W05 by chain_writes.
    assert (writes _ c6 cfg) as W6 by chain_writes.
    assert (c6 = c5) as ->.
    { eapply (env_or_default_unset_present _ _ _ _ _ _ _ (VStr "output") Hunset);
        [|exact H6].
      apply (writes_getitem _ _ _ _ _ _ W05); [not_written|].
      apply getitem_Ok. eexists. split; [apply lookup_insert_eq | apply lookup_insert_eq]. }
    apply section_Ok.
    rewrite (writes_lookup _ _ _ "paths" W6) by not_written.
    rewrite (writes_lookup _ _ _ "paths" W05) by not_written.
    subst c0. rewrite lookup_insert_eq. reflexivity.
Qed.

Lemma not_exit_Ok {A} (a : A) : not_exit (Ok a).
Proof. intros code. discriminate. Qed.

Lemma not_exit_bind {A B} (r : result A) (k : A -> result B) :
  not_exit r -> (forall a, not_exit (k a)) -> not_exit (bind r k).
Proof.
  intros Hr Hk. destruct r as [a|e]; cbn; [apply Hk|].
  intros code [= ->]. now apply (Hr code).
Qed.

Lemma not_exit_section (cfg : dict) sec : not_exit (section cfg sec).
Proof. unfold section. intros code. destruct (cfg !! sec) as [[]|]; discriminate. Qed.

Lemma not_exit_setitem (cfg : dict) sec k v : not_exit (setitem cfg sec k v).
Proof.
  unfold setitem. apply not_exit_bind; [apply not_exit_section|].
  intros m. apply not_exit_Ok.
Qed.

Lemma not_exit_sec_contains (cfg : dict) sec k : not_exit (sec_contains cfg sec k).
Proof.
  unfold sec_contains. apply not_exit_bind; [apply not_exit_section|].
  intros m. apply not_exit_Ok.
Qed.

Lemma not_exit_getitem (cfg : dict) sec k : not_exit (getitem cfg sec k).
Proof.
  unfold getitem. apply not_exit_bind; [apply not_exit_section|].
  intros m code. destruct (m !! k); discriminate.
Qed.

Lemma not_exit_lacks (cfg : dict) sec k : not_exit (lacks cfg sec k).
Proof.
  unfold lacks. destruct (negb (contains cfg sec)); [apply not_exit_Ok|].
  apply not_exit_bind; [apply not_exit_sec_contains|]. intros b. apply not_exit_Ok.
Qed.

Lemma not_exit_to_int (s : string) : not_exit (Str.to_int s).
Proof.
  unfold Str.to_int. intros code.
  destruct (match Str.rstrip_by _ _ with String "+" r => _ | _ => _ end) as [negative body].
  destruct (Str.digits 0 false body); [|discriminate].
  destruct (4300 <? Str.digit_count body); discriminate.
Qed.

Ltac not_exit_step :=
  repeat first
    [ apply not_exit_Ok | apply not_exit_setitem | apply not_exit_sec_contains
    | apply not_exit_getitem | apply not_exit_lacks | apply not_exit_to_int
    | apply not_exit_bind; [|intros ?]
    | match goal with
      | |- not_exit (match ?x with _ => _ end) => destruct x
      | |- not_exit (if ?b then _ else _) => destruct b
      end ].

(** X6. When a configuration file exists the load never exits the process,
    however many of the essential keys are missing. *)
Theorem load_with_file_never_exits `{Builtins} (env : config.environ)
    (config_yml config_docker_yml : option dict) :
  config_yml <> None \/ config_docker_yml <> None ->
  not_exit (config.load env config_yml config_docker_yml).
Proof.
  intros Hfile. unfold config.load, config.load_until_133.
  assert (forall c found, config.read_files config_yml config_docker_yml = Ok (c, found) ->
            found = true) as Hfound.
  { unfold config.read_files. intros c found E.
    destruct config_yml; [now injection E|]. destruct config_docker_yml.
    - apply bind_Ok in E as (c' & _ & E). now injection E.
    - destruct Hfile; congruence. }
  assert (not_exit (config.read_files config_yml config_docker_yml)) as Hr
    by (unfold config.read_files; not_exit_step).
  destruct (config.read_files config_yml config_docker_yml) as [[c0 found]|e] eqn:Hread.
  - rewrite (Hfound _ _ eq_refl). cbn [bind].
    unfold config.env_override, config.reddit_root, config.env_or_default,
      config.check_essential, config.missing_config, config.standard_values,
      config.runtime_settings, config.recursion_limit, config.ip_restriction.
    not_exit_step.
  - cbn. intros code [= ->]. exact (Hr code eq_refl).
Qed.

Lemma load_with_file_never_exits_witness :
  not_exit (config.load (H := sample.builtins) (delete "APP_URL" sample.env)
              (Some sample_pages.file_config) None).
Proof.
  apply load_with_file_never_exits. left. discriminate.
Defined.


(** ** config.py: loading without a configuration file *)

Ltac in_five := cbn; tauto.

Lemma setitem_total (cfg : dict) sec k v :
  sections_ok cfg -> In sec ["app"; "reddit"; "paths"; "defaults"; "runtime"]%string ->
  exists cfg', setitem cfg sec k v = Ok cfg' /\ sections_ok cfg'.
Proof.
  intros Hok Hsec. destruct (Hok sec Hsec) as [m Hm].
  exists (<[sec := ESection (<[k := v]> m)]> cfg). split.
  - apply setitem_section. now apply section_Ok.
  - intros s Hs. destruct (decide (sec = s)) as [<-|Hne].
    + rewrite lookup_insert_eq. eauto.
    + rewrite lookup_insert_ne by assumption. now apply Hok.
Qed.

Lemma ensure_section_ok (cfg : dict) sec :
  sections_ok cfg -> In sec ["app"; "reddit"; "paths"; "defaults"; "runtime"]%string ->
  ensure_section cfg sec = cfg.
Proof.
  intros Hok Hsec. destruct (Hok sec Hsec) as [m Hm].
  unfold ensure_section, contains. now rewrite bool_decide_eq_true_2 by eauto.
Qed.

Lemma sec_contains_total (cfg : dict) sec k :
  sections_ok cfg -> In sec ["app"; "reddit"; "paths"; "defaults"; "runtime"]%string ->
  exists b, sec_contains cfg sec k = Ok b.
Proof.
  intros Hok Hsec. destruct (Hok sec Hsec) as [m Hm].
  unfold sec_contains, section. rewrite Hm. cbn. eauto.
Qed.

Lemma env_override_total env var sec k (cfg : dict) :
  sections_ok cfg -> In sec ["app"; "reddit"; "paths"; "defaults"; "runtime"]%string ->
  exists cfg', config.env_override env var sec k cfg = Ok cfg' /\ sections_ok cfg'.
Proof.
  intros Hok Hsec. unfold config.env_override. destruct (config.env_set env var).
  - rewrite ensure_section_ok by assumption. now apply setitem_total.
  - eauto.
Qed.

Lemma reddit_root_total env (cfg : dict) :
  sections_ok cfg ->
  exists cfg', config.reddit_root env cfg = Ok cfg' /\ sections_ok cfg'.
Proof.
  intros Hok. unfold config.reddit_root. destruct (config.env_set env _).
  - rewrite ensure_section_ok by (assumption || in_five).
    apply setitem_total; [assumption | in_five].
  - destruct (contains cfg "reddit"); [|eauto].
    destruct (sec_contains_total cfg "reddit" "root" Hok ltac:(in_five)) as [b ->].
    cbn. destruct b; cbn; [eauto|]. apply setitem_total; [assumption | in_five].
Qed.

Lemma env_or_default_total env var sec k dflt (cfg : dict) :
  sections_ok cfg -> In sec ["app"; "reddit"; "paths"; "defaults"; "runtime"]%string ->
  exists cfg', config.env_or_default env var sec k dflt cfg = Ok cfg' /\ sections_ok cfg'.
Proof.
  intros Hok Hsec. unfold config.env_or_default.
  rewrite ensure_section_ok by assumption. destruct (config.env_set env var).
  - now apply setitem_total.
  - destruct (sec_contains_total cfg sec k Hok Hsec) as [b ->].
    cbn. destruct b; cbn; [eauto|]. now apply setitem_total.
Qed.

Lemma standard_values_total `{Builtins} (cfg : dict) :
  sections_ok cfg ->
  exists cfg', config.standard_values cfg = Ok cfg' /\ sections_ok cfg'.
Proof.
  intros Hok. unfold config.standard_values.
  destruct (setitem_total cfg "app" "version" (VStr "1.2.0") Hok ltac:(in_five))
    as (a & Ha & Hoka). rewrite Ha. cbn [bind].
  destruct (setitem_total a "app" "project"
              (VStr "https://github.com/Ailothaen/RedditArchiver") Hoka ltac:(in_five))
    as (b & Hb & Hokb). rewrite Hb. cbn [bind].
  destruct (sec_contains_total b "app" "name" Hokb ltac:(in_five)) as [has Hhas].
  rewrite Hhas. cbn [bind].
  assert (getitem b "app" "version" = Ok (VStr "1.2.0")) as ->.
  { apply getitem_setitem in Ha.
    eapply setitem_preserves; [exact Hb | right; discriminate | exact Ha]. }
  cbn [bind]. destruct has.
  - destruct (sec_contains_true _ _ _ Hhas) as [n ->]. cbn [bind].
    apply setitem_total; [assumption | in_five].
  - apply setitem_total; [assumption | in_five].
Qed.

Lemma recursion_limit_total env (cfg : dict) :
  sections_ok cfg ->
  exists cfg', config.recursion_limit env cfg = Ok cfg' /\ sections_ok cfg'.
Proof.
  intros Hok. unfold config.recursion_limit. destruct (config.env_set env _); [|eauto].
  rewrite ensure_section_ok by (assumption || in_five).
  apply setitem_total; [assumption | in_five].
Qed.

Lemma ip_restriction_total env (cfg : dict) :
  sections_ok cfg ->
  exists cfg', config.ip_restriction env cfg = Ok cfg' /\ sections_ok cfg'.
Proof.
  intros Hok. unfold config.ip_restriction. destruct (config.env_set env _); [|eauto].
  rewrite ensure_section_ok by (assumption || in_five).
  apply setitem_total; [assumption | in_five].
Qed.

Lemma default_config_ok : sections_ok config.create_default_config.
Proof.
  intros sec Hsec. cbn in Hsec.
  destruct Hsec as [<-|[<-|[<-|[<-|[<-|[]]]]]]; eexists; reflexivity.
Qed.

Ltac unfold_load :=
  unfold config.load, config.load_until_133, config.read_files,
    config.env_override, config.reddit_root, config.env_or_default,
    config.runtime_settings, config.recursion_limit, config.ip_restriction.

Ltac split_env env var :=
  let E := fresh "E" in destruct (config.env_set env var) eqn:E.

Lemma load_exits_without_essential `{Builtins} (env : config.environ) :
  config.env_set env "APP_NAME" = None \/ config.env_set env "APP_URL" = None
  \/ config.env_set env "REDDIT_CLIENT_ID" = None
  \/ config.env_set env "REDDIT_CLIENT_SECRET" = None ->
  config.load env None None = Raise (SystemExit 1).
Proof.
  intros Hmissing. unfold_load.
  split_env env "APP_NAME"; split_env env "APP_URL";
    split_env env "REDDIT_CLIENT_ID"; split_env env "REDDIT_CLIENT_SECRET";
    try (exfalso; destruct Hmissing as [?|[?|[?|?]]]; discriminate);
    split_env env "REDDIT_ROOT"; split_env env "OUTPUT_PATH";
    split_env env "DATE_FORMAT"; vm_compute; reflexivity.
Qed.

Lemma load_runs_with_essentials `{Builtins} (env : config.environ)
    (name url id secret : string) :
  config.env_set env "APP_NAME" = Some name ->
  config.env_set env "APP_URL" = Some url ->
  config.env_set env "REDDIT_CLIENT_ID" = Some id ->
  config.env_set env "REDDIT_CLIENT_SECRET" = Some secret ->
  match Str.to_int (default "30"%string (env !! "AVERAGE_DOWNLOAD_TIME")) with
  | Ok _ => exists cfg, config.load env None None = Ok cfg
  | Raise e => config.load env None None = Raise e
  end.
Proof.
  intros Hname Hurl Hid Hsecret.
  pose proof default_config_ok as Hok0.
  destruct (env_override_total env "APP_NAME" "app" "name" _ Hok0 ltac:(in_five))
    as (c1 & H1 & Hok1).
  destruct (env_override_total env "APP_URL" "app" "url" _ Hok1 ltac:(in_five))
    as (c2 & H2 & Hok2).
  destruct (env_override_total env "REDDIT_CLIENT_ID" "reddit" "client-id" _ Hok2
              ltac:(in_five)) as (c3 & H3 & Hok3).
  destruct (env_override_total env "REDDIT_CLIENT_SECRET" "reddit" "client-secret" _ Hok3
              ltac:(in_five)) as (c4 & H4 & Hok4).
  destruct (reddit_root_total env _ Hok4) as (c5 & H5 & Hok5).
  destruct (env_or_default_total env "OUTPUT_PATH" "paths" "output" "output" _ Hok5
              ltac:(in_five)) as (c6 & H6 & Hok6).
  destruct (env_or_default_total env "DATE_FORMAT" "defaults" "dateformat"
              "%a %Y-%m-%d at %H:%M" _ Hok6 ltac:(in_five)) as (c7 & H7 & Hok7).
  assert (config.check_essential c7 false = Ok tt) as Hcheck.
  { assert (writes _ c1 c7) as W1 by chain_writes.
    assert (writes _ c2 c7) as W2 by chain_writes.
    assert (writes _ c3 c7) as W3 by chain_writes.
    assert (writes _ c4 c7) as W4 by chain_writes.
    unfold config.check_essential, config.missing_config.
    rewrite (getitem_not_lacking c7 "app" "name" (VStr name)).
    2:{ apply (writes_getitem _ _ _ _ _ _ W1); [not_written|].
        eapply env_override_sets; eassumption. }
    rewrite (getitem_not_lacking c7 "app" "url" (VStr url)).
    2:{ apply (writes_getitem _ _ _ _ _ _ W2); [not_written|].
        eapply env_override_sets; eassumption. }
    rewrite (getitem_not_lacking c7 "reddit" "client-id" (VStr id)).
    2:{ apply (writes_getitem _ _ _ _ _ _ W3); [not_written|].
        eapply env_override_sets; eassumption. }
    rewrite (getitem_not_lacking c7 "reddit" "client-secret" (VStr secret)).
    2:{ apply (writes_getitem _ _ _ _ _ _ W4); [not_written|].
        eapply env_override_sets; eassumption. }
    reflexivity. }
  destruct (standard_values_total _ Hok7) as (c8 & H8 & Hok8).
  assert (config.load env None None
          = (c9 <-- config.runtime_settings env c8 ;;
             c10 <-- config.recursion_limit env c9 ;;
             c11 <-- config.ip_restriction env c10 ;;
             setitem c11 "runtime" "average" (VInt 30))) as ->.
  { unfold config.load, config.load_until_133.
    change (config.read_files None None) with (Ok (config.create_default_config, false)).
    cbn [bind]. rewrite H1. cbn [bind]. rewrite H2. cbn [bind]. rewrite H3. cbn [bind].
    rewrite H4. cbn [bind]. rewrite H5. cbn [bind]. rewrite H6. cbn [bind].
    rewrite H7. cbn [bind]. rewrite Hcheck. cbn [bind]. rewrite H8. cbn [bind].
    destruct (config.runtime_settings env c8) as [c9|]; [cbn [bind]|reflexivity].
    destruct (config.recursion_limit env c9) as [c10|]; [cbn [bind]|reflexivity].
    destruct (config.ip_restriction env c10); reflexivity. }
  unfold config.runtime_settings. rewrite ensure_section_ok by (assumption || in_five).
  destruct (Str.to_int _) as [z|e]; [|reflexivity]. cbn [bind].
  destruct (setitem_total c8 "runtime" "average" (VInt z) Hok8 ltac:(in_five))
    as (c9 & H9 & Hok9). rewrite H9. cbn [bind].
  destruct (recursion_limit_total env _ Hok9) as (c10 & H10 & Hok10).
  rewrite H10. cbn [bind].
  destruct (ip_restriction_total env _ Hok10) as (c11 & H11 & Hok11).
  rewrite H11. cbn [bind].
  destruct (setitem_total c11 "runtime" "average" (VInt 30) Hok11 ltac:(in_five))
    as (cfg & Hcfg & _). eauto.
Qed.

(** X7. Without a configuration file, the four essential variables decide:
    when one of them is unset or empty the load exits with status 1; when
    all four are set, the load succeeds exactly when AVERAGE_DOWNLOAD_TIME
    (or "30" in its absence) is an integer literal, and raises what [int]
    raises otherwise. *)
Theorem load_without_files `{Builtins} (env : config.environ) :
  (config.env_set env "APP_NAME" = None \/ config.env_set env "APP_URL" = None
   \/ config.env_set env "REDDIT_CLIENT_ID" = None
   \/ config.env_set env "REDDIT_CLIENT_SECRET" = None ->
   config.load env None None = Raise (SystemExit 1))
  /\ (forall name url id secret,
        config.env_set env "APP_NAME" = Some name ->
        config.env_set env "APP_URL" = Some url ->
        config.env_set env "REDDIT_CLIENT_ID" = Some id ->
        config.env_set env "REDDIT_CLIENT_SECRET" = Some secret ->
        match Str.to_int (default "30"%string (env !! "AVERAGE_DOWNLOAD_TIME")) with
        | Ok _ => exists cfg, config.load env None None = Ok cfg
        | Raise e => config.load env None None = Raise e
        end).
Proof.
  split.
  - apply load_exits_without_essential.
  - apply load_runs_with_essentials.
Qed.

Lemma load_without_files_witness :
  config.load (H := sample.builtins) (delete "REDDIT_CLIENT_SECRET" sample.env) None None
  = Raise (SystemExit 1).
Proof.
  apply (proj1 (load_without_files (H := sample.builtins)
                  (delete "REDDIT_CLIENT_SECRET" sample.env))).
  right. right. right. reflexivity.
Defined.

(** ** config.py: empty variables *)

Lemma env_set_empty (env : config.environ) var x :
  config.env_set (<[var := EmptyString]> env) x = config.env_set (delete var env) x.
Proof.
  unfold config.env_set. destruct (decide (var = x)) as [->|Hne].
  - now rewrite lookup_insert_eq, lookup_delete_eq.
  - now rewrite lookup_insert_ne, lookup_delete_ne.
Qed.

(** X8. A variable set to the empty string counts as unset, except
    AVERAGE_DOWNLOAD_TIME: set to the empty string, it makes every load
    fail. *)
Theorem load_empty_variable `{Builtins} (env : config.environ)
    (config_yml config_docker_yml : option dict) (var : string) :
  (var <> "AVERAGE_DOWNLOAD_TIME"%string ->
   config.load (<[var := EmptyString]> env) config_yml config_docker_yml
   = config.load (delete var env) config_yml config_docker_yml)
  /\ (forall cfg,
        config.load (<["AVERAGE_DOWNLOAD_TIME" := EmptyString]> env)
          config_yml config_docker_yml <> Ok cfg).
Proof.
  split.
  - intros Hne. unfold config.load, config.load_until_133,
      config.env_override, config.reddit_root, config.env_or_default,
      config.runtime_settings, config.recursion_limit, config.ip_restriction.
    rewrite !env_set_empty.
    now rewrite lookup_insert_ne, lookup_delete_ne by assumption.
  - intros cfg Hload. apply load_Ok_inv in Hload as (c & Hc & _).
    apply load_until_133_average in Hc as (z & Hz & _).
    rewrite lookup_insert_eq in Hz. discriminate Hz.
Qed.

Lemma load_empty_variable_witness :
  config.load (H := sample.builtins) (<["APP_URL" := EmptyString]> sample.env) None None
  = Raise (SystemExit 1).
Proof.
  rewrite (proj1 (load_empty_variable (H := sample.builtins) sample.env None None "APP_URL")
             ltac:(discriminate)).
  vm_compute. reflexivity.
Defined.

(** ** config.py: the access list and the recursion flag *)

Lemma split_nonempty sep s : Str.split sep s <> [].
Proof.
  destruct s as [|a r]; [discriminate|]. cbn.
  destruct (Ascii.eqb a sep); [discriminate|]. destruct (Str.split sep r); discriminate.
Qed.

(** Joining the pieces with the separator gives the string back. *)
Lemma concat_split (sep : ascii) (s : string) :
  String.concat (String sep EmptyString) (Str.split sep s) = s.
Proof.
  induction s as [|a r IH]; [reflexivity|]. cbn [Str.split].
  pose proof (split_nonempty sep r) as Hne.
  destruct (Ascii.eqb_spec a sep) as [->|Hdiff].
  - destruct (Str.split sep r) as [|h t]; [congruence|].
    cbn [String.concat]. cbn [String.concat] in IH. now rewrite IH.
  - destruct (Str.split sep r) as [|h t]; [congruence|].
    destruct t as [|h' t']; cbn [String.concat] in *; now rewrite <- IH.
Qed.

(** No piece contains the separator. *)
Lemma split_no_separator (sep : ascii) (s x : string) :
  In x (Str.split sep s) -> ~ In sep (list_ascii_of_string x).
Proof.
  revert x. induction s as [|a r IH]; intros x.
  - cbn. intros [<-|[]]. cbn. tauto.
  - cbn [Str.split]. pose proof (split_nonempty sep r) as Hne.
    destruct (Ascii.eqb_spec a sep) as [->|Hdiff].
    + intros [<-|Hin]; [cbn; tauto | now apply IH].
    + destruct (Str.split sep r) as [|h t]; [congruence|].
      intros [<-|Hin].
      * cbn. intros [E|Hin]; [congruence|]. apply (IH h); [now left | exact Hin].
      * apply IH. now right.
Qed.

(** X9. ONLY_ALLOW_FROM, when set, is stored as the list of its
    comma-separated pieces: joined with commas they give the variable
    back, none of them contains a comma, and the list is never empty, so
    the access check of [before_request_callback] is switched on. *)
Theorem load_only_allow_from `{Builtins} (env : config.environ)
    (config_yml config_docker_yml : option dict) (cfg : dict) (v : string) :
  config.env_set env "ONLY_ALLOW_FROM" = Some v ->
  config.load env config_yml config_docker_yml = Ok cfg ->
  exists l,
    getitem cfg "app" "only-allow-from" = Ok (VList l)
    /\ String.concat "," l = v
    /\ (forall x, In x l -> ~ In ","%char (list_ascii_of_string x))
    /\ app_pages.allow_list_active cfg = Ok true.
Proof.
  intros Hset Hload.
  destruct (load_trace _ _ _ _ Hload)
    as (c0 & found & c1 & c2 & c3 & c4 & c5 & c6 & c7 & c8 & c9 & c10 & c11
        & H0 & H1 & H2 & H3 & H4 & H5 & H6 & H7 & Hc & H8 & H9 & H10 & H11 & H12).
  assert (getitem cfg "app" "only-allow-from" = Ok (VList (Str.split "," v))) as Hget.
  { eapply setitem_preserves; [exact H12 | left; discriminate |].
    unfold config.ip_restriction in H11. rewrite Hset in H11.
    eapply getitem_setitem. exact H11. }
  exists (Str.split "," v). split; [exact Hget|]. split; [apply concat_split|].
  split; [intros x; apply split_no_separator|].
  apply getitem_Ok in Hget as (m & Hm & Hk).
  unfold app_pages.allow_list_active. rewrite Hm, Hk. cbn.
  pose proof (split_nonempty "," v). now destruct (Str.split "," v).
Qed.

Lemma sample_gated_cfg_loaded :
  config.load (H := sample.builtins) sample_pages.gated_env None None
  = Ok sample_pages.gated_cfg.
Proof. vm_compute. reflexivity. Qed.

Lemma load_only_allow_from_witness :
  app_pages.allow_list_active sample_pages.gated_cfg = Ok true.
Proof.
  destruct (load_only_allow_from (H := sample.builtins) sample_pages.gated_env None None
              sample_pages.gated_cfg "10.0.0.1,10.0.0.2"
              ltac:(vm_compute; reflexivity) sample_gated_cfg_loaded)
    as (l & _ & _ & _ & Hactive).
  exact Hactive.
Defined.

(** X10. DISABLE_RECURSION_LIMIT, when set, stores a boolean that is true
    exactly when the variable reads "true" whatever the case of its
    letters; "1", "yes" and the like store false. *)
Theorem load_recursion_flag `{Builtins} (env : config.environ)
    (config_yml config_docker_yml : option dict) (cfg : dict) (v : string) :
  config.env_set env "DISABLE_RECURSION_LIMIT" = Some v ->
  config.load env config_yml config_docker_yml = Ok cfg ->
  getitem cfg "app" "disable-recursion-limit"
  = Ok (VBool (bool_decide (Str.lower v = "true"%string))).
Proof.
  intros Hset Hload.
  destruct (load_trace _ _ _ _ Hload)
    as (c0 & found & c1 & c2 & c3 & c4 & c5 & c6 & c7 & c8 & c9 & c10 & c11
        & H0 & H1 & H2 & H3 & H4 & H5 & H6 & H7 & Hc & H8 & H9 & H10 & H11 & H12).
  assert (writes _ c10 cfg) as W by chain_writes.
  apply (writes_getitem _ _ _ _ _ _ W); [not_written|].
  unfold config.recursion_limit in H10. rewrite Hset in H10.
  replace (bool_decide (Str.lower v = "true"%string))
    with (String.eqb (Str.lower v) "true").
  - eapply getitem_setitem. exact H10.
  - destruct (String.eqb_spec (Str.lower v) "true") as [E|E].
    + now rewrite bool_decide_eq_true_2.
    + now rewrite bool_decide_eq_false_2.
Qed.

Lemma load_recursion_flag_witness :
  getitem sample_pages.gated_cfg "app" "disable-recursion-limit" = Ok (VBool true).
Proof.
  exact (load_recursion_flag (H := sample.builtins) sample_pages.gated_env None None
           sample_pages.gated_cfg "TRUE" ltac:(vm_compute; reflexivity)
           sample_gated_cfg_loaded).
Defined.

Lemma load_files_witness :
  sample_pages.file_cfg !! "docker" = Some (EBool false)
  /\ sample.cfg !! "docker" = None.
Proof.
  split.
  - exact (proj1 (load_files (H := sample.builtins) sample.env
                    (Some sample_pages.file_config) None sample_pages.file_cfg
                    sample_file_cfg_loaded)).
  - reflexivity.
Defined.

(** ** controllers.py: the shape of the redirect URI *)

(** A prefix that ends with a character outside [q] is out of reach of
    [rstrip_by q]. *)
Lemma rstrip_by_keeps_prefix (q : ascii -> bool) (p0 : string) (a : ascii) (r : string) :
  q a = false ->
  Str.rstrip_by q ((p0 +:+ String a EmptyString) +:+ r)
  = (p0 +:+ String a EmptyString) +:+ Str.rstrip_by q r.
Proof.
  intros Ha. induction p0 as [|b p IH].
  - change ((EmptyString +:+ String a EmptyString) +:+ r) with (String a r).
    change ((EmptyString +:+ String a EmptyString) +:+ Str.rstrip_by q r)
      with (String a (Str.rstrip_by q r)).
    cbn [Str.rstrip_by]. rewrite Ha. now destruct (Str.rstrip_by q r).
  - change ((String b p +:+ String a EmptyString) +:+ r)
      with (String b ((p +:+ String a EmptyString) +:+ r)).
    change ((String b p +:+ String a EmptyString) +:+ Str.rstrip_by q r)
      with (String b ((p +:+ String a EmptyString) +:+ Str.rstrip_by q r)).
    cbn [Str.rstrip_by]. rewrite IH.
    destruct p; reflexivity.
Qed.

Lemma prefix_refl_app (p r : string) : String.prefix p (p +:+ r) = true.
Proof.
  induction p as [|a p IH]; [now destruct r|].
  rewrite append_cons. cbn. now destruct (ascii_dec a a).
Qed.

(** The run of [get_oauth_redirect_uri] on a configured string. *)
Lemma get_oauth_redirect_uri_run (config : dict) (url : string) :
  getitem config "app" "url" = Ok (VStr url) ->
  controllers.get_oauth_redirect_uri config = tables.redirect_uri (Str.strip url).
Proof.
  intros Hget. unfold controllers.get_oauth_redirect_uri, tables.redirect_uri.
  rewrite (getitem_not_lacking _ _ _ _ Hget). cbn [bind]. rewrite Hget. cbn [bind].
  destruct (Str.startswith "https://" (Str.strip url)); cbn [negb bind].
  - now rewrite strip_slashes_loop_spec by lia.
  - destruct (Str.startswith "http://" (Str.strip url)); cbn [bind]; [|reflexivity].
    now rewrite strip_slashes_loop_spec by lia.
Qed.

(** When it succeeds, the configured URL is a string. *)
Lemma get_oauth_redirect_uri_Ok (config : dict) (uri : string) :
  controllers.get_oauth_redirect_uri config = Ok uri ->
  exists url, getitem config "app" "url" = Ok (VStr url).
Proof.
  unfold controllers.get_oauth_redirect_uri. intros E.
  apply bind_Ok in E as (missing & _ & E). destruct missing; [discriminate E|].
  apply bind_Ok in E as (v & Hv & E). destruct v; try discriminate E. eauto.
Qed.

(** X11. The redirect URI, whenever there is one, starts with "https:", ends
    with "/token", and has no slash before "/token"; there is one exactly
    when the configured URL is a string that, stripped of surrounding
    white space, starts with "https://" or "http://". *)
Theorem redirect_uri_shape (config : dict) :
  (forall uri,
     controllers.get_oauth_redirect_uri config = Ok uri ->
     exists stem,
       uri = stem +:+ "/token"
       /\ Str.startswith "https:" stem = true
       /\ Str.ends_with_char "/" stem = false)
  /\ ((exists uri, controllers.get_oauth_redirect_uri config = Ok uri)
      <-> exists url,
            getitem config "app" "url" = Ok (VStr url)
            /\ Str.startswith "https://" (Str.strip url)
               || Str.startswith "http://" (Str.strip url) = true).
Proof.
  assert (forall s, Str.startswith "https://" s = true ->
            Str.startswith "https:" (Str.rstrip_by tables.is_slash s) = true) as Hkeep.
  { intros s Hp. unfold Str.startswith in *. apply prefix_split in Hp as [r ->].
    change ("https://" +:+ r) with (("https" +:+ String ":" EmptyString) +:+ ("//" +:+ r)).
    rewrite rstrip_by_keeps_prefix by reflexivity. apply prefix_refl_app. }
  split.
  - intros uri Hrun. destruct (get_oauth_redirect_uri_Ok _ _ Hrun) as [url Hget].
    rewrite (get_oauth_redirect_uri_run _ _ Hget) in Hrun.
    unfold tables.redirect_uri in Hrun.
    destruct (Str.startswith "https://" (Str.strip url)) eqn:Hs.
    + injection Hrun as <-. exists (Str.rstrip_by tables.is_slash (Str.strip url)).
      split; [reflexivity|]. split; [now apply Hkeep|].
      apply rstrip_by_decompose.
    + destruct (Str.startswith "http://" (Str.strip url)) eqn:Hh; [|discriminate Hrun].
      injection Hrun as <-.
      exists (Str.rstrip_by tables.is_slash ("https://" +:+ Str.drop 7 (Str.strip url))).
      split; [reflexivity|]. split.
      * apply Hkeep. apply prefix_refl_app.
      * apply rstrip_by_decompose.
  - split.
    + intros [uri Hrun]. destruct (get_oauth_redirect_uri_Ok _ _ Hrun) as [url Hget].
      exists url. split; [exact Hget|].
      rewrite (get_oauth_redirect_uri_run _ _ Hget) in Hrun.
      unfold tables.redirect_uri in Hrun.
      destruct (Str.startswith "https://" (Str.strip url)); [reflexivity|].
      destruct (Str.startswith "http://" (Str.strip url)); [reflexivity | discriminate Hrun].
    + intros (url & Hget & Hp). rewrite (get_oauth_redirect_uri_run _ _ Hget).
      unfold tables.redirect_uri.
      destruct (Str.startswith "https://" (Str.strip url)); [eauto|].
      cbn in Hp. rewrite Hp. eauto.
Qed.

(** A base URL that is only the scheme loses one of its slashes. *)
Example redirect_uri_of_bare_scheme :
  controllers.get_oauth_redirect_uri (sample.with_url "https://") = Ok "https:/token"%string.
Proof. vm_compute. reflexivity. Qed.

(** X12. The [http://] and the [https://] spelling of a base URL give the same
    redirect URI. *)
Theorem redirect_uri_http_upgrade (config config' : dict) (rest : string) :
  getitem config "app" "url" = Ok (VStr ("http://" +:+ rest)) ->
  getitem config' "app" "url" = Ok (VStr ("https://" +:+ rest)) ->
  controllers.get_oauth_redirect_uri config = controllers.get_oauth_redirect_uri config'
  /\ exists uri, controllers.get_oauth_redirect_uri config = Ok uri.
Proof.
  intros Hget Hget'.
  rewrite (get_oauth_redirect_uri_run _ _ Hget), (get_oauth_redirect_uri_run _ _ Hget').
  assert (Str.strip ("http://" +:+ rest) = "http://" +:+ Str.rstrip rest) as ->.
  { unfold Str.strip, Str.rstrip.
    change (Str.lstrip ("http://" +:+ rest)) with ("http://" +:+ rest).
    change ("http://" +:+ rest) with (("http:/" +:+ String "/" EmptyString) +:+ rest).
    now rewrite rstrip_by_keeps_prefix by reflexivity. }
  assert (Str.strip ("https://" +:+ rest) = "https://" +:+ Str.rstrip rest) as ->.
  { unfold Str.strip, Str.rstrip.
    change (Str.lstrip ("https://" +:+ rest)) with ("https://" +:+ rest).
    change ("https://" +:+ rest) with (("https:/" +:+ String "/" EmptyString) +:+ rest).
    now rewrite rstrip_by_keeps_prefix by reflexivity. }
  unfold tables.redirect_uri, Str.startswith.
  rewrite (prefix_refl_app "https://" (Str.rstrip rest)).
  replace (String.prefix "https://" ("http://" +:+ Str.rstrip rest)) with false
    by reflexivity.
  rewrite (prefix_refl_app "http://" (Str.rstrip rest)).
  change (Str.drop 7 ("http://" +:+ Str.rstrip rest)) with (Str.rstrip rest).
  split; [reflexivity | eauto].
Qed.

Lemma redirect_uri_http_upgrade_witness :
  controllers.get_oauth_redirect_uri (sample.with_url "http://example.com/")
  = controllers.get_oauth_redirect_uri (sample.with_url "https://example.com/").
Proof.
  exact (proj1 (redirect_uri_http_upgrade (sample.with_url "http://example.com/")
                  (sample.with_url "https://example.com/") "example.com/"
                  ltac:(vm_compute; reflexivity) ltac:(vm_compute; reflexivity))).
Defined.

Lemma redirect_uri_shape_witness :
  exists stem,
    "https://example.com/token"%string = stem +:+ "/token"
    /\ Str.startswith "https:" stem = true
    /\ Str.ends_with_char "/" stem = false.
Proof.
  apply (proj1 (redirect_uri_shape (sample.with_url "https://example.com///"))).
  vm_compute. reflexivity.
Defined.

(** ** controllers.py and app.py: the OAuth flow *)

Section oauth_properties.
Context {DB : Type} `{models.Datastore DB} `{praw.Auth} `{praw_auth.UrlBuilder}
        `{Builtins}.

(** X13. The authorization page and the token exchange are built for the same
    client: whenever the authorization URL can be crafted, an exchange for
    any non-empty code is prepared with the client the URL was crafted
    for (same redirect URI, credentials and user agent), the URL asks for
    a permanent grant with the single scope "read" and carries the session
    cookie as its state; and when the URL cannot be crafted no exchange
    can be prepared either. *)
Theorem oauth_same_client (config : dict) (g_cookie : string) (a : ascii) (code : string) :
  match controllers_auth.craft_authentication_url config g_cookie with
  | Ok auth_url =>
      exists reddit,
        controllers.prepare_exchange config (Some (String a code))
        = Ok (reddit, String a code)
        /\ auth_url = praw_auth.url reddit "permanent" ["read"%string] g_cookie
        /\ controllers.get_oauth_redirect_uri config = Ok (praw.redirect_uri reddit)
  | Raise e => controllers.prepare_exchange config (Some (String a code)) = Raise e
  end.
Proof.
  unfold controllers_auth.craft_authentication_url, controllers.prepare_exchange.
  destruct (controllers.get_oauth_redirect_uri config) as [uri|e] eqn:Huri;
    cbn [bind]; [|reflexivity].
  destruct (getitem config "app" "version") as [version|e]; cbn [bind]; [|reflexivity].
  destruct (lacks config "reddit" "client-id") as [no_id|e]; cbn [bind]; [|reflexivity].
  destruct (if no_id then Ok true else lacks config "reddit" "client-secret")
    as [no_secret|e]; cbn [bind]; [|reflexivity].
  destruct no_secret; [reflexivity|].
  destruct (getitem config "reddit" "client-id") as [id|e]; cbn [bind]; [|reflexivity].
  destruct (getitem config "reddit" "client-secret") as [secret|e]; cbn [bind];
    [|reflexivity].
  destruct (get_oauth_redirect_uri_Ok _ _ Huri) as [url ->]. cbn [bind].
  eexists. repeat split.
Qed.

(** An exchange is only prepared for the code of the request, which is
    then not empty. *)
Lemma prepare_exchange_code (config : dict) (code : option string)
    (reddit : praw.Reddit) (c : string) :
  controllers.prepare_exchange config code = Ok (reddit, c) ->
  code = Some c /\ c <> EmptyString.
Proof.
  unfold controllers.prepare_exchange. intros Hprep.
  repeat match type of Hprep with
         | bind ?r _ = _ => destruct r; cbn [bind] in Hprep; [|discriminate Hprep]
         | (if ?b then _ else _) = _ => destruct b; [discriminate Hprep|]
         end.
  destruct code as [[|ch c']|]; try discriminate Hprep.
  injection Hprep as _ <-. split; [reflexivity | discriminate].
Qed.

(** X14. What [get_refresh_token] does to the world: it never touches the
    datastore or the threads; it sends at most one exchange, and none at
    all when the request carries no code or an empty one, in which case it
    raises. *)
Theorem get_refresh_token_effects (config : dict) (code : option string) (w : World DB) :
  let w' := snd (controllers.get_refresh_token config code w) in
  db w' = db w /\ threads w' = threads w
  /\ (exchanges w' = exchanges w
      \/ exists reddit c, code = Some c /\ c <> EmptyString
                          /\ exchanges w' = exchanges w ++ [(reddit, c)]
                          /\ fst (controllers.get_refresh_token config code w)
                             = praw.authorize reddit c)
  /\ (code = None \/ code = Some EmptyString ->
      exchanges w' = exchanges w
      /\ exists e, fst (controllers.get_refresh_token config code w) = Raise e).
Proof.
  unfold controllers.get_refresh_token.
  destruct (controllers.prepare_exchange config code) as [[reddit c]|e] eqn:Hprep; cbn.
  - destruct (prepare_exchange_code _ _ _ _ Hprep) as [-> Hc].
    split; [reflexivity|]. split; [reflexivity|]. split.
    + right. exists reddit, c. repeat split; assumption.
    + intros [[=]|[= ->]]. congruence.
  - split; [reflexivity|]. split; [reflexivity|]. split; [now left|].
    intros _. split; [reflexivity | eauto].
Qed.

(** X15. The datastore changes in [token] only to store a token that the
    identity provider has just granted for the code of the request, under
    the state of the request, which then equals the session cookie; the
    answer is then the redirection to the landing page. *)
Theorem token_stores_only_granted_tokens (config : dict) (req : app.Callback)
    (w : World DB) :
  db (snd (app.token config req w)) <> db w ->
  exists reddit code refresh_token,
    app.arg_state req = app.cookie_redditarchive_id req
    /\ app.arg_code req = Some code
    /\ controllers.prepare_exchange config (Some code) = Ok (reddit, code)
    /\ praw.authorize reddit code = Ok refresh_token
    /\ db (snd (app.token config req w))
       = models.create_token (db w) (app.arg_state req) refresh_token
    /\ exchanges (snd (app.token config req w)) = exchanges w ++ [(reddit, code)]
    /\ fst (app.token config req w) = Ok (app.Redirect "/" 303).
Proof.
  unfold app.token.
  destruct (getitem config "app" "url"); [|now intros []].
  destruct (bool_decide_reflect (app.arg_state req = app.cookie_redditarchive_id req))
    as [Hstate|_]; cbn [negb]; [|now intros []].
  unfold controllers.get_refresh_token.
  destruct (controllers.prepare_exchange config (app.arg_code req))
    as [[reddit code]|e] eqn:Hprep.
  - destruct (prepare_exchange_code _ _ _ _ Hprep) as [Hcode _].
    rewrite Hcode in Hprep.
    destruct (praw.authorize reddit code) as [rt|e] eqn:Hauth.
    + intros _. exists reddit, code, rt. cbn. repeat split; assumption.
    + destruct (app.is_Exception e); now intros [].
  - destruct (app.is_Exception e); now intros [].
Qed.

(** X16. A callback that carries no state, in a request that carries no
    session cookie, passes the state check: once the provider grants the
    code, the token is stored under no cookie at all. *)
Theorem token_accepts_absent_state (config : dict) (req : app.Callback) (w : World DB)
    (reddit : praw.Reddit) (code refresh_token : string) :
  app.arg_state req = None ->
  app.cookie_redditarchive_id req = None ->
  controllers.prepare_exchange config (app.arg_code req) = Ok (reddit, code) ->
  praw.authorize reddit code = Ok refresh_token ->
  app.token config req w
  = (Ok (app.Redirect "/" 303),
     {| db := models.create_token (db w) None refresh_token;
        threads := threads w;
        exchanges := exchanges w ++ [(reddit, code)] |}).
Proof.
  intros Hstate Hcookie Hprep Hauth. unfold app.token.
  assert (exists url, getitem config "app" "url" = Ok url) as [url ->].
  { unfold controllers.prepare_exchange in Hprep.
    apply bind_Ok in Hprep as (uri & Huri & _).
    destruct (get_oauth_redirect_uri_Ok _ _ Huri) as [u Hu]. eauto. }
  rewrite Hstate, Hcookie. cbn [negb].
  rewrite bool_decide_eq_true_2 by reflexivity. cbn [negb].
  unfold controllers.get_refresh_token. rewrite Hprep, Hauth. reflexivity.
Qed.

End oauth_properties.

Lemma token_stores_only_granted_tokens_witness :
  let req := {| app.arg_state := Some "victim"%string;
                app.arg_code := Some "granted"%string;
                app.cookie_redditarchive_id := Some "victim"%string |} in
  exists reddit,
    praw.authorize (Auth := sample.auth) reddit "granted" = Ok "refresh-token"%string
    /\ praw.redirect_uri reddit = "https://example.com/token"%string.
Proof.
  intros req.
  destruct (token_stores_only_granted_tokens (H := sample.datastore) (H0 := sample.auth)
              (H2 := sample.builtins) sample.cfg req sample.empty_world)
    as (reddit & code & rt & _ & Hcode & Hprep & Hauth & _).
  - vm_compute. discriminate.
  - injection Hcode as <-. exists reddit. split.
    + rewrite Hauth. vm_compute in Hauth. symmetry. exact Hauth.
    + vm_compute in Hprep. now injection Hprep as <-.
Defined.

Lemma token_accepts_absent_state_witness :
  let req := {| app.arg_state := None; app.arg_code := Some "granted"%string;
                app.cookie_redditarchive_id := None |} in
  sample.tokens (db (snd (app.token (H := sample.datastore) (H1 := sample.auth)
                            (H3 := sample.builtins) sample.cfg req sample.empty_world)))
  = [(None, "refresh-token"%string)].
Proof.
  intros req.
  destruct (controllers.prepare_exchange (H3 := sample.builtins) sample.cfg
              (app.arg_code req)) as [[reddit code]|e] eqn:Hprep;
    [|vm_compute in Hprep; discriminate Hprep].
  rewrite (token_accepts_absent_state (H := sample.datastore) (H0 := sample.auth)
             (H2 := sample.builtins) sample.cfg req sample.empty_world reddit code
             "refresh-token" eq_refl eq_refl Hprep).
  - reflexivity.
  - vm_compute in Hprep. injection Hprep as <- <-. reflexivity.
Defined.

(** ** controllers.py: the estimate over time *)

Lemma remaining_decreases (now now' start : Q) (n avg : Z) (x x' : Float.float) :
  (now <= now')%Q ->
  remaining now start n avg = Ok x -> remaining now' start n avg = Ok x' ->
  Float.le x' x.
Proof.
  intros Hle Hx Hx'. unfold remaining in Hx, Hx'.
  apply bind_Ok in Hx as (t & Ht & Hx). rewrite Ht in Hx'. cbn [bind] in Hx'.
  apply truediv_Ok in Ht as [_ ->]. injection Hx as <-. injection Hx' as <-.
  apply sub_antitone. cbn [Float.sub]. apply of_Q_monotone. lra.
Qed.

Lemma round_zero : Float.round 0 = 0%Q.
Proof. reflexivity. Qed.

(** X17. For one job and one throughput, the estimate never grows as time
    passes: neither the double that reaches [int(...)] nor its integer
    part. Once the answer is "longer than expected" it stays so, unless
    the elapsed time has left the range of the doubles, where [int]
    raises [OverflowError]; that does not happen for a reply count that
    is not negative, a positive throughput and an elapsed time of
    magnitude up to [2^1023]. *)
Theorem estimate_never_grows (now now' start : Q) (n avg : Z) :
  (now <= now')%Q ->
  (forall x x', remaining now start n avg = Ok x -> remaining now' start n avg = Ok x' ->
     Float.le x' x
     /\ forall r r', Float.to_int x = Ok r -> Float.to_int x' = Ok r' -> r' <= r)
  /\ (calculate_estimated_time now start (Some n) avg = Ok (Some msg_longer) ->
      calculate_estimated_time now' start (Some n) avg = Ok (Some msg_longer)
      \/ calculate_estimated_time now' start (Some n) avg
         = Raise (OverflowError "cannot convert float infinity to integer"))
  /\ (0 <= n -> 0 < avg -> (Qabs (now' - start) <= 2 ^ 1023)%Q ->
      calculate_estimated_time now start (Some n) avg = Ok (Some msg_longer) ->
      calculate_estimated_time now' start (Some n) avg = Ok (Some msg_longer)).
Proof.
  intros Hle.
  assert (forall x x', remaining now start n avg = Ok x ->
            remaining now' start n avg = Ok x' ->
            Float.le x' x
            /\ forall r r', Float.to_int x = Ok r -> Float.to_int x' = Ok r' -> r' <= r)
    as Hmono.
  { intros x x' Hx Hx'. pose proof (remaining_decreases _ _ _ _ _ _ _ Hle Hx Hx') as Hxx.
    split; [exact Hxx|]. intros r r' Hr Hr'. exact (to_int_monotone _ _ _ _ Hxx Hr' Hr). }
  assert (calculate_estimated_time now start (Some n) avg = Ok (Some msg_longer) ->
          exists t x q x',
            Float.truediv n avg = Ok (Float.Finite t)
            /\ remaining now start n avg = Ok x /\ x = Float.Finite q
            /\ int_of_float q < 0
            /\ remaining now' start n avg = Ok x' /\ Float.le x' x
            /\ x' = Float.sub (Float.Finite t) (Float.of_Q (now' - start))) as Hinv.
  { rewrite eta_unfold. intros E.
    apply bind_Ok in E as (x & Hx & E). apply bind_Ok in E as (r & Hr & E).
    destruct x as [q| |]; try discriminate Hr. injection Hr as <-.
    assert (int_of_float q < 0) as Hneg.
    { destruct (Z.ltb_spec (int_of_float q) 0); [assumption|].
      destruct (int_of_float q <? 10); [discriminate E|].
      destruct (int_of_float q <? 60); discriminate E. }
    pose proof Hx as Hx0. unfold remaining in Hx0.
    apply bind_Ok in Hx0 as (t & Ht & _).
    pose proof (truediv_Ok _ _ _ Ht) as [_ Et]. subst t.
    assert (remaining now' start n avg
            = Ok (Float.sub (Float.Finite (Float.round (inject_Z n / inject_Z avg)))
                    (Float.of_Q (now' - start)))) as Hx'
      by (unfold remaining; rewrite Ht; reflexivity).
    do 4 eexists. split; [exact Ht|]. split; [exact Hx|]. split; [reflexivity|].
    split; [exact Hneg|]. split; [exact Hx'|]. split; [|reflexivity].
    exact (remaining_decreases _ _ _ _ _ _ _ Hle Hx Hx'). }
  assert (forall q x', int_of_float q < 0 -> Float.le x' (Float.Finite q) ->
            remaining now' start n avg = Ok x' ->
            (exists q', x' = Float.Finite q'
                        /\ calculate_estimated_time now' start (Some n) avg
                           = Ok (Some msg_longer))
            \/ (x' = Float.Infinity true
                /\ calculate_estimated_time now' start (Some n) avg
                   = Raise (OverflowError "cannot convert float infinity to integer")))
    as Hcases.
  { intros q x' Hneg Hxx Hx'. rewrite eta_unfold, Hx'. cbn [bind].
    destruct x' as [q'|[|]|]; cbn in Hxx; try contradiction.
    - left. exists q'. split; [reflexivity|]. cbn [Float.to_int bind].
      pose proof (int_of_float_monotone _ _ Hxx) as Hq.
      destruct (Z.ltb_spec (int_of_float q') 0); [reflexivity | lia].
    - right. split; reflexivity. }
  split; [exact Hmono|]. split.
  - intros E. destruct (Hinv E) as (t & x & q & x' & _ & _ & -> & Hneg & Hx' & Hxx & _).
    destruct (Hcases q x' Hneg Hxx Hx') as [(q' & _ & Hok)|(_ & Hraise)]; auto.
  - intros Hn Havg Hage E.
    destruct (Hinv E) as (t & x & q & x' & Ht & _ & -> & Hneg & Hx' & Hxx & Ex').
    destruct (Hcases q x' Hneg Hxx Hx') as [(q' & _ & Hok)|(Einf & _)]; [exact Hok|].
    exfalso. rewrite Einf in Ex'.
    (* the elapsed time is finite, the estimated total is not negative *)
    apply truediv_Ok in Ht as [_ Et]. injection Et as Et.
    destruct round_pow2_1023 as [Hc Hnc].
    apply Qabs_Qle_condition in Hage as [Hage1 Hage2].
    destruct (of_Q_finite (now' - start) _ Hc Hnc ltac:(reflexivity) Hage1 Hage2)
      as (Ee & He1 & He2).
    rewrite Ee in Ex'. cbn [Float.sub] in Ex'.
    assert (0 <= t)%Q as Htpos.
    { rewrite Et. rewrite <- round_zero at 1. apply round_monotone.
      apply Qle_shift_div_l; [rewrite <- (Zlt_Qlt 0); lia|].
      rewrite Qmult_0_l. rewrite <- (Zle_Qle 0). lia. }
    destruct (of_Q_cases (t - Float.round (now' - start)))
      as [(E1 & _)|[(E1 & _)|(_ & Hr)]]; try congruence.
    assert (- 2 ^ 1023 <= t - Float.round (now' - start))%Q as Hlow.
    { set (e := Float.round (now' - start)) in *. set (P := (2 ^ 1023)%Q) in *.
      clearbody e P. lra. }
    apply round_monotone in Hlow. rewrite Hnc in Hlow.
    assert (- 2 ^ 1024 < - 2 ^ 1023)%Q as Hlt by reflexivity.
    set (r := Float.round (t - Float.round (now' - start))) in *.
    set (P := (2 ^ 1023)%Q) in *. set (P' := (2 ^ 1024)%Q) in *.
    clearbody r P P'. lra.
Qed.

Lemma estimate_never_grows_witness :
  calculate_estimated_time 30 0 (Some 10) 10 = Ok (Some msg_longer).
Proof.
  apply (proj2 (proj2 (estimate_never_grows 20 30 0 10 10 ltac:(discriminate)))).
  - lia.
  - lia.
  - vm_compute. discriminate.
  - vm_compute. reflexivity.
Defined.

(** ** controllers.py: recalibration and status *)

Section recalibration_properties.
Context {DB : Type} `{models.Datastore DB} `{json.Encoder}.

(** X18. A recalibration assigns [runtime.average] and nothing else; without a
    [runtime] section it raises and assigns nothing. *)
Theorem calculate_average_eta_frame (config : dict) (db : DB) :
  match controllers.calculate_average_eta config db with
  | Ok config' =>
      (forall sec k, sec <> "runtime"%string \/ k <> "average"%string ->
                     getitem config' sec k = getitem config sec k)
      /\ (forall t, t <> "runtime"%string -> config' !! t = config !! t)
  | Raise e => section config "runtime" = Raise e
  end.
Proof.
  unfold controllers.calculate_average_eta.
  assert (forall v, match setitem config "runtime" "average" v with
                    | Ok config' =>
                        (forall sec k, sec <> "runtime"%string \/ k <> "average"%string ->
                                       getitem config' sec k = getitem config sec k)
                        /\ (forall t, t <> "runtime"%string -> config' !! t = config !! t)
                    | Raise e => section config "runtime" = Raise e
                    end) as Hset.
  { intros v. unfold setitem. destruct (section config "runtime") as [m|e] eqn:Hm;
      cbn [bind]; [|reflexivity].
    apply section_Ok in Hm. split.
    - intros sec k Hne. unfold getitem, section.
      destruct (decide (sec = "runtime"%string)) as [->|Hsec].
      + rewrite lookup_insert_eq, Hm. cbn [bind].
        destruct Hne as [Hne|Hne]; [congruence|]. now rewrite lookup_insert_ne.
      + now rewrite lookup_insert_ne.
    - intros t Ht. now rewrite lookup_insert_ne. }
  destruct (models.calculate_average_eta db); apply Hset.
Qed.

(** X19. A history whose average lies strictly between -1 and 1 is stored as
    throughput 0; from then on [status] raises [ZeroDivisionError] for
    every job whose number of replies is known. *)
Theorem status_after_slow_history (config : dict) (db0 : DB) (a : Q) (project : string) m :
  section config "runtime" = Ok m ->
  getitem config "app" "project" = Ok (VStr project) ->
  models.calculate_average_eta db0 = Some a ->
  (-1 < a)%Q -> (a < 1)%Q ->
  exists config',
    controllers.calculate_average_eta config db0 = Ok config'
    /\ getitem config' "runtime" "average" = Ok (VInt 0)
    /\ forall now job_id (w : World DB) n,
         job_nb_replies (models.read_job (db w) job_id) = Some n ->
         controllers.status config' now job_id w = Raise ZeroDivisionError.
Proof.
  intros Hm Hp Havg Hlo Hhi.
  assert (int_of_float a = 0) as Hzero by (apply int_of_float_zero; auto).
  unfold controllers.calculate_average_eta. rewrite Havg, Hzero.
  rewrite (setitem_section _ _ _ _ _ Hm). eexists. split; [reflexivity|].
  pose proof (setitem_section _ _ "average" (VInt 0) _ Hm) as Hset.
  split; [eapply getitem_setitem; exact Hset|].
  intros now job_id w n Hn. unfold controllers.status.
  rewrite (error_message_table _ project).
  2:{ eapply setitem_preserves; [exact Hset | left; discriminate | exact Hp]. }
  cbn [bind]. rewrite (getitem_setitem _ _ _ _ _ Hset). cbn [bind].
  unfold controllers.estimated_time_with, calculate_estimated_time. rewrite Hn.
  reflexivity.
Qed.

(** X20. A job whose status is none of the four values makes [status] raise,
    even when the message and the estimate have been computed: the local
    [status] is read before it is assigned. *)
Theorem status_unknown_status (config : dict) (now : Q) (job_id : string)
    (w : World DB) (project : string) (average : Z) (eta : option string) :
  let job := models.read_job (db w) job_id in
  ~ In (job_status job) ["ongoing"; "failure"; "success"; "notfound"]%string ->
  getitem config "app" "project" = Ok (VStr project) ->
  getitem config "runtime" "average" = Ok (VInt average) ->
  calculate_estimated_time now (job_started_at job) (job_nb_replies job) average
    = Ok eta ->
  controllers.status config now job_id w = Raise (UnboundLocalError "status").
Proof.
  intros job Hst Hp Havg Heta. unfold controllers.status. fold job.
  rewrite (error_message_table _ _ _ Hp). cbn [bind]. rewrite Havg. cbn [bind].
  unfold controllers.estimated_time_with. rewrite Heta. cbn [bind].
  repeat match goal with
         | |- context [String.eqb ?a ?b] =>
             destruct (String.eqb_spec a b) as [E|_];
             [exfalso; apply Hst; rewrite E; cbn; tauto|]
         end.
  reflexivity.
Qed.

(** X21. Without [config['app']['project']] the message of the three reasons
    that link to the project cannot be built; the other reasons, and the
    absent reason, are answered as usual. *)
Theorem error_message_without_project (config : dict) (reason : option string) (e : exn) :
  getitem config "app" "project" = Raise e ->
  (In reason [Some "BAD_AUTHENTICATION"; Some "BAD_PERMISSIONS"; Some "UNKNOWN"]%string ->
   controllers.error_message config reason = Raise e)
  /\ (~ In reason [Some "BAD_AUTHENTICATION"; Some "BAD_PERMISSIONS"; Some "UNKNOWN"]%string ->
      forall project,
        controllers.error_message config reason = Ok (tables.message_for project reason)).
Proof.
  intros Hp. unfold controllers.error_message, controllers.project_link. rewrite Hp.
  cbn [bind]. split.
  - cbn. intros [<-|[<-|[<-|[]]]]; reflexivity.
  - intros Hnot project.
    repeat case_bool_decide; subst; try reflexivity;
      try (exfalso; apply Hnot; cbn; tauto).
    destruct reason as [r|]; [|reflexivity].
    unfold tables.message_for, tables.assoc, tables.error_table.
    cbn [List.find fst snd].
    repeat match goal with
           | |- context [String.eqb ?k r] =>
               destruct (String.eqb_spec k r); [subst; congruence|]
           end.
    reflexivity.
Qed.

End recalibration_properties.

Lemma status_after_slow_history_witness :
  exists config',
    controllers.calculate_average_eta (H := sample.constant_average (1 # 2)) sample.cfg tt
    = Ok config'
    /\ getitem config' "runtime" "average" = Ok (VInt 0).
Proof.
  destruct (load_has_runtime (H := sample.builtins) sample.env None None sample.cfg
              sample_cfg_loaded) as [m Hm].
  destruct (status_after_slow_history (H := sample.constant_average (1 # 2))
              (H0 := sample.encoder) sample.cfg tt (1 # 2)
              "https://github.com/Ailothaen/RedditArchiver" m Hm
              (load_sets_project (H := sample.builtins) _ _ _ _ sample_cfg_loaded)
              eq_refl eq_refl eq_refl) as (config' & Hrun & Hzero & _).
  exists config'. split; assumption.
Defined.

Lemma status_unknown_status_witness :
  let w := {| db := {| sample.jobs :=
                         [("job-1"%string,
                           {| job_status := "queued"; job_failure_reason := None;
                              job_started_at := 0; job_nb_replies := None;
                              job_filename := None |})];
                       sample.tokens := [] |};
              threads := []; exchanges := [] |} in
  controllers.status (H := sample.datastore) (H2 := sample.encoder) sample.cfg 1 "job-1" w
  = Raise (UnboundLocalError "status").
Proof.
  intros w.
  apply (status_unknown_status (H := sample.datastore) (H0 := sample.encoder)
           sample.cfg 1 "job-1" w "https://github.com/Ailothaen/RedditArchiver" 30 None).
  - cbn. intuition discriminate.
  - exact (load_sets_project (H := sample.builtins) _ _ _ _ sample_cfg_loaded).
  - vm_compute. reflexivity.
  - reflexivity.
Defined.

Lemma error_message_without_project_witness :
  controllers.error_message ∅ (Some "UNKNOWN"%string) = Raise (KeyError "app")
  /\ controllers.error_message ∅ (Some "BAD_URL"%string) = Ok (Some controllers.msg_bad_url).
Proof.
  assert (getitem (∅ : dict) "app" "project" = Raise (KeyError "app")) as Hp
    by (vm_compute; reflexivity).
  destruct (error_message_without_project ∅ (Some "UNKNOWN"%string) (KeyError "app") Hp)
    as [Hlink _].
  destruct (error_message_without_project ∅ (Some "BAD_URL"%string) (KeyError "app") Hp)
    as [_ Hplain].
  split.
  - apply Hlink. cbn. tauto.
  - rewrite (Hplain ltac:(cbn; intuition discriminate) EmptyString). reflexivity.
Defined.

(** ** controllers.py: what the sweep never does *)

Lemma sweep_sublist (now : Q) (files : list string) :
  forall (output : list File) (f : File),
    In f (snd (controllers.sweep now files output)) -> In f output.
Proof.
  induction files as [|file rest IH]; intros output f; [trivial|].
  cbn. destruct (controllers.getmtime output file) as [m|]; [|trivial].
  destruct (controllers.too_old now m); [|apply IH].
  unfold controllers.os_remove. destruct (List.find _ output) as [g|]; [|trivial].
  destruct (removable g); [|trivial].
  intros Hin. apply IH in Hin. now apply filter_In in Hin.
Qed.

(** X22. Whatever fails on the way, the sweep creates no entry, and it leaves
    in place every entry that is not older than 86400 seconds. *)
Theorem cleanup_downloads_safe (now : Q) (output : list File) (f : File) :
  List.NoDup (List.map fname output) ->
  (In f (snd (controllers.cleanup_downloads now output)) -> In f output)
  /\ (In f output -> (now - mtime f <= 86400)%Q ->
      In f (snd (controllers.cleanup_downloads now output))).
Proof.
  intros Hnd. split.
  - apply sweep_sublist.
  - intros Hin Hage. apply sweep_keeps_young; [assumption | assumption |].
    now apply not_too_old.
Qed.

Lemma cleanup_downloads_safe_witness :
  In {| fname := "b.html"; mtime := 99999; removable := true |}
     (snd (controllers.cleanup_downloads 100000
             [ {| fname := "subdir"; mtime := 20; removable := false |};
               {| fname := "b.html"; mtime := 99999; removable := true |} ])).
Proof.
  apply (proj2 (cleanup_downloads_safe 100000
                  [ {| fname := "subdir"; mtime := 20; removable := false |};
                    {| fname := "b.html"; mtime := 99999; removable := true |} ]
                  {| fname := "b.html"; mtime := 99999; removable := true |}
                  ltac:(repeat constructor; cbn; intuition discriminate))).
  - cbn. tauto.
  - discriminate.
Defined.

(** The run of the sweep when every old entry can be removed. *)
Lemma cleanup_downloads_run (now : Q) (output : list File) :
  List.NoDup (List.map fname output) ->
  (forall f, In f output ->
             controllers.too_old now (mtime f) = true -> removable f = true) ->
  controllers.cleanup_downloads now output
  = (Ok tt, List.filter (fun f => negb (controllers.too_old now (mtime f))) output).
Proof.
  intros Hnd Hrem. unfold controllers.cleanup_downloads.
  rewrite sweep_completes; try assumption.
  - f_equal. apply filter_ext_in. intros g Hg.
    replace (existsb _ _) with true; [now rewrite andb_true_r|].
    symmetry. apply existsb_exists. exists (fname g).
    split; [now apply in_map | apply String.eqb_refl].
  - intros n Hn. apply in_map_iff in Hn as (g & Hg & Hin). eauto.
  - intros g Hg _. now apply Hrem.
Qed.

(** X23. Two sweeps in a row leave what the later one alone would leave. *)
Theorem cleanup_downloads_twice (now now' : Q) (output : list File) :
  (now <= now')%Q ->
  List.NoDup (List.map fname output) ->
  (forall f, In f output ->
             controllers.too_old now' (mtime f) = true -> removable f = true) ->
  exists between,
    controllers.cleanup_downloads now output = (Ok tt, between)
    /\ controllers.cleanup_downloads now' between
       = controllers.cleanup_downloads now' output.
Proof.
  intros Hle Hnd Hrem.
  assert (forall f, controllers.too_old now (mtime f) = true ->
                    controllers.too_old now' (mtime f) = true) as Hlater.
  { intros f. now apply too_old_later. }
  eexists. split.
  - apply cleanup_downloads_run; [assumption|]. intros f Hf Hold. apply Hrem; auto.
  - rewrite !cleanup_downloads_run; try assumption.
    + f_equal. rewrite filter_filter. apply filter_ext_in. intros f _.
      destruct (controllers.too_old now' (mtime f)) eqn:Hold'; [apply andb_false_r|].
      destruct (controllers.too_old now (mtime f)) eqn:Hold; [|reflexivity].
      apply Hlater in Hold. congruence.
    + now apply unique_names_filter.
    + intros f Hf. apply filter_In in Hf as [Hf _]. now apply Hrem.
Qed.

Lemma cleanup_downloads_twice_witness :
  controllers.cleanup_downloads 200000
    (snd (controllers.cleanup_downloads 100000
            [ {| fname := "a.html"; mtime := 10; removable := true |};
              {| fname := "b.html"; mtime := 99999; removable := true |} ]))
  = (Ok tt, []).
Proof.
  destruct (cleanup_downloads_twice 100000 200000
              [ {| fname := "a.html"; mtime := 10; removable := true |};
                {| fname := "b.html"; mtime := 99999; removable := true |} ])
    as (between & Hfirst & Hsecond).
  - discriminate.
  - repeat constructor; cbn; intuition discriminate.
  - intros f [<-|[<-|[]]]; reflexivity.
  - rewrite Hfirst. cbn [snd]. rewrite Hsecond. reflexivity.
Defined.

(** ** app.py: the hooks and the remaining routes *)

Section page_properties.
Context {DB : Type} `{models.Datastore DB} `{utils.Extractor} `{auth.Sessions}
        `{models_read.Tokens DB} `{Builtins}.

(** X24. With an access list in force, the request is refused exactly when
    [is_client_allowed] rejects the first X-Forwarded-For value, or the
    peer address when the header is absent; when the header is present the
    peer address plays no part in the outcome. *)
Theorem before_request_gate (config : dict) (req : app_pages.Incoming) (db0 : DB) :
  app_pages.allow_list_active config = Ok true ->
  let client_ip := match app_pages.x_forwarded_for req with
                   | ip :: _ => Some ip
                   | [] => app_pages.remote_addr req
                   end in
  (app_pages.before_request_callback config req db0 = Ok app_pages.Forbidden
   <-> auth.is_client_allowed config client_ip = false)
  /\ (app_pages.x_forwarded_for req <> [] ->
      forall peer,
        app_pages.before_request_callback config
          {| app_pages.endpoint := app_pages.endpoint req;
             app_pages.x_forwarded_for := app_pages.x_forwarded_for req;
             app_pages.remote_addr := peer;
             app_pages.cookie := app_pages.cookie req |} db0
        = app_pages.before_request_callback config req db0).
Proof.
  intros Hactive client_ip. unfold app_pages.before_request_callback.
  rewrite Hactive. cbn [bind andb]. fold client_ip. split.
  - destruct (auth.is_client_allowed config client_ip); cbn [negb].
    + split; [|discriminate]. destruct (app_pages.endpoint req) as [e|]; [|discriminate].
      destruct (bool_decide _); discriminate.
    + split; reflexivity.
  - intros Hfwd peer. cbn. subst client_ip.
    destruct (app_pages.x_forwarded_for req); [congruence | reflexivity].
Qed.

(** Without an access list in force, no request is refused. *)
Lemma before_request_open (config : dict) (req : app_pages.Incoming) (db0 : DB) :
  app_pages.allow_list_active config = Ok false ->
  exists session, app_pages.before_request_callback config req db0
                  = Ok (app_pages.Ready session).
Proof.
  intros Hactive. unfold app_pages.before_request_callback. rewrite Hactive. cbn.
  destruct (app_pages.endpoint req) as [e|]; [destruct (bool_decide _)|]; eauto.
Qed.

(** X25. The route [/request] never raises and does not look at the Reddit
    token of the session: with an identifier in the submission it creates
    the job and starts the worker even when [flask.g.token] is [None],
    and the datastore it leaves does not depend on the token. *)
Theorem request_needs_no_token (config : dict) (g_cookie : string)
    (g_token : option string) (submission : option string) (job_id : string)
    (w : World DB) :
  (exists page, fst (app.request config g_cookie g_token submission job_id w) = Ok page)
  /\ fst (app.request config g_cookie g_token submission job_id w)
     = fst (app.request config g_cookie None submission job_id w)
  /\ db (snd (app.request config g_cookie g_token submission job_id w))
     = db (snd (app.request config g_cookie None submission job_id w))
  /\ (forall submission_id,
        utils.extract_id submission = Some submission_id ->
        app.request config g_cookie None submission job_id w
        = (Ok (app.request_html job_id),
           {| db := models.create_job (db w) job_id submission_id g_cookie;
              threads := threads w ++ [{| target_args := (submission_id, None, job_id);
                                          name := job_id; daemon := true |}];
              exchanges := exchanges w |})).
Proof.
  unfold app.request, controllers.request.
  destruct (utils.extract_id submission) as [sid|]; cbn.
  - repeat split; eauto. now intros ? [= <-].
  - repeat split; eauto. discriminate.
Qed.

End page_properties.

Lemma before_request_gate_witness :
  app_pages.before_request_callback (H := sample_pages.sessions)
    (H0 := sample_pages.tokens) sample_pages.gated_cfg
    {| app_pages.endpoint := Some "main"%string;
       app_pages.x_forwarded_for := ["203.0.113.7"%string];
       app_pages.remote_addr := Some "10.0.0.1"%string;
       app_pages.cookie := None |}
    (db sample.empty_world)
  = Ok app_pages.Forbidden.
Proof.
  apply (proj1 (before_request_gate (H1 := sample_pages.sessions)
                  (H2 := sample_pages.tokens) sample_pages.gated_cfg _ _
                  ltac:(vm_compute; reflexivity))).
  reflexivity.
Defined.

(** X26. After a successful load, [/debug-config] answers with the three keys
    [url], [name] and [version] of the [app] section, the version being
    "1.2.0"; nothing of the [reddit] section takes part in the answer. *)
Theorem debug_config_after_load `{Builtins} (env : config.environ)
    (config_yml config_docker_yml : option dict) (cfg : dict) :
  config.load env config_yml config_docker_yml = Ok cfg ->
  (exists url name,
     app_pages.debug_config cfg
     = Ok [("url"%string, url); ("name"%string, name);
           ("version"%string, Some (VStr "1.2.0"))])
  /\ forall reddit, app_pages.debug_config (<["reddit" := reddit]> cfg)
                    = app_pages.debug_config cfg.
Proof.
  intros Hload.
  destruct (load_keys _ _ _ _ Hload) as (Hversion & _).
  apply getitem_Ok in Hversion as (m & Hm & Hk). split.
  - unfold app_pages.debug_config. rewrite Hm, Hk. eauto.
  - intros reddit. unfold app_pages.debug_config.
    now rewrite lookup_insert_ne by discriminate.
Qed.

Lemma debug_config_after_load_witness :
  app_pages.debug_config sample.cfg
  = Ok [("url"%string, Some (VStr "https://example.com///"));
        ("name"%string, Some (VStr "Archiver"));
        ("version"%string, Some (VStr "1.2.0"))].
Proof.
  destruct (debug_config_after_load (H := sample.builtins) sample.env None None sample.cfg
              sample_cfg_loaded) as [(url & name & Hrun) _].
  rewrite Hrun. vm_compute in Hrun. now injection Hrun as <- <-.
Defined.
